(** * azads: the store adapter and the broadcast cycle engine

    A shallow embedding of [database.py] (the MongoDB adapter
    [EnhancedDatabaseManager]) and of the parts of [main.py] that decide
    the engine's behaviour: the schedule window, the start and stop
    requests, the pre-broadcast target list and the per-group send
    handlers of [run_broadcast]. *)

From Stdlib Require Import ZArith List String Ascii Bool Lia.
From stdpp Require Import base option list gmap strings.

Local Open Scope string_scope.
Local Open Scope list_scope.
Local Open Scope Z_scope.

(** ** Python values stored in documents *)

Module Py.

(** The field values the adapter reads and writes: [None], booleans,
    integers, strings and [datetime] stamps (as a number). *)
Inductive Value :=
| VNone
| VBool (b : bool)
| VInt (n : Z)
| VStr (s : string)
| VTime (t : Z).

#[global] Instance Value_eq_dec : EqDecision Value.
Proof. solve_decision. Defined.

(** Python truthiness, as used by [if not x] and [x or y]. *)
Definition truthy (v : Value) : bool :=
  match v with
  | VNone => false
  | VBool b => b
  | VInt n => negb (n =? 0)
  | VStr s => negb (String.eqb s EmptyString)
  | VTime _ => true
  end.

(** The integer a value stands for in arithmetic and comparisons; [bool]
    is a subclass of [int]. [None] where Python raises [TypeError]. *)
Definition as_int (v : Value) : option Z :=
  match v with
  | VInt n => Some n
  | VBool b => Some (Z.b2z b)
  | _ => None
  end.

(** [a % b]: [None] stands for [ZeroDivisionError]. For a non-zero
    divisor Python's result has the sign of the divisor, as [Z.modulo]. *)
Definition py_mod (a b : Z) : option Z :=
  if b =? 0 then None else Some (a mod b).

End Py.
Export Py.

(** ** The document store *)

Module Mongo.

(** A document is a dict of fields; a collection is the list of its
    documents in insertion order; the database maps collection names to
    collections ([self.db.<name>]; a name never written is empty). *)
Abbreviation Doc := (gmap string Value).
Abbreviation Collection := (list (gmap string Value)).
Abbreviation DB := (gmap string (list (gmap string Value))).

(** An equality filter such as [{"user_id": uid}]. *)
Abbreviation Query := (list (string * Value)).

Definition matches (q : Query) (d : Doc) : bool :=
  forallb (fun kv => bool_decide (d !! kv.1 = Some kv.2)) q.

Definition coll (db : DB) (name : string) : Collection :=
  default [] (db !! name).

Definition find (c : Collection) (q : Query) : list Doc :=
  List.filter (matches q) c.

Definition find_one (c : Collection) (q : Query) : option Doc :=
  List.find (matches q) c.

Definition delete_many (c : Collection) (q : Query) : Collection :=
  List.filter (fun d => negb (matches q d)) c.

(** Update operators. [$set] overwrites; [$inc] creates a missing field
    with the amount, adds to a number and is a write error on any other
    value. *)
Definition op_set (kvs : list (string * Value)) (d : Doc) : Doc :=
  fold_left (fun acc kv => <[kv.1 := kv.2]> acc) kvs d.

Definition inc_field (k : string) (n : Z) (d : Doc) : option Doc :=
  match d !! k with
  | None => Some (<[k := VInt n]> d)
  | Some (VInt m) => Some (<[k := VInt (m + n)]> d)
  | Some _ => None
  end.

Fixpoint op_inc (kns : list (string * Z)) (d : Doc) : option Doc :=
  match kns with
  | [] => Some d
  | (k, n) :: rest =>
      match inc_field k n d with
      | Some d' => op_inc rest d'
      | None => None
      end
  end.

(** An update document [{"$inc": incs, "$set": sets}]. *)
Record Update := { u_inc : list (string * Z); u_set : list (string * Value) }.

Definition apply_update (u : Update) (d : Doc) : option Doc :=
  op_set (u_set u) <$> op_inc (u_inc u) d.

(** [update_one(filter, update, upsert)]: the first matching document is
    rewritten; with no match and [upsert] a document made of the filter's
    fields is inserted and updated. [None] is a write error, which the
    driver raises and which leaves the collection as it was. *)
Fixpoint replace_first (q : Query) (d' : Doc) (c : Collection) : Collection :=
  match c with
  | [] => []
  | d :: c' => if matches q d then d' :: c' else d :: replace_first q d' c'
  end.

Definition update_one (c : Collection) (q : Query) (u : Update) (upsert : bool)
  : option Collection :=
  match find_one c q with
  | Some d =>
      match apply_update u d with
      | Some d' => Some (replace_first q d' c)
      | None => None
      end
  | None =>
      if upsert then
        match apply_update u (list_to_map q) with
        | Some d' => Some (c ++ [d'])
        | None => None
        end
      else Some c
  end.

Definition set_coll (db : DB) (name : string) (c : Collection) : DB :=
  <[name := c]> db.

(** The document an upsert by [{"user_id": uid}] works on: the first
    match, or the filter's own fields. *)
Definition base_doc (c : Collection) (uid : Z) : Doc :=
  default (list_to_map [("user_id", VInt uid)]) (find_one c [("user_id", VInt uid)]).

(** [d.get(k, dflt)] on a document. *)
Definition get_or (d : Doc) (k : string) (dflt : Value) : Value :=
  default dflt (d !! k).

End Mongo.
Export Mongo.

(** ** database.py: [EnhancedDatabaseManager]

    Every method takes the database and returns what it returns, with
    the new database where it writes. A method that re-raises a failed
    write returns [option]; a method that swallows it returns the
    database unchanged. [now] is [datetime.utcnow()]. *)

Module Database.

Definition by_user (user_id : Z) : Query := [("user_id", VInt user_id)].

Definition get_user (db : DB) (user_id : Z) : option Doc :=
  find_one (coll db "users") (by_user user_id).

Definition get_user_accounts (db : DB) (user_id : Z) : list Doc :=
  find (coll db "accounts") (by_user user_id).

(** [count = user.get("saved_messages_count", 3) if user else 3]; a
    count [<= 0] becomes 3; a value that cannot be compared with 0
    raises inside the [try] and the handler returns 3. *)
Definition get_user_saved_messages_count (db : DB) (user_id : Z) : Z :=
  match find_one (coll db "users") (by_user user_id) with
  | Some user =>
      match as_int (get_or user "saved_messages_count" (VInt 3)) with
      | Some count => if count <=? 0 then 3 else count
      | None => 3
      end
  | None => 3
  end.

(** The dict [get_user_post_link] builds, or [None] without a user. *)
Definition get_user_post_link (db : DB) (user_id : Z) : option Doc :=
  match find_one (coll db "users") (by_user user_id) with
  | Some user =>
      Some {[ "post_link" := get_or user "post_link" VNone;
              "saved_from_peer" := get_or user "saved_from_peer" VNone;
              "saved_msg_id" := get_or user "saved_msg_id" VNone;
              "message_source" := get_or user "message_source" (VStr "saved_messages") ]}
  | None => None
  end.

Definition get_broadcast_mode (db : DB) (user_id : Z) : Value :=
  match find_one (coll db "users") (by_user user_id) with
  | Some user => get_or user "broadcast_mode" (VStr "both")
  | None => VStr "both"
  end.

Definition reset_ad_cycle (db : DB) (user_id : Z) : DB * bool :=
  match update_one (coll db "users") (by_user user_id)
          {| u_inc := []; u_set := [("ad_cycle_index", VInt 0)] |} true with
  | Some c => (set_coll db "users" c, true)
  | None => (db, false)
  end.

(** A stored document is never falsy (it carries [_id]), so
    [doc if doc else {...}] is the document whenever one is found. *)
Definition get_broadcast_state (db : DB) (user_id : Z) : Doc :=
  match find_one (coll db "broadcast_states") (by_user user_id) with
  | Some doc => doc
  | None => {[ "running" := VBool false; "paused" := VBool false ]}
  end.

Definition set_broadcast_state (db : DB) (user_id : Z) (running paused : bool)
    (now : Z) : option DB :=
  match update_one (coll db "broadcast_states") (by_user user_id)
          {| u_inc := [];
             u_set := [("running", VBool running); ("paused", VBool paused);
                       ("updated_at", VTime now)] |} true with
  | Some c => Some (set_coll db "broadcast_states" c)
  | None => None
  end.

Definition get_current_ad_cycle (db : DB) (user_id : Z) : Value :=
  match find_one (coll db "users") (by_user user_id) with
  | Some user => get_or user "ad_cycle_index" (VInt 0)
  | None => VInt 0
  end.

(** [next_cycle = (current_cycle + 1) % user_msg_count]; any exception
    (a stored index that is not a number, a zero modulus, a failed write)
    is caught and the method returns 0 without writing. *)
Definition update_ad_cycle (db : DB) (user_id : Z) : DB * Z :=
  let user_msg_count := get_user_saved_messages_count db user_id in
  if user_msg_count =? 0 then (db, 0)
  else
    match as_int (get_current_ad_cycle db user_id) with
    | Some current_cycle =>
        match py_mod (current_cycle + 1) user_msg_count with
        | Some next_cycle =>
            match update_one (coll db "users") (by_user user_id)
                    {| u_inc := [];
                       u_set := [("ad_cycle_index", VInt next_cycle)] |} true with
            | Some c => (set_coll db "users" c, next_cycle)
            | None => (db, 0)
            end
        | None => (db, 0)
        end
    | None => (db, 0)
    end.

(** The database after one more completed cycle. *)
Definition advance (user_id : Z) (db : DB) : DB := (update_ad_cycle db user_id).1.

(** The analytics write comes first; when it fails the exception is
    re-raised and the rotation pointer is not advanced. *)
Definition increment_broadcast_cycle (db : DB) (user_id : Z) (now : Z)
  : option DB :=
  match update_one (coll db "analytics") (by_user user_id)
          {| u_inc := [("total_cycles", 1)];
             u_set := [("updated_at", VTime now)] |} true with
  | Some c => Some (update_ad_cycle (set_coll db "analytics" c) user_id).1
  | None => None
  end.

Definition get_target_groups (db : DB) (user_id : Z) : list Doc :=
  find (coll db "target_groups") (by_user user_id).

Definition get_forum_groups (db : DB) (user_id : Z) : list Doc :=
  find (coll db "forum_groups") (by_user user_id).

Definition get_user_analytics (db : DB) (user_id : Z) : Doc :=
  match find_one (coll db "analytics") (by_user user_id) with
  | Some stats => stats
  | None =>
      {[ "total_broadcasts" := VInt 0; "total_sent" := VInt 0;
         "total_failed" := VInt 0; "total_cycles" := VInt 0;
         "vouch_successes" := VInt 0; "vouch_failures" := VInt 0 ]}
  end.

(** [increment_broadcast_stats(user_id, success)]; every caller leaves
    [group_id] and [account_id] at [None], so the per-group and
    per-account increments are never added to the update. *)
Definition increment_broadcast_stats (db : DB) (user_id : Z) (success : bool)
    (now : Z) : option DB :=
  match update_one (coll db "analytics") (by_user user_id)
          {| u_inc := [(if success then "total_sent" else "total_failed", 1);
                       ("total_broadcasts", 1)];
             u_set := [("updated_at", VTime now)] |} true with
  | Some c => Some (set_coll db "analytics" c)
  | None => None
  end.

(** The method returns a two-key dict in every case. *)
Definition get_logger_status (db : DB) (user_id : Z) : Doc :=
  match find_one (coll db "logger_status") (by_user user_id) with
  | Some doc =>
      let is_started := get_or doc "is_started" (get_or doc "is_active" (VBool false)) in
      {[ "is_started" := is_started; "is_active" := is_started ]}
  | None => {[ "is_started" := VBool false; "is_active" := VBool false ]}
  end.

Definition set_logger_status (db : DB) (user_id : Z) (is_active : bool)
    (now : Z) : option DB :=
  match update_one (coll db "logger_status") (by_user user_id)
          {| u_inc := [];
             u_set := [("is_active", VBool is_active); ("is_started", VBool is_active);
                       ("updated_at", VTime now)] |} true with
  | Some c => Some (set_coll db "logger_status" c)
  | None => None
  end.

(** The collections [delete_user_fully] walks, in its order. *)
Definition collections : list string :=
  [ "users"; "accounts"; "ad_pointers";
    "ad_delays"; "group_msg_delays"; "cycle_timeouts";
    "broadcast_states"; "broadcast_logs"; "broadcast_activity";
    "target_groups"; "logger_status";
    "logger_failures"; "temp_data"; "groups_cache" ].

(** [getattr(self.db, coll, None)] is a collection for every name, so the
    [delete_many] runs for each entry of the list. *)
Definition delete_user_fully (db : DB) (user_id : Z) : DB * bool :=
  (fold_left
     (fun acc name => set_coll acc name (delete_many (coll acc name) (by_user user_id)))
     collections db,
   true).

End Database.
Export Database.

(** ** Strings as the engine inspects them *)

Module Str.

Definition lower_ascii (c : ascii) : ascii :=
  let n := nat_of_ascii c in
  if ((65 <=? n) && (n <=? 90))%nat then ascii_of_nat (n + 32) else c.

Definition upper_ascii (c : ascii) : ascii :=
  let n := nat_of_ascii c in
  if ((97 <=? n) && (n <=? 122))%nat then ascii_of_nat (n - 32) else c.

Fixpoint map_string (f : ascii -> ascii) (s : string) : string :=
  match s with
  | EmptyString => EmptyString
  | String c s' => String (f c) (map_string f s')
  end.

(** [s.lower()] and [s.upper()] on ASCII text. *)
Definition lower (s : string) : string := map_string lower_ascii s.
Definition upper (s : string) : string := map_string upper_ascii s.

(** [needle in hay]. *)
Fixpoint contains (needle hay : string) : bool :=
  String.prefix needle hay ||
  match hay with
  | EmptyString => false
  | String _ hay' => contains needle hay'
  end.

(** [s[:n]]. *)
Definition take_prefix (n : nat) (s : string) : string := String.substring 0 n s.

End Str.

(** ** main.py: the schedule window *)

Module Schedule.

(** Times are counted in microseconds: a [datetime] in IST is the number
    of microseconds since a midnight in IST, a [time] the number since
    the start of its day. IST has no daylight saving, so a day is always
    [day_us] long. *)
Definition second_us : Z := 1000000.
Definition minute_us : Z := 60 * second_us.
Definition hour_us : Z := 60 * minute_us.
Definition day_us : Z := 24 * hour_us.

(** [dt.time()] and the midnight of [dt.date()]. *)
Definition time_of (dt : Z) : Z := dt mod day_us.
Definition date_of (dt : Z) : Z := dt - time_of dt.

(** Wall-clock reading [h:m:s.us] as a [time]. *)
Definition clock (h m s us : Z) : Z := h * hour_us + m * minute_us + s * second_us + us.

Definition digit (c : ascii) : option Z :=
  let n := nat_of_ascii c in
  if ((48 <=? n) && (n <=? 57))%nat then Some (Z.of_nat (n - 48)) else None.

Definition is_space (c : ascii) : bool :=
  let n := nat_of_ascii c in
  ((n =? 32) || ((9 <=? n) && (n <=? 13)))%nat.

(** [%I]: [1[0-2]|0[1-9]|[1-9]]. *)
Definition parse_I (s : list ascii) : option (Z * list ascii) :=
  match s with
  | c1 :: rest =>
      match digit c1 with
      | Some 1 =>
          match rest with
          | c2 :: rest' =>
              match digit c2 with
              | Some d2 => if d2 <=? 2 then Some (10 + d2, rest') else Some (1, rest)
              | None => Some (1, rest)
              end
          | [] => Some (1, rest)
          end
      | Some 0 =>
          match rest with
          | c2 :: rest' =>
              match digit c2 with
              | Some d2 => if 1 <=? d2 then Some (d2, rest') else None
              | None => None
              end
          | [] => None
          end
      | Some d1 => Some (d1, rest)
      | None => None
      end
  | [] => None
  end.

(** [%M]: [[0-5]\d|\d]. *)
Definition parse_M (s : list ascii) : option (Z * list ascii) :=
  match s with
  | c1 :: rest =>
      match digit c1 with
      | Some d1 =>
          match rest with
          | c2 :: rest' =>
              match digit c2 with
              | Some d2 => if d1 <=? 5 then Some (10 * d1 + d2, rest') else Some (d1, rest)
              | None => Some (d1, rest)
              end
          | [] => Some (d1, rest)
          end
      | None => None
      end
  | [] => None
  end.

(** The blank of the format matches [\s+]. *)
Fixpoint skip_spaces (s : list ascii) : list ascii :=
  match s with
  | c :: rest => if is_space c then skip_spaces rest else s
  | [] => []
  end.

(** [%p], matched without regard to case; [true] is PM. Nothing may
    follow it. *)
Definition parse_p (s : list ascii) : option bool :=
  match s with
  | [a; m] =>
      if Ascii.eqb (Str.lower_ascii m) "m"%char then
        if Ascii.eqb (Str.lower_ascii a) "a"%char then Some false
        else if Ascii.eqb (Str.lower_ascii a) "p"%char then Some true
        else None
      else None
  | _ => None
  end.

(** [datetime.strptime(s, "%I:%M %p").time()]; [None] is [ValueError]. *)
Definition strptime_IMp (s : string) : option Z :=
  match parse_I (list_ascii_of_string s) with
  | Some (hour, ":"%char :: rest1) =>
      match parse_M rest1 with
      | Some (minute, sp :: rest2) =>
          if is_space sp then
            match parse_p (skip_spaces rest2) with
            | Some pm =>
                let hour24 :=
                  if pm then (if hour =? 12 then 12 else hour + 12)
                  else (if hour =? 12 then 0 else hour) in
                Some (clock hour24 minute 0 0)
            | None => None
            end
          else None
      | _ => None
      end
  | _ => None
  end.

Inductive ScheduleMsg :=
| ScheduleDisabled
| WithinSchedule
| OutsideSchedule (start_time_str : string) (hours minutes : Z)
| ScheduleCheckError.

(** A string field of the user document; [None] where [strptime] is
    handed something that is not a string. *)
Definition str_field (d : Doc) (k dflt : string) : option string :=
  match get_or d k (VStr dflt) with
  | VStr s => Some s
  | _ => None
  end.

(** [is_within_schedule(user_data)] at [current_time = get_ist_now()].
    [user_data] is what [db.get_user] returned; every exception inside
    (no user document, a field that does not parse) ends in
    [(True, "Schedule check error - continuing")]. *)
Definition is_within_schedule (user_data : option Doc) (current_time : Z)
  : bool * ScheduleMsg :=
  match user_data with
  | None => (true, ScheduleCheckError)
  | Some user_data =>
      if negb (truthy (get_or user_data "schedule_enabled" (VBool false)))
      then (true, ScheduleDisabled)
      else
        match str_field user_data "schedule_start_time" "12:00 AM",
              str_field user_data "schedule_end_time" "11:59 PM" with
        | Some start_time_str, Some end_time_str =>
            match strptime_IMp start_time_str, strptime_IMp end_time_str with
            | Some start_time, Some end_time =>
                let current_time_only := time_of current_time in
                let within_schedule :=
                  if start_time <=? end_time
                  then (start_time <=? current_time_only) && (current_time_only <=? end_time)
                  else (start_time <=? current_time_only) || (current_time_only <=? end_time) in
                if within_schedule then (true, WithinSchedule)
                else
                  let today := date_of current_time + start_time in
                  let tomorrow := date_of current_time + day_us + start_time in
                  let next_start :=
                    if start_time <=? end_time
                    then (if current_time_only <? start_time then today else tomorrow)
                    else (if (end_time <? current_time_only) && (current_time_only <? start_time)
                          then today else tomorrow) in
                  let wait_duration := next_start - current_time in
                  let hours := wait_duration / hour_us in
                  let minutes := (wait_duration mod hour_us) / minute_us in
                  (false, OutsideSchedule start_time_str hours minutes)
            | _, _ => (true, ScheduleCheckError)
            end
        | _, _ => (true, ScheduleCheckError)
        end
  end.

End Schedule.

(** ** main.py: the broadcast cycle engine ([run_broadcast]) *)

Module Engine.

Record Topic := { t_id : Z; t_title : string; closed : bool }.

(** A target as the pre-broadcast analysis leaves it:
    [{'id', 'title', 'is_forum', 'topics'}]. *)
Record Group := { g_id : Z; g_title : string; is_forum : bool; topics : list Topic }.

#[global] Instance Topic_eq_dec : EqDecision Topic.
Proof. solve_decision. Defined.
#[global] Instance Group_eq_dec : EqDecision Group.
Proof. solve_decision. Defined.

(** Which [except] clause of the send block takes an exception, in the
    order the clauses are written: [except FloodWait] (the class imported
    from [pyrogram.errors]), [except RPCError] (the class imported from
    [telethon.errors]), [except Exception]. *)
Inductive ExcClass := FloodWait | RPCError | OtherException.

(** An exception: its class, [str(e)], and the attributes the rate-limit
    clause reads with [getattr(e, "value", 0)] and [getattr(e, "x", 0)]
    ([None] when the attribute is missing). *)
Record Exn := {
  exn_class : ExcClass;
  exn_msg : string;
  exn_value : option Z;
  exn_x : option Z
}.

Inductive Outcome := Returns | Raises (e : Exn).

(** What Telegram answers while one group is visited. [v_prepare] is
    [false] when the message to forward cannot be prepared (post-link
    data without peer or message id, no Saved Messages, or an exception
    while reading them): the loop moves on without counting anything. *)
Record Visit := {
  v_prepare : bool;
  v_get_entity : Outcome;
  v_forward_topic : Z -> Outcome;
  v_forward : Outcome
}.

(** [send_dm_log] texts, by their headline. *)
Inductive Dm :=
| DmBroadcastingToForum (n_topics : Z)
| DmForumBroadcastComplete (topics_sent topics_failed topics_skipped : Z)
| DmSentToGroup
| DmRateLimited (wait_time : Z)
| DmFailedToSend (reason : string)
| DmForumTopicClosed
| DmSendFailedSkippingGroup (reason : string)
| DmTemporaryError (reason : string)
| DmCycleCompleted (cycle_count sent failed next_msg_num : Z)
| DmScheduledAdsPaused
| DmScheduleTimeEnded.

(** What the engine does to the outside, in order. *)
Inductive Event :=
| EvGetEntity (acc_id group_id : Z)
| EvForward (acc_id group_id : Z) (topic : option Z)
| EvSleep (seconds : Z)
| EvDm (text : Dm).

(** The local variables of [run_broadcast] once the loop is entered,
    together with the database and the trace of effects. *)
Record State := {
  db : DB;
  sent_count : Z;
  failed_count : Z;
  cycle_count : Z;
  current_cycle : Value;
  working_groups_map : gmap Z (list Group);
  trace : list Event
}.

(** The values read once before the loop. *)
Record Config := {
  uid : Z;
  accounts : list Z;
  clients : list Z;
  delay : Z;
  group_msg_delay : Z;
  cycle_timeout : Z
}.

Definition emit (ev : Event) (st : State) : State :=
  {| db := db st; sent_count := sent_count st; failed_count := failed_count st;
     cycle_count := cycle_count st; current_cycle := current_cycle st;
     working_groups_map := working_groups_map st; trace := trace st ++ [ev] |}.

Definition with_db (d : DB) (st : State) : State :=
  {| db := d; sent_count := sent_count st; failed_count := failed_count st;
     cycle_count := cycle_count st; current_cycle := current_cycle st;
     working_groups_map := working_groups_map st; trace := trace st |}.

Definition add_sent (st : State) : State :=
  {| db := db st; sent_count := sent_count st + 1; failed_count := failed_count st;
     cycle_count := cycle_count st; current_cycle := current_cycle st;
     working_groups_map := working_groups_map st; trace := trace st |}.

Definition add_failed (st : State) : State :=
  {| db := db st; sent_count := sent_count st; failed_count := failed_count st + 1;
     cycle_count := cycle_count st; current_cycle := current_cycle st;
     working_groups_map := working_groups_map st; trace := trace st |}.

(** [list.remove(x)]: the first element equal to [x] goes; the
    [ValueError] of a missing element is passed over. *)
Fixpoint remove_first (x : Group) (l : list Group) : list Group :=
  match l with
  | [] => []
  | y :: l' => if decide (x = y) then l' else y :: remove_first x l'
  end.

(** [working_groups] is the list object held in [working_groups_map]
    under the account, so removing from it changes the map entry. *)
Definition remove_working_group (acc_id : Z) (group : Group) (st : State) : State :=
  {| db := db st; sent_count := sent_count st; failed_count := failed_count st;
     cycle_count := cycle_count st; current_cycle := current_cycle st;
     working_groups_map := alter (remove_first group) acc_id (working_groups_map st);
     trace := trace st |}.

(** [int(getattr(e, "value", 0) or getattr(e, "x", 0) or 1)]. *)
Definition wait_time (e : Exn) : Z :=
  let value := default 0 (exn_value e) in
  let x := default 0 (exn_x e) in
  if negb (value =? 0) then value else if negb (x =? 0) then x else 1.

(** [except FloodWait as e]. *)
Definition on_flood_wait (e : Exn) (st : State) : State :=
  let st := add_failed st in
  let st := emit (EvDm (DmRateLimited (wait_time e))) st in
  emit (EvSleep (wait_time e + 2)) st.

(** [except RPCError as e]: counted, reported, the group stays. *)
Definition rpc_reason (error_msg : string) : string :=
  let err_lower := Str.lower error_msg in
  if Str.contains "banned" err_lower then "Account Banned"
  else if Str.contains "forbidden" err_lower || Str.contains "chat_write_forbidden" err_lower
  then "No Send Permission"
  else if Str.contains "kicked" err_lower then "Bot Removed"
  else if Str.contains "rights" err_lower || Str.contains "not enough" err_lower
  then "Insufficient Rights"
  else if Str.contains "restricted" err_lower then "Group Restricted"
  else Str.take_prefix 50 error_msg.

Definition on_rpc_error (e : Exn) (st : State) : State :=
  let st := add_failed st in
  emit (EvDm (DmFailedToSend (rpc_reason (exn_msg e)))) st.

(** [except Exception as e]. *)
Definition generic_reason (error_msg : string) : string :=
  let err := Str.lower error_msg in
  if Str.contains "banned" err then "Account Banned"
  else if Str.contains "forbidden" err then "No Permission"
  else if Str.contains "kicked" err then "Bot Removed"
  else if Str.contains "rights" err || Str.contains "not enough" err
  then "Insufficient Rights"
  else if Str.contains "peer_id_invalid" err then "Invalid Group ID"
  else if Str.contains "topic_closed" err then "Forum Topic Closed"
  else Str.take_prefix 50 error_msg.

Definition is_permanent (err : string) : bool :=
  existsb (fun k => Str.contains k err)
    ["banned"; "forbidden"; "kicked"; "rights"; "not enough"].

Definition temporary_reason (error_msg : string) : string :=
  let err := Str.lower error_msg in
  if Str.contains "peer" err then "Invalid Peer"
  else if Str.contains "timeout" err || Str.contains "network" err then "Network Timeout"
  else if Str.contains "monoforum" err || Str.contains "reply" err then "Forum Error"
  else if (40 <? Z.of_nat (String.length error_msg))
       then Str.take_prefix 40 error_msg +:+ "..."
       else error_msg.

Definition on_exception (acc_id : Z) (group : Group) (e : Exn) (st : State) : State :=
  let err := Str.lower (exn_msg e) in
  let st := add_failed st in
  let st :=
    if Str.contains "topic_closed" err
    then emit (EvDm DmForumTopicClosed) st
    else emit (EvDm (DmSendFailedSkippingGroup (generic_reason (exn_msg e)))) st in
  if is_permanent err
  then remove_working_group acc_id group st
  else emit (EvDm (DmTemporaryError (temporary_reason (exn_msg e)))) st.

(** The three clauses after the send block, tried in their order. *)
Definition handle_send_error (acc_id : Z) (group : Group) (e : Exn) (st : State) : State :=
  match exn_class e with
  | FloodWait => on_flood_wait e st
  | RPCError => on_rpc_error e st
  | OtherException => on_exception acc_id group e st
  end.

(** The outside world of a run: Telegram's answers for the visit of a
    group by an account in a cycle, and the two clocks, read as a
    function of how many effects the run has produced so far. *)
Record World := {
  telegram : Z -> Z -> Group -> Visit;
  utcnow : nat -> Z;
  get_ist_now : nat -> Z
}.

(** How a piece of the loop body ends: it falls through to what follows,
    the stop check raises [CancelledError], or an exception that no
    clause of the loop takes reaches the outer [except Exception]. *)
Inductive Flow :=
| Next (st : State)
| Cancelled (st : State)
| Crashed (st : State).

Definition is_next (f : Flow) : bool :=
  match f with
  | Next _ => true
  | _ => false
  end.

Definition flow_state (f : Flow) : State :=
  match f with
  | Next st | Cancelled st | Crashed st => st
  end.

Definition is_running (d : DB) (user_id : Z) : bool :=
  truthy (get_or (get_broadcast_state d user_id) "running" (VBool false)).

(** The counters as the bot shows them: [analytics.get('total_sent', 0)]
    and [analytics.get('total_failed', 0)]. *)
Definition total_sent (d : DB) (user_id : Z) : Value :=
  get_or (get_user_analytics d user_id) "total_sent" (VInt 0).

Definition total_failed (d : DB) (user_id : Z) : Value :=
  get_or (get_user_analytics d user_id) "total_failed" (VInt 0).

(** The working set of an account:
    [working_groups_map.get(acc_id, [])]. *)
Definition working_groups (st : State) (acc_id : Z) : list Group :=
  default [] (working_groups_map st !! acc_id).

(** The exception of a failed analytics write, as the send block sees
    it: not a Telegram error, so the last clause takes it. *)
Definition write_error : Exn :=
  {| exn_class := OtherException;
     exn_msg := "Cannot apply $inc to a value of non-numeric type";
     exn_value := None; exn_x := None |}.

(** [db.increment_broadcast_stats(uid, True)] after a forward. *)
Definition record_sent (w : World) (cfg : Config) (st : State) : option State :=
  match increment_broadcast_stats (db st) (uid cfg) true (utcnow w (length (trace st))) with
  | Some d => Some (with_db d st)
  | None => None
  end.

(** The topic loop of a forum target. Each topic has its own
    [try/except Exception]: a failed forward is counted in
    [topics_failed] alone and followed by a 2 second sleep. *)
Fixpoint forward_to_topics (w : World) (cfg : Config) (acc_id : Z) (group : Group)
    (v : Visit) (ts : list Topic) (tally : Z * Z * Z) (st : State)
  : Z * Z * Z * State :=
  match ts with
  | [] => (tally, st)
  | topic :: ts' =>
      let '(topics_sent, topics_failed, topics_skipped) := tally in
      if closed topic
      then forward_to_topics w cfg acc_id group v ts'
             (topics_sent, topics_failed, topics_skipped + 1) st
      else
        let st := emit (EvForward acc_id (g_id group) (Some (t_id topic))) st in
        let failed (error_msg : string) (sent : Z) (st : State) :=
          let skipped :=
            if Str.contains "TOPIC_CLOSED" (Str.upper error_msg)
            then topics_skipped + 1 else topics_skipped in
          forward_to_topics w cfg acc_id group v ts'
            (sent, topics_failed + 1, skipped) (emit (EvSleep 2) st) in
        match v_forward_topic v (t_id topic) with
        | Returns =>
            let st := add_sent st in
            match record_sent w cfg st with
            | Some st =>
                forward_to_topics w cfg acc_id group v ts'
                  (topics_sent + 1, topics_failed, topics_skipped)
                  (emit (EvSleep (group_msg_delay cfg)) st)
            | None => failed (exn_msg write_error) (topics_sent + 1) st
            end
        | Raises e => failed (exn_msg e) topics_sent st
        end
  end.

(** The body of [for group in working_groups[:]] for one group. *)
Definition visit_group (w : World) (cfg : Config) (acc_id : Z) (group : Group)
    (st : State) : Flow :=
  if negb (is_running (db st) (uid cfg)) then Cancelled st
  else
    let v := telegram w (cycle_count st) acc_id group in
    if negb (v_prepare v) then Next st
    else
      let current_delay := group_msg_delay cfg in
      let st := emit (EvGetEntity acc_id (g_id group)) st in
      match v_get_entity v with
      | Raises _ => Next (add_failed st)
      | Returns =>
          if is_forum group && negb (bool_decide (topics group = []))
          then
            let st := emit (EvDm (DmBroadcastingToForum (Z.of_nat (length (topics group))))) st in
            let '(topics_sent, topics_failed, topics_skipped, st) :=
              forward_to_topics w cfg acc_id group v (topics group) (0, 0, 0) st in
            let st := emit (EvDm (DmForumBroadcastComplete
                                    topics_sent topics_failed topics_skipped)) st in
            Next (emit (EvSleep current_delay) st)
          else
            let st := emit (EvForward acc_id (g_id group) None) st in
            match v_forward v with
            | Returns =>
                let st := add_sent st in
                match record_sent w cfg st with
                | Some st =>
                    let st := emit (EvDm DmSentToGroup) st in
                    Next (emit (EvSleep current_delay) st)
                | None => Next (handle_send_error acc_id group write_error st)
                end
            | Raises e => Next (handle_send_error acc_id group e st)
            end
      end.

(** [for group in working_groups[:]]: the copy taken when the account's
    turn starts is what is iterated. *)
Fixpoint visit_groups (w : World) (cfg : Config) (acc_id : Z) (snapshot : list Group)
    (st : State) : Flow :=
  match snapshot with
  | [] => Next st
  | group :: rest =>
      match visit_group w cfg acc_id group st with
      | Next st' => visit_groups w cfg acc_id rest st'
      | other => other
      end
  end.

(** [for acc in accounts]: an account without a started client is
    skipped; [working_groups_map.get(acc_id, [])]. *)
Fixpoint visit_accounts (w : World) (cfg : Config) (accs : list Z) (st : State) : Flow :=
  match accs with
  | [] => Next st
  | acc_id :: rest =>
      if negb (bool_decide (acc_id ∈ clients cfg)) then visit_accounts w cfg rest st
      else
        match visit_groups w cfg acc_id (working_groups st acc_id) st with
        | Next st' => visit_accounts w cfg rest st'
        | other => other
        end
  end.

Definition set_cycle (cc : Z) (cur : Value) (st : State) : State :=
  {| db := db st; sent_count := sent_count st; failed_count := failed_count st;
     cycle_count := cc; current_cycle := cur;
     working_groups_map := working_groups_map st; trace := trace st |}.

(** What follows the two [for] loops: the rotation pointer advances, the
    cycle summary is sent, and the engine sleeps. *)
Definition end_of_cycle (w : World) (cfg : Config) (st : State) : Flow :=
  match increment_broadcast_cycle (db st) (uid cfg) (utcnow w (length (trace st))) with
  | None => Crashed st
  | Some d =>
      let st := with_db d st in
      let cur := get_current_ad_cycle (db st) (uid cfg) in
      let st := set_cycle (cycle_count st) cur st in
      let user_msg_count := get_user_saved_messages_count (db st) (uid cfg) in
      match as_int cur with
      | None => Crashed st
      | Some c =>
          match py_mod c user_msg_count with
          | None => Crashed st
          | Some r =>
              let st := emit (EvDm (DmCycleCompleted (cycle_count st) (sent_count st)
                                      (failed_count st) (r + 1))) st in
              let st := if cycle_count st mod 5 =? 0
                        then emit (EvSleep (cycle_timeout cfg)) st else st in
              Next (emit (EvSleep (delay cfg)) st)
          end
      end
  end.

(** One pass over all accounts and groups. *)
Definition run_cycle (w : World) (cfg : Config) (st : State) : Flow :=
  let st := set_cycle (cycle_count st + 1) (current_cycle st) st in
  match visit_accounts w cfg (accounts cfg) st with
  | Next st' => end_of_cycle w cfg st'
  | other => other
  end.

(** One turn of [while db.get_broadcast_state(uid).get("running", False)]:
    the loop goes round again, is left (the flag is down, or [break]),
    is cancelled by the stop check, or fails. *)
Inductive Turn :=
| Again (st : State)
| LoopLeft (st : State)
| TurnCancelled (st : State)
| TurnCrashed (st : State).

Definition turn_state (t : Turn) : State :=
  match t with
  | Again st | LoopLeft st | TurnCancelled st | TurnCrashed st => st
  end.

Definition loop_turn (w : World) (cfg : Config) (schedule_end_time : option Z)
    (st : State) : Turn :=
  if negb (is_running (db st) (uid cfg)) then LoopLeft st
  else
    let now := get_ist_now w (length (trace st)) in
    let ended :=
      match schedule_end_time with
      | Some t => t <=? now
      | None => false
      end in
    if ended then
      match get_user (db st) (uid cfg) with
      | None => TurnCrashed st
      | Some _ =>
          let st := emit (EvDm DmScheduleTimeEnded) st in
          match set_broadcast_state (db st) (uid cfg) false false
                  (utcnow w (length (trace st))) with
          | Some d => LoopLeft (with_db d st)
          | None => TurnCrashed st
          end
      end
    else
      let user_data := get_user (db st) (uid cfg) in
      let '(within_schedule, _) := Schedule.is_within_schedule user_data now in
      if negb within_schedule then
        let st := emit (EvDm DmScheduledAdsPaused) st in
        Again (emit (EvSleep 300) st)
      else
        match run_cycle w cfg st with
        | Next st' => Again st'
        | Cancelled st' => TurnCancelled st'
        | Crashed st' => TurnCrashed st'
        end.

(** The loop, for at most [fuel] turns. *)
Fixpoint run_loop (fuel : nat) (w : World) (cfg : Config) (schedule_end_time : option Z)
    (st : State) : Turn :=
  match fuel with
  | O => Again st
  | S fuel' =>
      match loop_turn w cfg schedule_end_time st with
      | Again st' => run_loop fuel' w cfg schedule_end_time st'
      | other => other
      end
  end.

(** The way out of [run_broadcast] once the loop has ended: the
    [finally] clause writes [running=False]; an exception that reached
    the outer [except Exception] is then recorded with
    [increment_broadcast_stats(uid, False)], the one place where the
    engine adds to [total_failed]. [None]: a write failed on the way. *)
Definition leave (w : World) (cfg : Config) (t : Turn) : option DB :=
  let stop (d : DB) (st : State) :=
    set_broadcast_state d (uid cfg) false false (utcnow w (length (trace st))) in
  match t with
  | Again st => Some (db st)
  | LoopLeft st | TurnCancelled st => stop (db st) st
  | TurnCrashed st =>
      match stop (db st) st with
      | Some d =>
          match increment_broadcast_stats d (uid cfg) false
                  (utcnow w (length (trace st))) with
          | Some d' => stop d' st
          | None => None
          end
      | None => None
      end
  end.

End Engine.

(** ** main.py: the pre-broadcast analysis of [run_broadcast] *)

Module Analysis.
Import Engine.

Record Restricted := { r_id : Z; r_title : string; r_reason : string }.

(** What [tg_client.get_entity(group_id)] gives [check_group]: an entity
    with the attributes the check reads, or one of the exceptions it
    tells apart. [ent_topics] is [None] when the topic request raised;
    [ent_send_banned] stands for an entity that has
    [default_banned_rights] with [send_messages] set. *)
Record Entity := {
  ent_title : option string;
  ent_name : option string;
  ent_forum : bool;
  ent_topics : option (list Topic);
  ent_send_banned : bool
}.

Inductive Lookup :=
| Found (e : Entity)
| RaisesChatWriteForbiddenError
| RaisesValueError
| RaisesOther.

(** The pair [check_group] returns: a usable group, a restricted one, or
    (last clause) the stored document itself in the place of a usable
    group. *)
Inductive CheckResult :=
| Usable (g : Group)
| IsRestricted (r : Restricted)
| Unchecked (stored : Doc).

Definition is_mode (mode : Value) (name : string) : bool :=
  bool_decide (mode = VStr name).

Definition open_topics (ts : list Topic) : list Topic :=
  map (fun t => {| t_id := t_id t; t_title := t_title t; closed := false |})
      (List.filter (fun t => negb (closed t)) ts).

Definition check_group (broadcast_mode : Value) (stored : Doc) (group_id : Z)
    (group_title : string) (lk : Lookup) : CheckResult :=
  match lk with
  | Found e =>
      let group_title :=
        match ent_title e, ent_name e with
        | Some t, _ => t
        | None, Some n => n
        | None, None => group_title
        end in
      if is_mode broadcast_mode "forums_only" && negb (ent_forum e)
      then IsRestricted {| r_id := group_id; r_title := group_title;
                           r_reason := "Not a forum (Forum Only Mode)" |}
      else
        let topics :=
          if ent_forum e then
            match ent_topics e with
            | Some ts => open_topics ts
            | None => []
            end
          else [] in
        if ent_send_banned e
        then IsRestricted {| r_id := group_id; r_title := group_title;
                             r_reason := "No send permission" |}
        else Usable {| g_id := group_id; g_title := group_title;
                       is_forum := ent_forum e; topics := topics |}
  | RaisesChatWriteForbiddenError =>
      IsRestricted {| r_id := group_id; r_title := group_title; r_reason := "Write forbidden" |}
  | RaisesValueError =>
      IsRestricted {| r_id := group_id; r_title := group_title; r_reason := "Not a member" |}
  | RaisesOther => Unchecked stored
  end.

(** An entry of the combined list: an analysed group, or a stored
    document that came through the last clause of [check_group]. *)
Inductive Target :=
| TGroup (g : Group)
| TStored (stored : Doc).

(** The loop over the gathered results; [None] is a result that is an
    exception object, which is skipped. *)
Fixpoint collect (results : list (option CheckResult)) : list Target * list Restricted :=
  match results with
  | [] => ([], [])
  | result :: rest =>
      let '(usable_groups, restricted_groups) := collect rest in
      match result with
      | None => (usable_groups, restricted_groups)
      | Some (Usable g) => (TGroup g :: usable_groups, restricted_groups)
      | Some (Unchecked d) => (TStored d :: usable_groups, restricted_groups)
      | Some (IsRestricted r) => (usable_groups, r :: restricted_groups)
      end
  end.

Definition restricted_as_group (r : Restricted) : Group :=
  {| g_id := r_id r; g_title := r_title r; is_forum := false; topics := [] |}.

(** [g.get('is_forum', False)]. *)
Definition target_is_forum (t : Target) : bool :=
  match t with
  | TGroup g => is_forum g
  | TStored d => truthy (get_or d "is_forum" (VBool false))
  end.

(** [all_groups_combined], after the mode filter is applied again. *)
Definition all_groups_combined (broadcast_mode : Value)
    (usable_groups : list Target) (restricted_groups : list Restricted) : list Target :=
  let combined := usable_groups ++ map (fun r => TGroup (restricted_as_group r)) restricted_groups in
  if is_mode broadcast_mode "groups_only"
  then List.filter (fun g => negb (target_is_forum g)) combined
  else if is_mode broadcast_mode "forums_only"
  then List.filter target_is_forum combined
  else combined.

(** A dialog as [analyze_account_groups_fast] reads it. The two counters
    are [None] when the chat lacks the attribute; a value that cannot be
    compared with a number raises inside the [try], whose handler keeps
    the group. *)
Record Dialog := {
  d_id : Z;
  d_is_group : bool;
  slowmode_seconds : option Value;
  participants_count : option Value
}.

(** Whether the per-dialog [try] block appends the group to
    [usable_groups] (directly or through its handler). *)
Definition dialog_usable (d : Dialog) : bool :=
  match slowmode_seconds d with
  | Some v =>
      match as_int v with
      | None => true
      | Some n =>
          if 0 <? n then false
          else
            match participants_count d with
            | Some v' =>
                match as_int v' with
                | None => true
                | Some m => negb (200000 <? m)
                end
            | None => true
            end
      end
  | None =>
      match participants_count d with
      | Some v' =>
          match as_int v' with
          | None => true
          | Some m => negb (200000 <? m)
          end
      | None => true
      end
  end.

(** The ids of [analyze_account_groups_fast(...)["usable_groups"]];
    [dialogs = None] is a failed [get_dialogs], which yields no group. *)
Definition analyze_account_groups_fast (dialogs : option (list Dialog))
    (target_group_ids skip_group_ids : list Z) : list Z :=
  match dialogs with
  | None => []
  | Some ds =>
      map d_id
        (List.filter
           (fun d =>
              d_is_group d
              && negb (bool_decide (d_id d ∈ skip_group_ids))
              && (bool_decide (target_group_ids = []) || bool_decide (d_id d ∈ target_group_ids))
              && dialog_usable d)
           ds)
  end.

(** [usable_groups_map[acc_id]]: the targets whose ["id"] is among the
    account's usable ids, in the order of the combined list. A stored
    document has ["group_id"] and no ["id"]: [group["id"]] raises
    [KeyError] ([None]) and the run ends before any send. *)
Fixpoint account_groups (working_groups : list Target) (accessible_group_ids : list Z)
  : option (list Target) :=
  match working_groups with
  | [] => Some []
  | TGroup g :: rest =>
      match account_groups rest accessible_group_ids with
      | Some l => Some (if bool_decide (g_id g ∈ accessible_group_ids) then TGroup g :: l else l)
      | None => None
      end
  | TStored d :: rest =>
      match d !! "id" with
      | None => None
      | Some v =>
          match account_groups rest accessible_group_ids with
          | Some l => Some (if bool_decide (v ∈ map VInt accessible_group_ids)
                            then TStored d :: l else l)
          | None => None
          end
      end
  end.

End Analysis.

(** ** main.py: start and stop requests *)

Module Control.
Import Engine.

(** Where the coroutine of a user's [run_broadcast] task stands: before
    the loop's [try], inside it, or finished. *)
Inductive Task := TaskSetup | TaskLooping | TaskDone.

#[global] Instance Task_eq_dec : EqDecision Task.
Proof. solve_decision. Defined.

(** The bot's state: the database and the module-level [user_tasks]. *)
Record App := { app_db : DB; user_tasks : gmap Z Task }.

(** [task.cancel(); await task]. A finished task is left alone. During
    the set-up the [CancelledError] goes straight to the outer handler,
    which returns. Inside the loop the [finally] clause runs first:
    [db.set_broadcast_state(uid, running=False)] and
    [del user_tasks[uid]]. *)
Definition cancel_and_await (a : App) (uid : Z) (task : Task) (now : Z) : App :=
  match task with
  | TaskSetup | TaskDone => a
  | TaskLooping =>
      match set_broadcast_state (app_db a) uid false false now with
      | Some d => {| app_db := d; user_tasks := delete uid (user_tasks a) |}
      | None => a
      end
  end.

(** [stop_broadcast_task(uid)]; [None] when the last write raises. *)
Definition stop_broadcast_task (a : App) (uid : Z) (now : Z) : option (App * bool) :=
  let state := get_broadcast_state (app_db a) uid in
  let running := get_or state "running" (VBool false) in
  if negb (truthy running) then Some (a, false)
  else
    let a := {| app_db := (reset_ad_cycle (app_db a) uid).1; user_tasks := user_tasks a |} in
    let a :=
      match user_tasks a !! uid with
      | Some task =>
          let a' := cancel_and_await a uid task now in
          {| app_db := app_db a'; user_tasks := delete uid (user_tasks a') |}
      | None => a
      end in
    match set_broadcast_state (app_db a) uid false false now with
    | Some d => Some ({| app_db := d; user_tasks := user_tasks a |}, true)
    | None => None
    end.

Inductive StopReply := BroadcastStopped | NoBroadcastRunning | ErrorStopping.

(** [/stop]: the state is written first, then [stop_broadcast_task]. *)
Definition stop_command (a : App) (uid : Z) (now : Z) : App * StopReply :=
  match set_broadcast_state (app_db a) uid false false now with
  | None => (a, ErrorStopping)
  | Some d =>
      let a1 := {| app_db := d; user_tasks := user_tasks a |} in
      match stop_broadcast_task a1 uid now with
      | Some (a2, true) => (a2, BroadcastStopped)
      | Some (a2, false) => (a2, NoBroadcastRunning)
      | None => (a1, ErrorStopping)
      end
  end.

(** The stop-broadcast button. *)
Definition stop_broadcast_callback (a : App) (uid : Z) (now : Z) : App * StopReply :=
  match stop_broadcast_task a uid now with
  | Some (a', true) => (a', BroadcastStopped)
  | Some (a', false) => (a', NoBroadcastRunning)
  | None => (a, ErrorStopping)
  end.

Inductive StartReply :=
| PostLinkNotSet
| BroadcastAlreadyRunning
| NotEnoughSavedMessages
| NoAccounts
| LoggerBotNotStarted
| TaskAlreadyExists
| BroadcastStarted
| ErrorStarting.

(** [not d] for a dict. *)
Definition dict_truthy (d : Doc) : bool := negb (bool_decide (d = ∅)).

(** [asyncio.create_task(run_broadcast(client, uid)); user_tasks[uid] = task]. *)
Definition create_task (a : App) (uid : Z) : App :=
  {| app_db := app_db a; user_tasks := <[uid := TaskSetup]> (user_tasks a) |}.

(** [/go]. *)
Definition go_command (a : App) (uid : Z) (now : Z) : App * StartReply :=
  match get_user_accounts (app_db a) uid with
  | [] => (a, NoAccounts)
  | _ :: _ =>
      let state := get_broadcast_state (app_db a) uid in
      if truthy (get_or state "running" VNone) then (a, BroadcastAlreadyRunning)
      else
        match set_broadcast_state (app_db a) uid true false now with
        | None => (a, ErrorStarting)
        | Some d =>
            let a := {| app_db := d; user_tasks := user_tasks a |} in
            match user_tasks a !! uid with
            | Some TaskSetup | Some TaskLooping => (a, TaskAlreadyExists)
            | Some TaskDone | None => (create_task a uid, BroadcastStarted)
            end
        end
  end.

(** The start-broadcast button. [saved_available] is the number of
    usable Saved Messages found through the first account, or [None]
    when that check is not made (no credentials) or raises. *)
Definition start_broadcast_callback (a : App) (uid : Z) (saved_available : option Z)
    (now : Z) : App * StartReply :=
  let post_link_unset :=
    match get_user_post_link (app_db a) uid with
    | Some post_link_data =>
        bool_decide (post_link_data !! "message_source" = Some (VStr "post_link"))
        && (negb (truthy (get_or post_link_data "post_link" VNone))
            || negb (truthy (get_or post_link_data "saved_msg_id" VNone)))
    | None => false
    end in
  if post_link_unset then (a, PostLinkNotSet)
  else if truthy (get_or (get_broadcast_state (app_db a) uid) "running" VNone)
  then (a, BroadcastAlreadyRunning)
  else
    let user_msg_count := get_user_saved_messages_count (app_db a) uid in
    let too_few :=
      match get_user_accounts (app_db a) uid, saved_available with
      | _ :: _, Some n => n <? user_msg_count
      | _, _ => false
      end in
    if too_few then (a, NotEnoughSavedMessages)
    else
      match get_user_accounts (app_db a) uid with
      | [] => (a, NoAccounts)
      | _ :: _ =>
          if negb (dict_truthy (get_logger_status (app_db a) uid))
          then (a, LoggerBotNotStarted)
          else
            let a :=
              match user_tasks a !! uid with
              | Some current_task =>
                  let a' := cancel_and_await a uid current_task now in
                  {| app_db := app_db a'; user_tasks := delete uid (user_tasks a') |}
              | None => a
              end in
            let a := create_task a uid in
            match set_broadcast_state (app_db a) uid true false now with
            | Some d => ({| app_db := d; user_tasks := user_tasks a |}, BroadcastStarted)
            | None => (a, ErrorStarting)
            end
      end.

End Control.

(** ** Concrete inputs

    The databases, groups and Telegram answers at which the properties
    below are evaluated. *)

Module Scenario.
Import Engine Analysis Control.

(** The count as it is stored for a user, when it is stored as a
    number. *)
Definition stored_count (d : DB) (uid : Z) : option Z :=
  match get_user d uid with
  | Some user =>
      match user !! "saved_messages_count" with
      | Some v => as_int v
      | None => None
      end
  | None => None
  end.

Definition alice : Z := 7.

(** A user who rotates over four Saved Messages. *)
Definition db_four_messages : DB :=
  {[ "users" := [ ({[ "user_id" := VInt alice;
                       "saved_messages_count" := VInt 4;
                       "ad_cycle_index" := VInt 0 ]} : Doc) ] ]}.

(** A user with one linked account who has never started the logger
    bot: the stored logger status says [is_started = False]. No
    broadcast is running and no task exists. *)
Definition db_logger_not_started : DB :=
  {[ "accounts" := [ ({[ "user_id" := VInt alice;
                          "phone_number" := VStr "+10000000000";
                          "is_active" := VBool true ]} : Doc) ];
     "logger_status" := [ ({[ "user_id" := VInt alice;
                               "is_started" := VBool false;
                               "is_active" := VBool false ]} : Doc) ] ]}.

Definition app_logger_not_started : App :=
  {| app_db := db_logger_not_started; user_tasks := ∅ |}.

(** A user with a profile, one selected group, one selected forum and
    analytics. *)
Definition forum_doc : Doc :=
  {[ "user_id" := VInt alice; "group_id" := VInt (-1002); "group_name" := VStr "Forum" ]}.

Definition db_with_forum : DB :=
  {[ "users" := [ ({[ "user_id" := VInt alice; "username" := VStr "alice" ]} : Doc) ];
     "target_groups" := [ ({[ "user_id" := VInt alice; "group_id" := VInt (-1001);
                               "group_name" := VStr "Market" ]} : Doc) ];
     "forum_groups" := [ forum_doc ];
     "analytics" := [ ({[ "user_id" := VInt alice; "total_sent" := VInt 5 ]} : Doc) ] ]}.

(** A user whose daily window is 8:00 AM to 8:00 PM. *)
Definition user_8_to_20 : Doc :=
  {[ "user_id" := VInt alice; "schedule_enabled" := VBool true;
     "schedule_start_time" := VStr "8:00 AM"; "schedule_end_time" := VStr "8:00 PM" ]}.

(** The end-to-end scenario: one linked account, two selected groups
    (one open, one where the account may not write), a rotation over one
    Saved Message, an ad delay of 60 s and a group delay of 5 s. *)
Definition group_open : Group :=
  {| g_id := -1001; g_title := "Market"; is_forum := false; topics := [] |}.

Definition group_denied : Group :=
  {| g_id := -1002; g_title := "Locked"; is_forum := false; topics := [] |}.

Definition exn_of (c : ExcClass) (msg : string) : Exn :=
  {| exn_class := c; exn_msg := msg; exn_value := None; exn_x := None |}.

(** Telethon's answer to a forward into a chat closed to the account. *)
Definition exn_denied : Exn :=
  exn_of RPCError "You can't write in this chat (caused by ForwardMessagesRequest)".

Definition visit_ok : Visit :=
  {| v_prepare := true; v_get_entity := Returns;
     v_forward_topic := fun _ => Returns; v_forward := Returns |}.

Definition visit_failing (e : Exn) : Visit :=
  {| v_prepare := true; v_get_entity := Returns;
     v_forward_topic := fun _ => Returns; v_forward := Raises e |}.

(** Telegram refuses every forward to [group_denied] with [e] and
    accepts all others. *)
Definition world_refusing (e : Exn) : World :=
  {| telegram := fun _ _ g =>
       if bool_decide (g = group_denied) then visit_failing e else visit_ok;
     utcnow := fun _ => 0;
     get_ist_now := fun _ => 0 |}.

Definition cfg_alice : Config :=
  {| uid := alice; accounts := [1]; clients := [1];
     delay := 60; group_msg_delay := 5; cycle_timeout := 600 |}.

Definition db_running : DB :=
  {[ "users" := [ ({[ "user_id" := VInt alice; "saved_messages_count" := VInt 1 ]} : Doc) ];
     "broadcast_states" := [ ({[ "user_id" := VInt alice; "running" := VBool true;
                                  "paused" := VBool false ]} : Doc) ] ]}.

(** The engine as it enters the loop with the given working set for
    account 1. *)
Definition st_start (groups : list Group) : State :=
  {| db := db_running; sent_count := 0; failed_count := 0; cycle_count := 0;
     current_cycle := VInt 0; working_groups_map := {[ 1 := groups ]}; trace := [] |}.

(** The first cycle of the scenario when Telegram refuses the forward
    to [group_denied] with [e]. *)
Definition first_cycle (e : Exn) : Flow :=
  run_cycle (world_refusing e) cfg_alice (st_start [group_denied; group_open]).

(** A rate limit of 30 seconds, as the [except FloodWait] clause reads
    it. *)
Definition exn_flood30 : Exn :=
  {| exn_class := FloodWait;
     exn_msg := "A wait of 30 seconds is required";
     exn_value := Some 30; exn_x := None |}.

(** The rate limit as the sending client raises it: Telethon's
    [FloodWaitError] is an [RPCError] of that library, with the wait in
    its text and in [seconds]; it has neither [value] nor [x]. *)
Definition exn_flood_wait : Exn :=
  exn_of RPCError "A wait of 30 seconds is required (caused by ForwardMessagesRequest)".

Definition exn_timeout : Exn :=
  exn_of OtherException "Request timeout while forwarding the message".

Definition exn_forbidden : Exn :=
  exn_of OtherException "forbidden: the account cannot write to this chat".

(** The same word in an error that the [except RPCError] clause takes. *)
Definition exn_forbidden_rpc : Exn :=
  exn_of RPCError "403 forbidden (caused by ForwardMessagesRequest)".

(** A timeout whose text also names missing rights. *)
Definition exn_timeout_rights : Exn :=
  exn_of OtherException "timeout while checking the admin rights of the account".

(** A forum with two open topics; Telegram answers the forward to the
    first topic with the rate limit and accepts the second. *)
Definition forum_two_topics : Group :=
  {| g_id := -1003; g_title := "Forum"; is_forum := true;
     topics := [ {| t_id := 11; t_title := "News"; closed := false |};
                 {| t_id := 12; t_title := "Offers"; closed := false |} ] |}.

Definition world_topic_flood : World :=
  {| telegram := fun _ _ _ =>
       {| v_prepare := true; v_get_entity := Returns;
          v_forward_topic := fun topic_id =>
            if topic_id =? 11 then Raises exn_flood_wait else Returns;
          v_forward := Returns |};
     utcnow := fun _ => 0;
     get_ist_now := fun _ => 0 |}.

(** The stored document of a selected group in which the account may
    not write, and what [check_group] makes of it. *)
Definition locked_doc : Doc :=
  {[ "user_id" := VInt alice; "group_id" := VInt (-1002); "group_name" := VStr "Locked" ]}.

Definition locked_restricted : Restricted :=
  {| r_id := -1002; r_title := "Locked"; r_reason := "Write forbidden" |}.

(** A group the account has left: the analyser files it under
    "Not a member", and it is not among the account's dialogs. *)
Definition left_restricted : Restricted :=
  {| r_id := -1004; r_title := "Left"; r_reason := "Not a member" |}.

(** The engine of the user with the 8:00 AM - 8:00 PM window, running,
    with no end-of-day deadline, at 7:59:30 AM of the fourth day. *)
Definition db_scheduled : DB :=
  {[ "users" := [ user_8_to_20 ];
     "broadcast_states" := [ ({[ "user_id" := VInt alice; "running" := VBool true;
                                  "paused" := VBool false ]} : Doc) ] ]}.

Definition st_scheduled : State :=
  {| db := db_scheduled; sent_count := 0; failed_count := 0; cycle_count := 0;
     current_cycle := VInt 0; working_groups_map := {[ 1 := [group_open] ]}; trace := [] |}.

Definition world_at_7_59 : World :=
  {| telegram := fun _ _ _ => visit_ok;
     utcnow := fun _ => 0;
     get_ist_now := fun _ => 3 * Schedule.day_us + Schedule.clock 7 59 30 0 |}.

(** Analytics whose cycle counter is not a number: the write at the end
    of a cycle fails. *)
Definition db_broken_analytics : DB :=
  <[ "analytics" := [ ({[ "user_id" := VInt alice; "total_cycles" := VStr "n/a" ]} : Doc) ] ]>
    db_running.

Definition st_broken_analytics : State :=
  {| db := db_broken_analytics; sent_count := 0; failed_count := 0; cycle_count := 0;
     current_cycle := VInt 0; working_groups_map := {[ 1 := [group_open] ]}; trace := [] |}.

End Scenario.

(** ** Further driver calls *)

Module Driver.

(** [$unset] drops fields. *)
Definition op_unset (ks : list string) (d : Doc) : Doc :=
  fold_left (fun acc k => delete k acc) ks d.

(** [update_one(filter, {"$set": sets}, upsert)]: a [$set] is never
    refused, so the call always gives a collection. *)
Definition update_one_set (c : Collection) (q : Query) (sets : list (string * Value))
    (upsert : bool) : Collection :=
  default c (update_one c q {| u_inc := []; u_set := sets |} upsert).

(** [update_one(filter, {"$unset": unsets, "$set": sets})], without
    upsert. *)
Definition update_one_unset (c : Collection) (q : Query) (unsets : list string)
    (sets : list (string * Value)) : Collection :=
  match find_one c q with
  | Some d => replace_first q (op_set sets (op_unset unsets d)) c
  | None => c
  end.

(** [update_one(filter, {"$set": sets, "$setOnInsert": on_insert},
    upsert=True)]: the second group is written only into a document the
    call inserts. *)
Definition update_one_set_on_insert (c : Collection) (q : Query)
    (sets on_insert : list (string * Value)) : Collection :=
  match find_one c q with
  | Some d => replace_first q (op_set sets d) c
  | None => c ++ [op_set sets (op_set on_insert (list_to_map q))]
  end.

Definition insert_one (c : Collection) (d : Doc) : Collection := c ++ [d].

Definition count_documents (c : Collection) (q : Query) : Z :=
  Z.of_nat (length (find c q)).

(** [delete_one(filter)]: the first match goes; the number is
    [deleted_count]. *)
Fixpoint delete_one (c : Collection) (q : Query) : Collection * Z :=
  match c with
  | [] => ([], 0)
  | d :: c' =>
      if matches q d then (c', 1)
      else let '(rest, n) := delete_one c' q in (d :: rest, n)
  end.

End Driver.

(** ** database.py: the user document *)

Module Users.
Import Driver.

(** [x or dflt]. *)
Definition py_or (x dflt : Value) : Value := if truthy x then x else dflt.

(** [create_user]: the names and [last_interaction] are written on every
    call, the other fields only into a new document. *)
Definition create_user (db : DB) (user_id : Z) (username first_name : Value)
    (now : Z) : DB :=
  set_coll db "users"
    (update_one_set_on_insert (coll db "users") (by_user user_id)
       [("username", py_or username (VStr "Unknown"));
        ("first_name", py_or first_name (VStr "User"));
        ("last_interaction", VTime now)]
       [("created_at", VTime now); ("accounts_limit", VInt 1);
        ("has_joined_vouch", VBool false); ("state", VStr EmptyString);
        ("user_id", VInt user_id); ("user_type", VStr "free")]).

(** No upsert: without a user document nothing is written. *)
Definition set_user_state (db : DB) (user_id : Z) (state : Value) (now : Z) : DB :=
  set_coll db "users"
    (update_one_set (coll db "users") (by_user user_id)
       [("state", state); ("updated_at", VTime now)] false).

Definition get_user_state (db : DB) (user_id : Z) : Value :=
  match find_one (coll db "users") (by_user user_id) with
  | Some user => get_or user "state" (VStr EmptyString)
  | None => VStr EmptyString
  end.

(** The dict [get_user_status] builds, or [None] without a user. *)
Definition get_user_status (db : DB) (user_id : Z) : option Doc :=
  match find_one (coll db "users") (by_user user_id) with
  | Some user =>
      Some {[ "user_type" := get_or user "user_type" (VStr "free");
              "accounts_limit" := get_or user "accounts_limit" (VInt 1) ]}
  | None => None
  end.

Definition set_user_saved_messages_count (db : DB) (user_id : Z) (count : Value)
    (now : Z) : DB :=
  set_coll db "users"
    (update_one_set (coll db "users") (by_user user_id)
       [("saved_messages_count", count); ("updated_at", VTime now)] true).

Definition set_user_post_link (db : DB) (user_id : Z)
    (post_link saved_from_peer saved_msg_id : Value) (now : Z) : DB :=
  set_coll db "users"
    (update_one_set (coll db "users") (by_user user_id)
       [("post_link", post_link); ("saved_from_peer", saved_from_peer);
        ("saved_msg_id", saved_msg_id); ("message_source", VStr "post_link");
        ("updated_at", VTime now)] true).

(** No upsert. *)
Definition clear_user_post_link (db : DB) (user_id : Z) (now : Z) : DB :=
  set_coll db "users"
    (update_one_unset (coll db "users") (by_user user_id)
       ["post_link"; "saved_from_peer"; "saved_msg_id"]
       [("message_source", VStr "saved_messages"); ("updated_at", VTime now)]).

Definition set_broadcast_mode (db : DB) (user_id : Z) (mode : Value) (now : Z) : DB :=
  set_coll db "users"
    (update_one_set (coll db "users") (by_user user_id)
       [("broadcast_mode", mode); ("updated_at", VTime now)] true).

End Users.

(** ** database.py: the three delays *)

Module Delays.
Import Driver.

Definition get_user_ad_delay (db : DB) (user_id : Z) : Value :=
  match find_one (coll db "ad_delays") (by_user user_id) with
  | Some doc => get_or doc "delay" (VInt 300)
  | None => VInt 300
  end.

Definition set_user_ad_delay (db : DB) (user_id : Z) (delay : Value) (now : Z) : DB :=
  set_coll db "ad_delays"
    (update_one_set (coll db "ad_delays") (by_user user_id)
       [("delay", delay); ("updated_at", VTime now)] true).

Definition get_user_group_msg_delay (db : DB) (user_id : Z) : Value :=
  match find_one (coll db "group_msg_delays") (by_user user_id) with
  | Some doc => get_or doc "delay" (VInt 15)
  | None => VInt 15
  end.

Definition set_user_group_msg_delay (db : DB) (user_id : Z) (delay : Value)
    (now : Z) : DB :=
  set_coll db "group_msg_delays"
    (update_one_set (coll db "group_msg_delays") (by_user user_id)
       [("delay", delay); ("updated_at", VTime now)] true).

Definition get_user_cycle_timeout (db : DB) (user_id : Z) : Value :=
  match find_one (coll db "cycle_timeouts") (by_user user_id) with
  | Some doc => get_or doc "timeout" (VInt 600)
  | None => VInt 600
  end.

Definition set_user_cycle_timeout (db : DB) (user_id : Z) (timeout : Value)
    (now : Z) : DB :=
  set_coll db "cycle_timeouts"
    (update_one_set (coll db "cycle_timeouts") (by_user user_id)
       [("timeout", timeout); ("updated_at", VTime now)] true).

End Delays.

(** ** Python's [str] and [int] on ASCII text *)

Module Text.

(** [c.isspace()], which is what [str.strip()] removes and [\s]
    matches. *)
Definition py_space (c : ascii) : bool :=
  let n := nat_of_ascii c in
  ((n =? 32) || ((9 <=? n) && (n <=? 13)) || ((28 <=? n) && (n <=? 31)))%nat.

(** [s.lstrip(...)], [s.rstrip(...)] and [s.strip(...)] for the
    characters [p] accepts. *)
Fixpoint lstrip (p : ascii -> bool) (s : string) : string :=
  match s with
  | EmptyString => EmptyString
  | String c r => if p c then lstrip p r else s
  end.

Fixpoint rstrip (p : ascii -> bool) (s : string) : string :=
  match s with
  | EmptyString => EmptyString
  | String c r =>
      match rstrip p r with
      | EmptyString => if p c then EmptyString else String c EmptyString
      | r' => String c r'
      end
  end.

Definition strip (p : ascii -> bool) (s : string) : string := rstrip p (lstrip p s).

(** [s.replace(old, '')] for a non-empty [old]: the occurrences are
    found from the left and do not overlap. [skip] counts the characters
    of an occurrence still to be dropped. *)
Fixpoint remove_all (old : string) (skip : nat) (s : string) : string :=
  match s with
  | EmptyString => EmptyString
  | String c r =>
      match skip with
      | S k => remove_all old k r
      | O =>
          if String.prefix old s then remove_all old (String.length old - 1) r
          else String c (remove_all old O r)
      end
  end.

(** [s.split(c)[0]]. *)
Fixpoint before (c : ascii) (s : string) : string :=
  match s with
  | EmptyString => EmptyString
  | String a r => if Ascii.eqb a c then EmptyString else String a (before c r)
  end.

(** [s[n:]]. *)
Fixpoint drop_chars (n : nat) (s : string) : string :=
  match n, s with
  | S k, String _ r => drop_chars k r
  | _, _ => s
  end.

(** [s[-n:]]. *)
Definition last_chars (n : nat) (s : string) : string :=
  drop_chars (String.length s - n) s.

(** [c * n]. *)
Fixpoint repeat_char (c : ascii) (n : nat) : string :=
  match n with
  | O => EmptyString
  | S k => String c (repeat_char c k)
  end.

Definition all_chars (p : ascii -> bool) (s : string) : bool :=
  forallb p (list_ascii_of_string s).

Definition is_digit (c : ascii) : bool :=
  match Schedule.digit c with
  | Some _ => true
  | None => false
  end.

(** [[a-zA-Z0-9_]]. *)
Definition is_word (c : ascii) : bool :=
  let n := nat_of_ascii c in
  (((97 <=? n) && (n <=? 122)) || ((65 <=? n) && (n <=? 90))
   || ((48 <=? n) && (n <=? 57)) || (n =? 95))%nat.

(** The number a run of decimal digits stands for. *)
Fixpoint digits_value (acc : Z) (s : string) : Z :=
  match s with
  | EmptyString => acc
  | String c r => digits_value (10 * acc + default 0 (Schedule.digit c)) r
  end.

(** The digits of [int(s)] after the sign: single underscores may stand
    between digits. [None] is [ValueError]. *)
Fixpoint grouped_digits (acc : Z) (after_digit : bool) (s : string) : option Z :=
  match s with
  | EmptyString => if after_digit then Some acc else None
  | String c r =>
      match Schedule.digit c with
      | Some d => grouped_digits (10 * acc + d) true r
      | None =>
          if Ascii.eqb c "_"%char && after_digit then grouped_digits acc false r
          else None
      end
  end.

(** The interpreter's cap on the digits of a decimal string it converts
    ([sys.get_int_max_str_digits()], 4300 unless configured). *)
Definition max_str_digits : nat := 4300.

Definition digit_count (s : string) : nat :=
  length (List.filter is_digit (list_ascii_of_string s)).

(** [int(s)] for a string: blanks around (space, tab, line feed,
    vertical tab, form feed, carriage return), an optional sign,
    digits. [None] is [ValueError]. *)
Definition int_of_string (s : string) : option Z :=
  if (max_str_digits <? digit_count s)%nat then None
  else
    match strip Schedule.is_space s with
    | String "+"%char r => grouped_digits 0 false r
    | String "-"%char r => Z.opp <$> grouped_digits 0 false r
    | r => grouped_digits 0 false r
    end.

(** [int(v)]; [None] is [TypeError] or [ValueError]. *)
Definition py_int (v : Value) : option Z :=
  match v with
  | VInt n => Some n
  | VBool b => Some (Z.b2z b)
  | VStr s => int_of_string s
  | VNone | VTime _ => None
  end.

End Text.

(** ** database.py: linked accounts *)

Module Accounts.
Import Driver.

Definition get_user_accounts_count (db : DB) (user_id : Z) : Z :=
  count_documents (coll db "accounts") (by_user user_id).

(** The limit [add_user_account] works out from the user document. *)
Definition accounts_limit (user : Doc) : Z :=
  match get_or user "accounts_limit" (VInt 5) with
  | VStr s =>
      if String.eqb (Str.lower s) "unlimited" then 999
      else default 5 (Text.int_of_string s)
  | limit => default 5 (Text.py_int limit)
  end.

(** [add_user_account(user_id, phone_number, session_string, **kwargs)];
    [first_name] and [last_name] are the two keyword arguments it
    reads. *)
Definition add_user_account (db : DB) (user_id : Z) (phone_number session_string : Value)
    (first_name last_name : Value) (now : Z) : DB * bool :=
  match get_user db user_id with
  | None => (db, false)
  | Some user =>
      let accounts_count := get_user_accounts_count db user_id in
      let limit := accounts_limit user in
      if limit <=? accounts_count then (db, false)
      else
        (set_coll db "accounts"
           (insert_one (coll db "accounts")
              {[ "user_id" := VInt user_id;
                 "phone_number" := phone_number;
                 "session_string" := session_string;
                 "first_name" := first_name;
                 "last_name" := last_name;
                 "is_active" := VBool true;
                 "created_at" := VTime now ]}),
         true)
  end.

End Accounts.

(** ** database.py and main.py: the selected groups *)

Module Targets.
Import Driver.

Definition by_user_group (user_id group_id : Z) : Query :=
  [("user_id", VInt user_id); ("group_id", VInt group_id)].

(** The [$set] document of [add_target_group]. *)
Definition group_fields (group_name : Value) (now : Z) : list (string * Value) :=
  [("group_name", group_name); ("created_at", VTime now); ("updated_at", VTime now)].

Definition add_target_group (db : DB) (user_id group_id : Z) (group_name : Value)
    (now : Z) : DB :=
  set_coll db "target_groups"
    (update_one_set (coll db "target_groups") (by_user_group user_id group_id)
       (group_fields group_name now) true).

(** The two methods [ensure_db_methods] adds to the adapter. *)
Definition remove_target_group (db : DB) (user_id group_id : Z) : DB :=
  set_coll db "target_groups"
    (delete_one (coll db "target_groups") (by_user_group user_id group_id)).1.

Definition get_target_group (db : DB) (user_id group_id : Z) : option Doc :=
  find_one (coll db "target_groups") (by_user_group user_id group_id).




End Targets.

(** ** database.py: temporary data *)

Module Temp.
Import Driver.

(** The filter [get_temp_data] and [delete_temp_data] build: the key is
    added when it is truthy. *)
Definition temp_query (user_id : Z) (key : option string) : Query :=
  match key with
  | Some k =>
      if String.eqb k EmptyString then by_user user_id
      else [("user_id", VInt user_id); ("key", VStr k)]
  | None => by_user user_id
  end.

Definition key_given (key : option string) : bool :=
  match key with
  | Some k => negb (String.eqb k EmptyString)
  | None => false
  end.

Definition set_temp_data (db : DB) (user_id : Z) (key : string) (value : Value)
    (now : Z) : DB :=
  set_coll db "temp_data"
    (update_one_set (coll db "temp_data")
       [("user_id", VInt user_id); ("key", VStr key)]
       [("value", value); ("updated_at", VTime now)] true).

(** [data[0].get("value")] with a key, [data[-1].get("value")]
    without; Python's [None] is [VNone]. *)
Definition get_temp_data (db : DB) (user_id : Z) (key : option string) : Value :=
  let data := find (coll db "temp_data") (temp_query user_id key) in
  match data with
  | [] => VNone
  | first :: _ =>
      if key_given key then get_or first "value" VNone
      else get_or (List.last data first) "value" VNone
  end.

Definition delete_temp_data (db : DB) (user_id : Z) (key : option string) : DB * Z :=
  (set_coll db "temp_data" (delete_many (coll db "temp_data") (temp_query user_id key)),
   count_documents (coll db "temp_data") (temp_query user_id key)).

End Temp.

(** ** What a trace shows *)

Module Observe.
Import Engine.

(** The forwards of a trace, as pairs of account and group id. *)
Definition forwards (tr : list Event) : list (Z * Z) :=
  omap (fun ev =>
          match ev with
          | EvForward acc_id group_id _ => Some (acc_id, group_id)
          | _ => None
          end) tr.

(** The ids of an account's working set. *)
Definition working_ids (st : State) (acc_id : Z) : list Z :=
  map g_id (working_groups st acc_id).

(** [st'] continues the trace of [st], and every forward it adds
    satisfies [ok]. *)
Definition continues (ok : Z -> Z -> Prop) (st st' : State) : Prop :=
  exists suffix, trace st' = trace st ++ suffix
                 /\ forall a g, (a, g) ∈ forwards suffix -> ok a g.

(** The forwards a run of [cfg] may add, seen from the state [st]:
    through one of the accounts [accs] with a started client, to a group
    of that account's working set. *)
Definition may_forward (cfg : Config) (accs : list Z) (st : State) (a g : Z) : Prop :=
  a ∈ accs /\ a ∈ clients cfg /\ g ∈ working_ids st a.

End Observe.

(** ** Further concrete inputs *)

Module Cases.
Import Engine Analysis Control Scenario.

Definition bob : Z := 8.

(** A user the bot has not seen yet. *)
Definition carol : Z := 9.

(** Two users with a running broadcast each; the second one has sent
    nine messages so far. *)
Definition db_two_users : DB :=
  {[ "users" := [ ({[ "user_id" := VInt alice; "saved_messages_count" := VInt 1 ]} : Doc);
                  ({[ "user_id" := VInt bob; "ad_cycle_index" := VInt 2 ]} : Doc) ];
     "broadcast_states" := [ ({[ "user_id" := VInt alice; "running" := VBool true;
                                  "paused" := VBool false ]} : Doc);
                             ({[ "user_id" := VInt bob; "running" := VBool true;
                                  "paused" := VBool false ]} : Doc) ];
     "analytics" := [ ({[ "user_id" := VInt bob; "total_sent" := VInt 9 ]} : Doc) ] ]}.

Definition st_two_users : State :=
  {| db := db_two_users; sent_count := 0; failed_count := 0; cycle_count := 0;
     current_cycle := VInt 0;
     working_groups_map := {[ 1 := [group_denied; group_open] ]}; trace := [] |}.

(** A rotation over four Saved Messages, running. *)
Definition db_rotating : DB :=
  {[ "users" := [ ({[ "user_id" := VInt alice; "saved_messages_count" := VInt 4;
                       "ad_cycle_index" := VInt 0 ]} : Doc) ];
     "broadcast_states" := [ ({[ "user_id" := VInt alice; "running" := VBool true;
                                  "paused" := VBool false ]} : Doc) ] ]}.

Definition st_rotating : State :=
  {| db := db_rotating; sent_count := 0; failed_count := 0; cycle_count := 0;
     current_cycle := VInt 0; working_groups_map := {[ 1 := [group_open] ]}; trace := [] |}.

(** A running broadcast whose task is inside the loop; the rotation
    stands at the third message. *)
Definition app_running : App :=
  {| app_db :=
       {[ "users" := [ ({[ "user_id" := VInt alice; "saved_messages_count" := VInt 4;
                            "ad_cycle_index" := VInt 2 ]} : Doc) ];
          "accounts" := [ ({[ "user_id" := VInt alice;
                               "phone_number" := VStr "+10000000000" ]} : Doc) ];
          "broadcast_states" := [ ({[ "user_id" := VInt alice; "running" := VBool true;
                                       "paused" := VBool false ]} : Doc) ] ]};
     user_tasks := {[ alice := TaskLooping ]} |}.


(** The dialogs of an account: a group, a channel and a group in slow
    mode. *)
Definition dialogs_three : list Dialog :=
  [ {| d_id := -1001; d_is_group := true; slowmode_seconds := None;
       participants_count := Some (VInt 120) |};
    {| d_id := -1005; d_is_group := false; slowmode_seconds := None;
       participants_count := None |};
    {| d_id := -1006; d_is_group := true; slowmode_seconds := Some (VInt 30);
       participants_count := None |} ].

End Cases.

(** ** main.py: the time left in today's window *)

Module Remaining.
Import Schedule.

Inductive RemainingMsg :=
| NoTimeLimit
| ScheduleNotStarted (start_time_str : string)
| ScheduleAlreadyEnded (end_time_str start_time_str : string) (tomorrow : bool)
| ScheduleActive (end_time_str start_time_str : string) (hours minutes : Z) (today : bool)
| RemainingCheckError.

(** [calculate_remaining_time_today(user_data)] at
    [current_time = get_ist_now()]. The texts are given by their
    headline and the values they show, the current time apart
    ([tomorrow]: "will start automatically tomorrow at", against "will
    start automatically at"; [today]: "will run until ... today",
    against "will run until ..."). The second component is
    [remaining_seconds], counted here in microseconds ([None] is
    [float('inf')]): the difference of two [datetime]s is exact to the
    microsecond. Every exception inside (no user document, a field that
    does not parse) ends in
    [(True, inf, "Schedule check error - continuing")]. *)
Definition calculate_remaining_time_today (user_data : option Doc) (current_time : Z)
  : bool * option Z * RemainingMsg :=
  match user_data with
  | None => (true, None, RemainingCheckError)
  | Some user_data =>
      if negb (truthy (get_or user_data "schedule_enabled" (VBool false)))
      then (true, None, NoTimeLimit)
      else
        match str_field user_data "schedule_start_time" "12:00 AM",
              str_field user_data "schedule_end_time" "11:59 PM" with
        | Some start_time_str, Some end_time_str =>
            match strptime_IMp start_time_str, strptime_IMp end_time_str with
            | Some start_time, Some end_time =>
                let current_time_only := time_of current_time in
                let active (today : bool) (remaining : Z) :=
                  (true, Some remaining,
                   ScheduleActive end_time_str start_time_str
                     (remaining / hour_us) ((remaining mod hour_us) / minute_us) today) in
                if start_time <=? end_time then
                  if current_time_only <? start_time
                  then (false, Some 0, ScheduleNotStarted start_time_str)
                  else if end_time <? current_time_only
                  then (false, Some 0,
                        ScheduleAlreadyEnded end_time_str start_time_str true)
                  else active true (date_of current_time + end_time - current_time)
                else
                  if start_time <=? current_time_only
                  then active false (date_of current_time + day_us + end_time - current_time)
                  else if current_time_only <=? end_time
                  then active false (date_of current_time + end_time - current_time)
                  else (false, Some 0,
                        ScheduleAlreadyEnded end_time_str start_time_str false)
            | _, _ => (true, None, RemainingCheckError)
            end
        | _, _ => (true, None, RemainingCheckError)
        end
  end.

(** The deadline [run_broadcast] works out before the loop, read at
    [now]: [get_ist_now() + timedelta(seconds=remaining_seconds)], or
    [None] when there is no limit. *)
Definition schedule_end_time (remaining : option Z) (now : Z) : option Z :=
  match remaining with
  | Some r => Some (now + r)
  | None => None
  end.

End Remaining.

(** ** main.py: post links and phone numbers *)

Module Links.
Import Text.

(** [s.split(c, 1)[1]], or [None] when [c] does not occur. *)
Fixpoint after (c : ascii) (s : string) : option string :=
  match s with
  | EmptyString => None
  | String a r => if Ascii.eqb a c then Some r else after c r
  end.

Definition _strip_query_frag (s : string) : string :=
  before "#"%char (before "?"%char s).

Definition nonempty_all (p : ascii -> bool) (s : string) : bool :=
  negb (String.eqb s EmptyString) && all_chars p s.

(** The characters the two patterns below accept. *)
Definition path_char (c : ascii) : bool := is_word c || Ascii.eqb c "/"%char.

(** A path: username characters and slashes, a username character
    first, no slash last. *)
Definition is_path (body : string) : Prop :=
  all_chars path_char body = true
  /\ (exists c r, body = String c r /\ is_word c = true)
  /\ rstrip (Ascii.eqb "/"%char) body = body.

(** The forms of host and scheme a link is accepted with. *)
Definition link_prefixes : list string :=
  [EmptyString; "t.me/"; "https://t.me/"; "http://t.me/"].

(** [re.fullmatch(r"c/(\d+)/(\d+)", s)]: the two groups. *)
Definition match_private (s : string) : option (string * string) :=
  if String.prefix "c/" s then
    let rest := drop_chars 2 s in
    match after "/"%char rest with
    | Some second =>
        let first := before "/"%char rest in
        if nonempty_all is_digit first && nonempty_all is_digit second
        then Some (first, second) else None
    | None => None
    end
  else None.

(** [re.fullmatch(r"([a-zA-Z0-9_]+)/(\d+)", s)]: the two groups. *)
Definition match_public (s : string) : option (string * string) :=
  match after "/"%char s with
  | Some second =>
      let first := before "/"%char s in
      if nonempty_all is_word first && nonempty_all is_digit second
      then Some (first, second) else None
  | None => None
  end.

(** [int(g)] for a group of digits; [None] is the [ValueError] of a
    group longer than the interpreter converts. *)
Definition int_of_digits (s : string) : option Z :=
  if (max_str_digits <? String.length s)%nat then None else Some (digits_value 0 s).

(** The peer of a link: the numeric id worked out for a private link,
    or the username. *)
Inductive Peer := PeerId (n : Z) | PeerName (username : string).

(** What [parse_post_link] gives: [None], the pair, or the
    [ValueError] that leaves it. *)
Inductive Parsed :=
| NoLink
| Link (from_peer : Peer) (msg_id : Z)
| RaisesValueError.

Definition parse_post_link (link : string) : Parsed :=
  let s := strip py_space link in
  let s := lstrip (Ascii.eqb "@"%char)
             (remove_all "http://" 0 (remove_all "https://" 0 s)) in
  let s := if String.prefix "t.me/" s then drop_chars 5 s else s in
  let s := strip (Ascii.eqb "/"%char) (_strip_query_frag s) in
  match match_private s with
  | Some (first, second) =>
      match int_of_digits first, int_of_digits second with
      | Some internal_id, Some msg_id => Link (PeerId (-100 * internal_id)) msg_id
      | _, _ => RaisesValueError
      end
  | None =>
      match match_public s with
      | Some (username, second) =>
          match int_of_digits second with
          | Some msg_id => Link (PeerName username) msg_id
          | None => RaisesValueError
          end
      | None => NoLink
      end
  end.

(** [mask_phone_number(phone)]. *)
Definition mask_phone_number (phone : string) : string :=
  if String.eqb phone EmptyString then "Unknown"
  else if (6 <? String.length phone)%nat
  then Str.take_prefix 3 phone
       +:+ repeat_char "*"%char (String.length phone - 6)
       +:+ last_chars 3 phone
  else phone.

End Links.

(** * Properties *)

(** ** The document store *)

Section StoreFacts.

Lemma matches_by_user (uid : Z) (d : Doc) :
  matches (by_user uid) d = true <-> d !! "user_id" = Some (VInt uid).
Proof.
  unfold matches, by_user. simpl. rewrite andb_true_r.
  apply bool_decide_eq_true.
Qed.

Lemma coll_set_coll_eq (d : DB) (name : string) (c : Collection) :
  coll (set_coll d name c) name = c.
Proof. unfold coll, set_coll. by rewrite lookup_insert_eq. Qed.

Lemma coll_set_coll_ne (d : DB) (name other : string) (c : Collection) :
  name <> other -> coll (set_coll d name c) other = coll d other.
Proof. intros Hne. unfold coll, set_coll. by rewrite lookup_insert_ne. Qed.

Lemma op_set_lookup_ne (sets : list (string * Value)) (d : Doc) (k : string) :
  k ∉ sets.*1 -> op_set sets d !! k = d !! k.
Proof.
  unfold op_set. revert d.
  induction sets as [|[k' v'] sets IH]; intros d Hk; simpl; [done|].
  rewrite IH.
  - apply lookup_insert_ne. intros ->. apply Hk. simpl. left.
  - intros Hin. apply Hk. simpl. by right.
Qed.

Lemma find_one_Some_matches (c : Collection) (q : Query) (d : Doc) :
  find_one c q = Some d -> matches q d = true.
Proof. unfold find_one. intros H. by apply find_some in H as [_ H]. Qed.

Lemma find_one_replace_first (c : Collection) (q : Query) (d d' : Doc) :
  find_one c q = Some d -> matches q d' = true ->
  find_one (replace_first q d' c) q = Some d'.
Proof.
  unfold find_one. induction c as [|x c IH]; simpl; [done|].
  destruct (matches q x) eqn:Hx; simpl.
  - intros _ Hd'. by rewrite Hd'.
  - intros Hf Hd'. rewrite Hx. by apply IH.
Qed.

Lemma find_one_app_new (c : Collection) (q : Query) (d' : Doc) :
  find_one c q = None -> matches q d' = true -> find_one (c ++ [d']) q = Some d'.
Proof.
  unfold find_one. induction c as [|x c IH]; simpl.
  - intros _ ->. done.
  - destruct (matches q x); [done|]. apply IH.
Qed.

Lemma base_doc_user_id (c : Collection) (uid : Z) :
  base_doc c uid !! "user_id" = Some (VInt uid).
Proof.
  unfold base_doc. fold (by_user uid).
  destruct (find_one c (by_user uid)) as [d|] eqn:Hf; simpl.
  - by apply matches_by_user, find_one_Some_matches with c.
  - by rewrite lookup_insert_eq.
Qed.

(** An upsert by user id always finds or makes its document, and the
    user's first document afterwards is the updated one. *)
Lemma update_one_by_user (c : Collection) (uid : Z) (u : Update) (d' : Doc) :
  apply_update u (base_doc c uid) = Some d' ->
  d' !! "user_id" = Some (VInt uid) ->
  exists c', update_one c (by_user uid) u true = Some c'
          /\ find_one c' (by_user uid) = Some d'.
Proof.
  intros Hu Hid. unfold update_one. unfold base_doc in Hu. fold (by_user uid) in Hu.
  apply matches_by_user in Hid.
  destruct (find_one c (by_user uid)) as [d|] eqn:Hf.
  - change (apply_update u d = Some d') in Hu. rewrite Hu.
    eexists; split; [done|]. by apply find_one_replace_first with d.
  - change (apply_update u (list_to_map (by_user uid)) = Some d') in Hu. rewrite Hu.
    eexists; split; [done|]. by apply find_one_app_new.
Qed.

Lemma update_one_set_by_user (c : Collection) (uid : Z) (sets : list (string * Value)) :
  "user_id" ∉ sets.*1 ->
  exists c', update_one c (by_user uid) {| u_inc := []; u_set := sets |} true = Some c'
          /\ find_one c' (by_user uid) = Some (op_set sets (base_doc c uid)).
Proof.
  intros Hk. apply update_one_by_user; [done|].
  rewrite op_set_lookup_ne by done. apply base_doc_user_id.
Qed.

End StoreFacts.

(** ** The rotation pointer *)

Section Rotation.

Lemma saved_messages_count_positive (d : DB) (uid : Z) :
  1 <= get_user_saved_messages_count d uid.
Proof.
  unfold get_user_saved_messages_count.
  destruct (find_one _ _) as [user|]; [|lia].
  destruct (as_int _) as [count|]; [|lia].
  destruct (count <=? 0) eqn:Hc; [lia|].
  apply Z.leb_gt in Hc. lia.
Qed.

(** The count and the pointer, read from the document an upsert works
    on. *)
Lemma count_of_base_doc (d : DB) (uid : Z) :
  get_user_saved_messages_count d uid =
  match as_int (get_or (base_doc (coll d "users") uid) "saved_messages_count" (VInt 3)) with
  | Some count => if count <=? 0 then 3 else count
  | None => 3
  end.
Proof.
  unfold get_user_saved_messages_count, base_doc. fold (by_user uid).
  destruct (find_one _ _) as [user|]; simpl; [done|].
  unfold get_or. rewrite lookup_insert_ne; [|done]. by rewrite lookup_empty.
Qed.

Lemma update_ad_cycle_step (d : DB) (uid k : Z) :
  get_current_ad_cycle d uid = VInt k ->
  let m := get_user_saved_messages_count d uid in
  get_current_ad_cycle (advance uid d) uid = VInt ((k + 1) mod m)
  /\ get_user_saved_messages_count (advance uid d) uid = m
  /\ (update_ad_cycle d uid).2 = (k + 1) mod m.
Proof.
  intros Hk m. unfold advance.
  pose proof (saved_messages_count_positive d uid) as Hpos. fold m in Hpos.
  unfold update_ad_cycle. fold m.
  destruct (m =? 0) eqn:Hm0; [apply Z.eqb_eq in Hm0; lia|].
  rewrite Hk. simpl. unfold py_mod. rewrite Hm0.
  destruct (update_one_set_by_user (coll d "users") uid
              [("ad_cycle_index", VInt ((k + 1) mod m))]) as (c' & -> & Hf).
  { simpl. intros Hin%list_elem_of_singleton. discriminate Hin. }
  simpl. split; [|split; [|done]].
  - unfold get_current_ad_cycle. rewrite coll_set_coll_eq, Hf.
    unfold get_or, op_set. simpl. by rewrite lookup_insert_eq.
  - unfold get_user_saved_messages_count at 1. rewrite coll_set_coll_eq, Hf.
    unfold m. rewrite count_of_base_doc.
    unfold get_or, op_set. simpl. by rewrite lookup_insert_ne.
Qed.

End Rotation.

Section RotationClaims.
Import Scenario.

Lemma saved_messages_count_value (d : DB) (uid : Z) :
  get_user_saved_messages_count d uid =
  match stored_count d uid with
  | Some n => if 0 <? n then n else 3
  | None => 3
  end.
Proof.
  unfold get_user_saved_messages_count, stored_count, get_user.
  destruct (find_one _ _) as [user|]; simpl; [|done].
  unfold get_or. destruct (user !! "saved_messages_count") as [v|]; simpl; [|done].
  destruct (as_int v) as [n|]; [|done].
  destruct (n <=? 0) eqn:Hle, (0 <? n) eqn:Hlt; try done; lia.
Qed.

(** C10: whatever is stored as [saved_messages_count] (nothing, zero, a
    negative number, something that is not a number),
    [get_user_saved_messages_count] returns an integer that is at least
    1: a stored positive number is returned as it is and everything else
    becomes 3. The modulus of the rotation-pointer update is therefore
    never zero: [x % count] is defined for every [x] and lies in
    [0 .. count - 1]. *)
Theorem C10_saved_messages_count_never_zero (d : DB) (uid : Z) :
  let count := get_user_saved_messages_count d uid in
  1 <= count
  /\ count = match stored_count d uid with
             | Some n => if 0 <? n then n else 3
             | None => 3
             end
  /\ forall x, py_mod x count = Some (x mod count) /\ 0 <= x mod count < count.
Proof.
  intros count.
  pose proof (saved_messages_count_positive d uid) as Hpos. fold count in Hpos.
  split; [done|]. split.
  - apply saved_messages_count_value.
  - intros x. unfold py_mod.
    destruct (count =? 0) eqn:H0; [apply Z.eqb_eq in H0; lia|].
    split; [done|]. apply Z.mod_pos_bound. lia.
Qed.

(** C8: starting from a rotation pointer of 0, after N applications of
    the cycle-advance operation [update_ad_cycle] the stored pointer is
    N mod message_count, where message_count is the value
    [get_user_saved_messages_count] reads; that value is the same after
    every advance, and it is 3 when none is stored. *)
Theorem C8_rotation_pointer_after_N_cycles (d : DB) (uid : Z) (N : nat) :
  get_current_ad_cycle d uid = VInt 0 ->
  let message_count := get_user_saved_messages_count d uid in
  get_current_ad_cycle (Nat.iter N (advance uid) d) uid = VInt (Z.of_nat N mod message_count)
  /\ get_user_saved_messages_count (Nat.iter N (advance uid) d) uid = message_count
  /\ (stored_count d uid = None -> message_count = 3).
Proof.
  intros H0 m.
  pose proof (saved_messages_count_positive d uid) as Hpos. fold m in Hpos.
  assert (Hiter : get_current_ad_cycle (Nat.iter N (advance uid) d) uid
                  = VInt (Z.of_nat N mod m)
                  /\ get_user_saved_messages_count (Nat.iter N (advance uid) d) uid = m).
  { induction N as [|N [IHp IHc]].
    - simpl. rewrite Z.mod_0_l by lia. done.
    - rewrite Nat.iter_succ.
      destruct (update_ad_cycle_step _ uid _ IHp) as (Hp & Hc & _).
      rewrite IHc in Hp, Hc. split; [|done].
      rewrite Hp. f_equal.
      rewrite Nat2Z.inj_succ, <- Z.add_1_r.
      by rewrite Zplus_mod_idemp_l. }
  destruct Hiter as [Hp Hc]. split; [done|]. split; [done|].
  intros Hnone. unfold m. by rewrite saved_messages_count_value, Hnone.
Qed.

Lemma C8_rotation_pointer_witness :
  get_current_ad_cycle db_four_messages alice = VInt 0
  /\ get_current_ad_cycle (Nat.iter 6 (advance alice) db_four_messages) alice = VInt 2.
Proof.
  split; [reflexivity|].
  destruct (C8_rotation_pointer_after_N_cycles db_four_messages alice 6) as (Hp & _).
  - reflexivity.
  - exact Hp.
Defined.

End RotationClaims.

(** ** Start and stop requests *)

Section ControlClaims.
Import Engine Control Scenario.

Lemma set_broadcast_state_running (d : DB) (uid : Z) (running paused : bool) (now : Z) :
  exists d', set_broadcast_state d uid running paused now = Some d'
          /\ get_broadcast_state d' uid !! "running" = Some (VBool running).
Proof.
  unfold set_broadcast_state.
  destruct (update_one_set_by_user (coll d "broadcast_states") uid
              [("running", VBool running); ("paused", VBool paused);
               ("updated_at", VTime now)]) as (c' & -> & Hf).
  { simpl. rewrite !not_elem_of_cons. repeat split; try discriminate.
    apply not_elem_of_nil. }
  eexists; split; [done|].
  unfold get_broadcast_state. rewrite coll_set_coll_eq, Hf.
  unfold op_set. simpl.
  rewrite lookup_insert_ne by done. rewrite lookup_insert_ne by done.
  apply lookup_insert_eq.
Qed.

Lemma set_broadcast_state_is_running (d : DB) (uid : Z) (running paused : bool) (now : Z) :
  exists d', set_broadcast_state d uid running paused now = Some d'
          /\ is_running d' uid = running.
Proof.
  destruct (set_broadcast_state_running d uid running paused now) as (d' & Hset & Hrun).
  exists d'. split; [done|].
  unfold is_running, get_or. rewrite Hrun. done.
Qed.

Lemma stop_broadcast_task_idle (a : App) (uid : Z) (now : Z) :
  is_running (app_db a) uid = false ->
  stop_broadcast_task a uid now = Some (a, false).
Proof.
  intros Hrun. unfold stop_broadcast_task. unfold is_running in Hrun.
  by rewrite Hrun.
Qed.

Lemma stop_broadcast_task_active (a : App) (uid : Z) (now : Z) :
  is_running (app_db a) uid = true ->
  exists a', stop_broadcast_task a uid now = Some (a', true)
          /\ is_running (app_db a') uid = false.
Proof.
  intros Hrun. unfold stop_broadcast_task. unfold is_running in Hrun.
  rewrite Hrun. cbn [negb].
  match goal with
  | |- context [set_broadcast_state ?d uid false false now] =>
      destruct (set_broadcast_state_is_running d uid false false now)
        as (d' & -> & Hrun')
  end.
  eexists; split; [done|]. done.
Qed.

(** C6: after a stop request has completed, by [/stop] or by the
    stop-broadcast button, the persisted broadcast state's [running]
    flag reads false for that user, whatever the database and the task
    map held at request time (a task in any phase, or none); neither
    request ends in its error path. *)
Theorem C6_running_flag_false_after_stop (a : App) (uid : Z) (now : Z) :
  ((stop_command a uid now).2 <> ErrorStopping
   /\ is_running (app_db (stop_command a uid now).1) uid = false)
  /\ ((stop_broadcast_callback a uid now).2 <> ErrorStopping
      /\ is_running (app_db (stop_broadcast_callback a uid now).1) uid = false).
Proof.
  split.
  - unfold stop_command.
    destruct (set_broadcast_state_is_running (app_db a) uid false false now)
      as (d & -> & Hrun).
    rewrite stop_broadcast_task_idle by done.
    split; [discriminate|done].
  - unfold stop_broadcast_callback.
    destruct (is_running (app_db a) uid) eqn:Hrun.
    + destruct (stop_broadcast_task_active a uid now Hrun) as (a' & -> & Hrun').
      split; [discriminate|done].
    + rewrite stop_broadcast_task_idle by done.
      split; [discriminate|done].
Qed.

(** The dict [get_logger_status] returns is never empty, so
    [not db.get_logger_status(uid)] is false for every user. *)
Lemma get_logger_status_truthy (d : DB) (uid : Z) :
  dict_truthy (get_logger_status d uid) = true.
Proof.
  unfold dict_truthy, get_logger_status.
  apply negb_true_iff, bool_decide_eq_false.
  destruct (find_one _ _) as [doc|].
  - intros Heq. apply (f_equal (fun m : Doc => m !! "is_started")) in Heq.
    rewrite lookup_insert_eq, lookup_empty in Heq. discriminate.
  - intros Heq. apply (f_equal (fun m : Doc => m !! "is_started")) in Heq.
    rewrite lookup_insert_eq, lookup_empty in Heq. discriminate.
Qed.

(** The start-broadcast button never answers that the logger bot has
    not been started. *)
Lemma start_broadcast_callback_never_asks_for_logger (a : App) (uid : Z)
    (saved_available : option Z) (now : Z) :
  (start_broadcast_callback a uid saved_available now).2 <> LoggerBotNotStarted.
Proof.
  unfold start_broadcast_callback.
  rewrite get_logger_status_truthy. simpl.
  repeat (case_match; simpl; try discriminate).
Qed.

(** C4, at a user whose stored logger status is [is_started = False]:
    both start requests are accepted and a broadcast task is created. *)
Theorem C4_start_accepted_without_logger_bot :
  get_logger_status db_logger_not_started alice !! "is_started" = Some (VBool false)
  /\ (go_command app_logger_not_started alice 0).2 = BroadcastStarted
  /\ user_tasks (go_command app_logger_not_started alice 0).1 !! alice = Some TaskSetup
  /\ (start_broadcast_callback app_logger_not_started alice None 0).2 = BroadcastStarted
  /\ user_tasks (start_broadcast_callback app_logger_not_started alice None 0).1 !! alice
     = Some TaskSetup.
Proof. vm_compute. repeat split. Qed.

End ControlClaims.

(** ** The full wipe *)

Section WipeClaims.
Import Scenario.

Lemma delete_many_idem (c : Collection) (q : Query) :
  delete_many (delete_many c q) q = delete_many c q.
Proof.
  unfold delete_many. induction c as [|d c IH]; simpl; [done|].
  destruct (matches q d) eqn:Hd; simpl; [done|]. by rewrite Hd, IH.
Qed.

Lemma find_delete_many (c : Collection) (q : Query) :
  find (delete_many c q) q = [].
Proof.
  unfold find, delete_many. induction c as [|d c IH]; simpl; [done|].
  destruct (matches q d) eqn:Hd; simpl; [done|]. by rewrite Hd.
Qed.

Lemma wipe_fold_coll (names : list string) (d : DB) (uid : Z) (n : string) :
  coll (fold_left
          (fun acc name => set_coll acc name (delete_many (coll acc name) (by_user uid)))
          names d) n
  = if bool_decide (n ∈ names) then delete_many (coll d n) (by_user uid) else coll d n.
Proof.
  revert d. induction names as [|x names IH]; intros d; simpl; [done|].
  rewrite IH. destruct (decide (n = x)) as [->|Hne].
  - rewrite coll_set_coll_eq, delete_many_idem.
    rewrite (bool_decide_eq_true_2 (x ∈ x :: names)) by left.
    by case_bool_decide.
  - rewrite coll_set_coll_ne by done.
    destruct (decide (n ∈ names)) as [Hin|Hnin].
    + rewrite !bool_decide_eq_true_2; [done| by right | done].
    + rewrite !bool_decide_eq_false_2; [done| |done].
      by intros [?|?]%elem_of_cons.
Qed.

(** Every collection on the list is emptied of the user's documents. *)
Lemma delete_user_fully_listed (d : DB) (uid : Z) (name : string) :
  name ∈ collections ->
  find (coll (delete_user_fully d uid).1 name) (by_user uid) = [].
Proof.
  intros Hin. unfold delete_user_fully. cbn [fst].
  rewrite wipe_fold_coll, bool_decide_eq_true_2 by done.
  apply find_delete_many.
Qed.

(** A collection that is not on the list is left as it was. *)
Lemma delete_user_fully_unlisted (d : DB) (uid : Z) (name : string) :
  name ∉ collections ->
  coll (delete_user_fully d uid).1 name = coll d name.
Proof.
  intros Hnin. unfold delete_user_fully. cbn [fst].
  by rewrite wipe_fold_coll, bool_decide_eq_false_2.
Qed.

(** C3, at the forum collection: [delete_user_fully] reports success and
    leaves every forum-group document of the user in place, as it does
    the analytics; for a user who has selected a forum, a per-user
    document other than analytics is still there after the wipe, while
    the user's profile and target groups are gone. *)
Theorem C3_forum_groups_survive_full_wipe :
  (forall (d : DB) (uid : Z),
      (delete_user_fully d uid).2 = true
      /\ get_forum_groups (delete_user_fully d uid).1 uid = get_forum_groups d uid
      /\ coll (delete_user_fully d uid).1 "analytics" = coll d "analytics")
  /\ get_forum_groups (delete_user_fully db_with_forum alice).1 alice = [forum_doc]
  /\ get_target_groups (delete_user_fully db_with_forum alice).1 alice = []
  /\ get_user (delete_user_fully db_with_forum alice).1 alice = None.
Proof.
  split.
  - intros d uid. split; [done|]. unfold get_forum_groups.
    rewrite !delete_user_fully_unlisted; [done| |].
    + unfold collections. rewrite !not_elem_of_cons.
      repeat split; try discriminate. apply not_elem_of_nil.
    + unfold collections. rewrite !not_elem_of_cons.
      repeat split; try discriminate. apply not_elem_of_nil.
  - split; [|split]; vm_compute; reflexivity.
Qed.

End WipeClaims.

(** ** The schedule window *)

Section ScheduleClaims.
Import Engine Schedule Scenario.

Lemma strptime_8_am : strptime_IMp "8:00 AM" = Some (clock 8 0 0 0).
Proof. reflexivity. Qed.

Lemma strptime_8_pm : strptime_IMp "8:00 PM" = Some (clock 20 0 0 0).
Proof. reflexivity. Qed.

(** With the window set to 8:00 AM - 8:00 PM the check is the closed
    interval test on the time of day. *)
Lemma within_8_to_20 (user : Doc) (now : Z) :
  user !! "schedule_enabled" = Some (VBool true) ->
  user !! "schedule_start_time" = Some (VStr "8:00 AM") ->
  user !! "schedule_end_time" = Some (VStr "8:00 PM") ->
  (is_within_schedule (Some user) now).1
  = (clock 8 0 0 0 <=? time_of now) && (time_of now <=? clock 20 0 0 0).
Proof.
  intros Hen Hst Hend. unfold is_within_schedule, str_field, get_or.
  rewrite Hen, Hst, Hend. cbn [default from_option id truthy negb].
  rewrite strptime_8_am, strptime_8_pm.
  change (clock 8 0 0 0 <=? clock 20 0 0 0) with true. cbv iota.
  by destruct ((clock 8 0 0 0 <=? time_of now) && (time_of now <=? clock 20 0 0 0)).
Qed.

Lemma time_of_clock (day h m s us : Z) :
  0 <= h < 24 -> 0 <= m < 60 -> 0 <= s < 60 -> 0 <= us < 1000000 ->
  time_of (day * day_us + clock h m s us) = clock h m s us.
Proof.
  intros Hh Hm Hs Hus. unfold time_of.
  rewrite Z.add_comm, Z_mod_plus_full. apply Z.mod_small.
  unfold clock, day_us, hour_us, minute_us, second_us. lia.
Qed.

(** A turn of the loop taken outside the window: the user is told, the
    engine sleeps 300 seconds and the loop goes round again; no cycle is
    started, nothing is sent and nothing is written. *)
Lemma loop_turn_outside_window (w : World) (cfg : Config) (schedule_end_time : option Z)
    (st : State) :
  is_running (db st) (uid cfg) = true ->
  match schedule_end_time with
  | Some t => get_ist_now w (length (trace st)) < t
  | None => True
  end ->
  (is_within_schedule (get_user (db st) (uid cfg)) (get_ist_now w (length (trace st)))).1
    = false ->
  loop_turn w cfg schedule_end_time st
  = Again (emit (EvSleep 300) (emit (EvDm DmScheduledAdsPaused) st)).
Proof.
  intros Hrun Hend Hout. unfold loop_turn. rewrite Hrun. cbn [negb].
  assert (match schedule_end_time with
          | Some t => t <=? get_ist_now w (length (trace st))
          | None => false
          end = false) as ->.
  { destruct schedule_end_time as [t|]; [|done]. apply Z.leb_gt. lia. }
  destruct (is_within_schedule _ _) as [within msg]. simpl in Hout. by subst within.
Qed.

(** C7: with [schedule_enabled = true], start "8:00 AM" and end
    "8:00 PM", on any day, the check reports outside during the minute
    7:59 AM, within during the minute 8:00 AM, within at 8:00 PM (the end
    of the window is included) and outside during the minute 8:01 PM;
    and a running engine that has not reached its end-of-day deadline
    and whose check reports outside sleeps 300 seconds and takes the
    next turn of the loop without starting a cycle. *)
Theorem C7_schedule_window_boundaries (user : Doc) (day s us : Z) :
  user !! "schedule_enabled" = Some (VBool true) ->
  user !! "schedule_start_time" = Some (VStr "8:00 AM") ->
  user !! "schedule_end_time" = Some (VStr "8:00 PM") ->
  0 <= s < 60 -> 0 <= us < 1000000 ->
  (is_within_schedule (Some user) (day * day_us + clock 7 59 s us)).1 = false
  /\ (is_within_schedule (Some user) (day * day_us + clock 8 0 s us)).1 = true
  /\ (is_within_schedule (Some user) (day * day_us + clock 20 0 0 0)).1 = true
  /\ (is_within_schedule (Some user) (day * day_us + clock 20 1 s us)).1 = false
  /\ forall (w : World) (cfg : Config) (schedule_end_time : option Z) (st : State),
       is_running (db st) (uid cfg) = true ->
       get_user (db st) (uid cfg) = Some user ->
       match schedule_end_time with
       | Some t => get_ist_now w (length (trace st)) < t
       | None => True
       end ->
       time_of (get_ist_now w (length (trace st))) = clock 7 59 s us
       \/ time_of (get_ist_now w (length (trace st))) = clock 20 1 s us ->
       loop_turn w cfg schedule_end_time st
       = Again (emit (EvSleep 300) (emit (EvDm DmScheduledAdsPaused) st)).
Proof.
  intros Hen Hst Hend Hs Hus.
  rewrite !(within_8_to_20 user _ Hen Hst Hend).
  rewrite !time_of_clock by lia.
  assert (Hearly : (clock 8 0 0 0 <=? clock 7 59 s us) = false).
  { apply Z.leb_gt. unfold clock, hour_us, minute_us, second_us. lia. }
  assert (Hlate : (clock 20 1 s us <=? clock 20 0 0 0) = false).
  { apply Z.leb_gt. unfold clock, hour_us, minute_us, second_us. lia. }
  split; [by rewrite Hearly|].
  split.
  { apply andb_true_iff. split; apply Z.leb_le;
      unfold clock, hour_us, minute_us, second_us; lia. }
  split; [done|].
  split; [by rewrite Hlate, andb_false_r|].
  intros w cfg schedule_end_time st Hrun Huser Hdeadline Hnow.
  apply loop_turn_outside_window; [done|done|].
  rewrite Huser, (within_8_to_20 user _ Hen Hst Hend).
  destruct Hnow as [-> | ->]; [by rewrite Hearly | by rewrite Hlate, andb_false_r].
Qed.

Lemma C7_schedule_window_witness :
  (is_within_schedule (Some user_8_to_20) (3 * day_us + clock 7 59 30 0)).1 = false
  /\ (is_within_schedule (Some user_8_to_20) (3 * day_us + clock 8 0 30 0)).1 = true
  /\ (is_within_schedule (Some user_8_to_20) (3 * day_us + clock 20 0 0 0)).1 = true
  /\ (is_within_schedule (Some user_8_to_20) (3 * day_us + clock 20 1 30 0)).1 = false
  /\ loop_turn world_at_7_59 cfg_alice None st_scheduled
     = Again (emit (EvSleep 300) (emit (EvDm DmScheduledAdsPaused) st_scheduled)).
Proof.
  destruct (C7_schedule_window_boundaries user_8_to_20 3 30 0) as (H1 & H2 & H3 & H4 & H5);
    [reflexivity | reflexivity | reflexivity | lia | lia |].
  split; [exact H1|]. split; [exact H2|]. split; [exact H3|]. split; [exact H4|].
  apply H5; [reflexivity | reflexivity | exact I | left; reflexivity].
Defined.

(** One microsecond after 8:00 PM the check already reports outside. *)
Lemma just_after_8_pm_is_outside :
  (is_within_schedule (Some user_8_to_20) (clock 20 0 0 1)).1 = false.
Proof. reflexivity. Qed.

End ScheduleClaims.

(** ** The cycle engine *)

Create HintDb inv.

Section EngineFacts.
Import Engine.

Lemma inc_field_lookup_ne (k k' : string) (n : Z) (d d' : Doc) :
  inc_field k n d = Some d' -> k <> k' -> d' !! k' = d !! k'.
Proof.
  unfold inc_field. intros H Hne.
  destruct (d !! k) as [[]|]; simplify_eq; by rewrite lookup_insert_ne.
Qed.

Lemma op_inc_lookup_ne (incs : list (string * Z)) (d d' : Doc) (k : string) :
  op_inc incs d = Some d' -> k ∉ incs.*1 -> d' !! k = d !! k.
Proof.
  revert d. induction incs as [|[k0 n] incs IH]; intros d H Hk; simpl in *.
  - by simplify_eq.
  - apply not_elem_of_cons in Hk as [Hne Hk].
    destruct (inc_field k0 n d) as [d0|] eqn:Hinc; [|done].
    rewrite (IH d0 H Hk). by apply inc_field_lookup_ne with k0 n.
Qed.

Lemma apply_update_lookup_ne (u : Update) (d d' : Doc) (k : string) :
  apply_update u d = Some d' -> k ∉ (u_inc u).*1 -> k ∉ (u_set u).*1 ->
  d' !! k = d !! k.
Proof.
  unfold apply_update. intros H Hi Hs.
  destruct (op_inc (u_inc u) d) as [d0|] eqn:Hinc; simplify_eq/=.
  rewrite op_set_lookup_ne by done. by apply op_inc_lookup_ne with (u_inc u).
Qed.

(** A successful upsert by user id, read back. *)
Lemma update_one_by_user_inv (c c' : Collection) (uid : Z) (u : Update) :
  update_one c (by_user uid) u true = Some c' ->
  "user_id" ∉ (u_inc u).*1 -> "user_id" ∉ (u_set u).*1 ->
  exists d', apply_update u (base_doc c uid) = Some d'
          /\ find_one c' (by_user uid) = Some d'.
Proof.
  intros Hup Hi Hs.
  destruct (apply_update u (base_doc c uid)) as [d'|] eqn:Happ.
  - destruct (update_one_by_user c uid u d' Happ) as (c'' & Hup' & Hf).
    { rewrite (apply_update_lookup_ne u _ d' "user_id" Happ Hi Hs).
      apply base_doc_user_id. }
    rewrite Hup in Hup'. simplify_eq. by exists d'.
  - exfalso. unfold update_one in Hup. unfold base_doc in Happ. fold (by_user uid) in Happ.
    destruct (find_one c (by_user uid)) as [d|].
    + change (apply_update u d = None) in Happ. by rewrite Happ in Hup.
    + change (apply_update u (list_to_map (by_user uid)) = None) in Happ.
      by rewrite Happ in Hup.
Qed.

Lemma total_failed_of_base_doc (d : DB) (uid : Z) :
  total_failed d uid = get_or (base_doc (coll d "analytics") uid) "total_failed" (VInt 0).
Proof.
  unfold total_failed, get_user_analytics, base_doc. fold (by_user uid).
  destruct (find_one _ _) as [stats|]; [done|]. reflexivity.
Qed.

Lemma increment_broadcast_stats_sent_total_failed (d d' : DB) (uid now : Z) :
  increment_broadcast_stats d uid true now = Some d' ->
  total_failed d' uid = total_failed d uid.
Proof.
  unfold increment_broadcast_stats. intros H.
  destruct (update_one _ _ _ _) as [c'|] eqn:Hup; simplify_eq.
  apply update_one_by_user_inv in Hup as (doc & Happ & Hf);
    [| simpl; rewrite !not_elem_of_cons; repeat split; try discriminate; apply not_elem_of_nil ..].
  rewrite (total_failed_of_base_doc d uid).
  unfold total_failed, get_user_analytics. rewrite coll_set_coll_eq, Hf.
  unfold get_or. f_equal.
  apply (apply_update_lookup_ne _ _ _ "total_failed" Happ);
    simpl; rewrite !not_elem_of_cons; repeat split; try discriminate; apply not_elem_of_nil.
Qed.
End EngineFacts.

(** Anything that the elementary steps of the engine preserve is
    preserved by a visit, a cycle and the whole loop. *)
Section StepInvariant.
Import Engine.

Variables (w : World) (cfg : Config) (R : State -> State -> Prop).

Hypothesis R_refl : forall st, R st st.
Hypothesis R_trans : forall st1 st2 st3, R st1 st2 -> R st2 st3 -> R st1 st3.
Hypothesis R_emit : forall ev st, R st (emit ev st).
Hypothesis R_add_sent : forall st, R st (add_sent st).
Hypothesis R_add_failed : forall st, R st (add_failed st).
Hypothesis R_set_cycle : forall cc cur st, R st (set_cycle cc cur st).
Hypothesis R_remove : forall acc g st, R st (remove_working_group acc g st).
Hypothesis R_stats : forall st d now,
  increment_broadcast_stats (db st) (uid cfg) true now = Some d -> R st (with_db d st).
Hypothesis R_cycle : forall st d now,
  increment_broadcast_cycle (db st) (uid cfg) now = Some d -> R st (with_db d st).
Hypothesis R_stop : forall st d now,
  set_broadcast_state (db st) (uid cfg) false false now = Some d -> R st (with_db d st).

Local Hint Resolve R_refl R_emit R_add_sent R_add_failed R_set_cycle R_remove : inv.

Ltac step :=
  eapply R_trans;
  [| first [ apply R_emit | apply R_add_sent | apply R_add_failed
           | apply R_set_cycle | apply R_remove ] ].

Lemma handle_send_error_inv acc group e st : R st (handle_send_error acc group e st).
Proof.
  unfold handle_send_error, on_flood_wait, on_rpc_error, on_exception.
  destruct (exn_class e); repeat case_match; repeat step; eauto with inv.
Qed.

Lemma record_sent_inv st st' : record_sent w cfg st = Some st' -> R st st'.
Proof.
  unfold record_sent. intros H.
  destruct (increment_broadcast_stats _ _ _ _) as [d|] eqn:Hd; simplify_eq.
  by eapply R_stats.
Qed.

Lemma forward_to_topics_inv acc group v ts tally st :
  R st (forward_to_topics w cfg acc group v ts tally st).2.
Proof.
  revert tally st. induction ts as [|topic ts IH]; intros [[s f] k] st; simpl; [auto with inv|].
  destruct (closed topic); [apply IH|].
  destruct (v_forward_topic v (t_id topic)) as [|e].
  - destruct (record_sent _ _ _) as [st1|] eqn:Hrec.
    + eapply R_trans; [|apply IH].
      eapply R_trans; [|apply R_emit].
      eapply R_trans; [|eapply record_sent_inv, Hrec].
      step. auto with inv.
    + eapply R_trans; [|apply IH]. step. step. auto with inv.
  - eapply R_trans; [|apply IH]. step. auto with inv.
Qed.

Lemma visit_group_inv acc group st : R st (flow_state (visit_group w cfg acc group st)).
Proof.
  unfold visit_group.
  destruct (negb (is_running _ _)); [apply R_refl|].
  destruct (negb (v_prepare _)); [apply R_refl|].
  destruct (v_get_entity _); [|simpl; step; auto with inv].
  destruct (is_forum group && _).
  - match goal with
    | |- context [forward_to_topics w cfg acc group ?v ?ts ?tally ?st0] =>
        pose proof (forward_to_topics_inv acc group v ts tally st0) as Hft;
        destruct (forward_to_topics w cfg acc group v ts tally st0) as [[[s f] k] st1]
    end.
    simpl in *. step. step. eapply R_trans; [|exact Hft]. step. auto with inv.
  - destruct (v_forward _) as [|e]; simpl.
    + destruct (record_sent _ _ _) as [st1|] eqn:Hrec; simpl.
      * step. step. eapply R_trans; [|eapply record_sent_inv, Hrec].
        step. step. auto with inv.
      * eapply R_trans; [|apply handle_send_error_inv]. step. step. auto with inv.
    + eapply R_trans; [|apply handle_send_error_inv]. step. auto with inv.
Qed.

Lemma visit_groups_inv acc snapshot st :
  R st (flow_state (visit_groups w cfg acc snapshot st)).
Proof.
  revert st. induction snapshot as [|group rest IH]; intros st; simpl; [auto with inv|].
  pose proof (visit_group_inv acc group st) as Hv.
  destruct (visit_group w cfg acc group st) as [st1|st1|st1]; simpl in *; [|done|done].
  eapply R_trans; [exact Hv|apply IH].
Qed.

Lemma visit_accounts_inv accs st :
  R st (flow_state (visit_accounts w cfg accs st)).
Proof.
  revert st. induction accs as [|acc accs IH]; intros st; simpl; [auto with inv|].
  destruct (negb _); [apply IH|].
  pose proof (visit_groups_inv acc (working_groups st acc) st) as Hv.
  destruct (visit_groups _ _ _ _ _) as [st1|st1|st1]; simpl in *; [|done|done].
  eapply R_trans; [exact Hv|apply IH].
Qed.

Lemma end_of_cycle_inv st : R st (flow_state (end_of_cycle w cfg st)).
Proof.
  unfold end_of_cycle.
  destruct (increment_broadcast_cycle _ _ _) as [d|] eqn:Hd; [|apply R_refl].
  assert (R st (with_db d st)) as H1 by (by eapply R_cycle).
  destruct (as_int _); [|simpl; step; exact H1].
  destruct (py_mod _ _); [|simpl; step; exact H1].
  simpl. destruct (_ =? 0); simpl.
  - step. step. step. step. exact H1.
  - step. step. step. exact H1.
Qed.

Lemma run_cycle_inv st : R st (flow_state (run_cycle w cfg st)).
Proof.
  unfold run_cycle.
  match goal with
  | |- context [visit_accounts w cfg ?accs ?st0] =>
      pose proof (visit_accounts_inv accs st0) as Hv;
      destruct (visit_accounts w cfg accs st0) as [st1|st1|st1]
  end; simpl in *.
  - eapply R_trans; [|apply end_of_cycle_inv]. eapply R_trans; [|exact Hv]. auto with inv.
  - eapply R_trans; [|exact Hv]. auto with inv.
  - eapply R_trans; [|exact Hv]. auto with inv.
Qed.

Lemma loop_turn_inv sched st : R st (turn_state (loop_turn w cfg sched st)).
Proof.
  unfold loop_turn.
  destruct (negb (is_running _ _)); [apply R_refl|].
  match goal with |- context [if ?b then _ else _] => destruct b end.
  - destruct (get_user _ _); [|apply R_refl].
    destruct (set_broadcast_state _ _ _ _ _) as [d|] eqn:Hd; simpl.
    + eapply R_trans; [apply R_emit|]. by eapply R_stop.
    + apply R_emit.
  - destruct (Schedule.is_within_schedule _ _) as [within msg].
    destruct (negb within); simpl.
    + step. auto with inv.
    + pose proof (run_cycle_inv st) as Hc.
      destruct (run_cycle w cfg st); exact Hc.
Qed.

Lemma run_loop_inv fuel sched st : R st (turn_state (run_loop fuel w cfg sched st)).
Proof.
  revert st. induction fuel as [|fuel IH]; intros st; simpl; [apply R_refl|].
  pose proof (loop_turn_inv sched st) as Ht.
  destruct (loop_turn w cfg sched st) as [st1|st1|st1|st1]; simpl in *; [|done..].
  eapply R_trans; [exact Ht|apply IH].
Qed.

End StepInvariant.

Section EngineInvariants.
Import Engine Scenario.

Lemma total_failed_same_analytics (d d' : DB) (u : Z) :
  coll d' "analytics" = coll d "analytics" -> total_failed d' u = total_failed d u.
Proof. intros H. unfold total_failed, get_user_analytics. by rewrite H. Qed.

Lemma update_ad_cycle_other_coll (d : DB) (u : Z) (name : string) :
  name <> "users" -> coll (update_ad_cycle d u).1 name = coll d name.
Proof.
  intros Hne. unfold update_ad_cycle.
  repeat case_match; simpl; try done.
  by rewrite coll_set_coll_ne.
Qed.

Lemma increment_broadcast_cycle_total_failed (d d' : DB) (u now : Z) :
  increment_broadcast_cycle d u now = Some d' ->
  total_failed d' u = total_failed d u.
Proof.
  unfold increment_broadcast_cycle. intros H.
  destruct (update_one _ _ _ _) as [c'|] eqn:Hup; simplify_eq.
  etrans.
  { apply total_failed_same_analytics, update_ad_cycle_other_coll. done. }
  apply update_one_by_user_inv in Hup as (doc & Happ & Hf);
    [| simpl; rewrite !not_elem_of_cons; repeat split; try discriminate; apply not_elem_of_nil ..].
  rewrite (total_failed_of_base_doc d u).
  unfold total_failed, get_user_analytics. rewrite coll_set_coll_eq, Hf.
  unfold get_or. f_equal.
  apply (apply_update_lookup_ne _ _ _ "total_failed" Happ);
    simpl; rewrite !not_elem_of_cons; repeat split; try discriminate; apply not_elem_of_nil.
Qed.

Lemma set_broadcast_state_total_failed (d d' : DB) (u now : Z) (r p : bool) :
  set_broadcast_state d u r p now = Some d' ->
  total_failed d' u = total_failed d u.
Proof.
  unfold set_broadcast_state. intros H.
  destruct (update_one _ _ _ _) as [c'|]; simplify_eq.
  apply total_failed_same_analytics. by rewrite coll_set_coll_ne.
Qed.

(** X1: no turn of the loop, however the sends in it end, changes the
    user's [total_failed]. *)
Lemma run_loop_keeps_total_failed (fuel : nat) (w : World) (cfg : Config)
    (sched : option Z) (st : State) :
  total_failed (db (turn_state (run_loop fuel w cfg sched st))) (uid cfg)
  = total_failed (db st) (uid cfg).
Proof.
  apply (run_loop_inv w cfg
           (fun st1 st2 => total_failed (db st2) (uid cfg) = total_failed (db st1) (uid cfg)));
    try done.
  - intros st1 st2 st3 H12 H23. by rewrite H23.
  - intros st1 d now H. by apply increment_broadcast_stats_sent_total_failed with now.
  - intros st1 d now H. by apply increment_broadcast_cycle_total_failed with now.
  - intros st1 d now H. by apply set_broadcast_state_total_failed with now false false.
Qed.

Lemma remove_first_subset (x g : Group) (l : list Group) :
  g ∈ remove_first x l -> g ∈ l.
Proof.
  induction l as [|y l IH]; simpl; [done|].
  destruct (decide (x = y)); [by right|].
  intros [->|Hin]%elem_of_cons; [left|right; auto].
Qed.

Lemma remove_first_NoDup (x : Group) (l : list Group) :
  NoDup l -> x ∉ remove_first x l.
Proof.
  induction 1 as [|y l Hy Hnd IH]; simpl; [apply not_elem_of_nil|].
  destruct (decide (x = y)) as [->|Hne]; [done|].
  apply not_elem_of_cons. done.
Qed.

Lemma working_groups_remove (acc acc' : Z) (group : Group) (st : State) :
  working_groups (remove_working_group acc group st) acc'
  = if decide (acc = acc') then remove_first group (working_groups st acc')
    else working_groups st acc'.
Proof.
  unfold working_groups, remove_working_group. simpl.
  destruct (decide (acc = acc')) as [->|Hne].
  - rewrite lookup_alter_eq. by destruct (working_groups_map st !! acc').
  - by rewrite lookup_alter_ne.
Qed.

(** Working sets only shrink during a run. *)
Lemma run_loop_working_groups_shrink (fuel : nat) (w : World) (cfg : Config)
    (sched : option Z) (st : State) (acc : Z) (g : Group) :
  g ∈ working_groups (turn_state (run_loop fuel w cfg sched st)) acc ->
  g ∈ working_groups st acc.
Proof.
  revert acc g.
  apply (run_loop_inv w cfg
           (fun st1 st2 => forall acc g, g ∈ working_groups st2 acc -> g ∈ working_groups st1 acc));
    try done.
  - intros st1 st2 st3 H12 H23 acc g Hin. auto.
  - intros acc0 g0 st1 acc g. rewrite working_groups_remove.
    destruct (decide (acc0 = acc)); [apply remove_first_subset|done].
Qed.

End EngineInvariants.

(** ** Facts about whole runs *)

Section RunFacts.
Import Engine Scenario.

Lemma prefix_map_string (f : ascii -> ascii) (s1 s2 : string) :
  String.prefix s1 s2 = true ->
  String.prefix (Str.map_string f s1) (Str.map_string f s2) = true.
Proof.
  revert s1. induction s2 as [|b s2 IH]; intros [|a s1]; simpl; try done.
  destruct (ascii_dec a b) as [->|Hne]; [|done].
  intros H. destruct (ascii_dec (f b) (f b)); [by apply IH|done].
Qed.

Lemma contains_map_string (f : ascii -> ascii) (needle hay : string) :
  Str.contains needle hay = true ->
  Str.contains (Str.map_string f needle) (Str.map_string f hay) = true.
Proof.
  induction hay as [|c hay IH]; cbn [Str.contains Str.map_string].
  - rewrite !orb_false_r. apply (prefix_map_string f needle EmptyString).
  - intros [H|H]%orb_true_iff; apply orb_true_iff.
    + left. by apply (prefix_map_string f needle (String c hay)).
    + right. by apply IH.
Qed.

(** A message that contains "forbidden" or "timeout" as written also
    contains it once lower-cased, which is what the handlers test. *)
Lemma contains_lower (needle hay : string) :
  Str.lower needle = needle ->
  Str.contains needle hay = true -> Str.contains needle (Str.lower hay) = true.
Proof.
  intros Hlow H. rewrite <- Hlow. by apply contains_map_string.
Qed.

(** X2: a group that is not in a working set does not come back during the
    run. *)
Lemma removed_group_stays_removed (fuel : nat) (w : World) (cfg : Config)
    (sched : option Z) (st : State) (acc : Z) (g : Group) :
  g ∉ working_groups st acc ->
  g ∉ working_groups (turn_state (run_loop fuel w cfg sched st)) acc.
Proof.
  intros Hnot Hin. apply Hnot. by apply run_loop_working_groups_shrink in Hin.
Qed.

(** The one path on which the engine adds to [total_failed]: a run that
    ends in the outer [except Exception], here because the cycle counter
    in the analytics cannot be incremented. *)
Lemma crash_is_recorded_as_failure :
  let t := run_loop 1 (world_refusing exn_denied) cfg_alice None st_broken_analytics in
  t = TurnCrashed (turn_state t)
  /\ total_failed (db (turn_state t)) alice = VInt 0
  /\ (fun d => total_failed d alice) <$> leave (world_refusing exn_denied) cfg_alice t
     = Some (VInt 1)
  /\ (fun d => is_running d alice) <$> leave (world_refusing exn_denied) cfg_alice t
     = Some false.
Proof.
  cbv zeta. split; [|split; [|split]]; vm_compute; reflexivity.
Qed.

End RunFacts.

(** ** The rotation pointer over a run *)

Section EngineRotation.
Import Engine Scenario.

(** The count and the pointer are read from the users collection
    alone. *)
Lemma rotation_reads_users (d1 d2 : DB) (u : Z) :
  coll d1 "users" = coll d2 "users" ->
  get_current_ad_cycle d1 u = get_current_ad_cycle d2 u
  /\ get_user_saved_messages_count d1 u = get_user_saved_messages_count d2 u.
Proof.
  intros H. unfold get_current_ad_cycle, get_user_saved_messages_count. by rewrite H.
Qed.

Lemma update_ad_cycle_users (d1 d2 : DB) (u : Z) :
  coll d1 "users" = coll d2 "users" ->
  coll (update_ad_cycle d1 u).1 "users" = coll (update_ad_cycle d2 u).1 "users".
Proof.
  intros H. unfold update_ad_cycle.
  destruct (rotation_reads_users d1 d2 u H) as [-> ->]. rewrite H.
  repeat case_match; simpl; try done; by rewrite !coll_set_coll_eq.
Qed.

Lemma increment_broadcast_stats_users (d d' : DB) (u now : Z) (ok : bool) :
  increment_broadcast_stats d u ok now = Some d' -> coll d' "users" = coll d "users".
Proof.
  unfold increment_broadcast_stats. intros H.
  destruct (update_one _ _ _ _); simplify_eq. by rewrite coll_set_coll_ne.
Qed.

Lemma increment_broadcast_cycle_users (d d' : DB) (u now : Z) :
  increment_broadcast_cycle d u now = Some d' ->
  coll d' "users" = coll (advance u d) "users".
Proof.
  unfold increment_broadcast_cycle, advance. intros H.
  destruct (update_one _ _ _ _); simplify_eq.
  apply update_ad_cycle_users. by rewrite coll_set_coll_ne.
Qed.

(** The visits of a cycle leave the users collection and the cycle
    number alone. *)
Lemma visit_accounts_users (w : World) (cfg : Config) (accs : list Z) (st : State) :
  coll (db (flow_state (visit_accounts w cfg accs st))) "users" = coll (db st) "users"
  /\ cycle_count (flow_state (visit_accounts w cfg accs st)) = cycle_count st.
Proof.
  apply (visit_accounts_inv w cfg
           (fun st1 st2 => coll (db st2) "users" = coll (db st1) "users"
                           /\ cycle_count st2 = cycle_count st1)); try done.
  - intros st1 st2 st3 [H1 H2] [H3 H4]. split; congruence.
  - intros st1 d now H. split; [|done]. simpl.
    by apply increment_broadcast_stats_users with (uid cfg) now true.
Qed.

(** A completed cycle is one application of the advance operation. *)
Lemma run_cycle_advances (w : World) (cfg : Config) (st st' : State) :
  run_cycle w cfg st = Next st' ->
  coll (db st') "users" = coll (advance (uid cfg) (db st)) "users"
  /\ cycle_count st' = cycle_count st + 1.
Proof.
  unfold run_cycle.
  match goal with
  | |- context [visit_accounts w cfg ?accs ?st0] =>
      destruct (visit_accounts_users w cfg accs st0) as [Hu Hc];
      destruct (visit_accounts w cfg accs st0) as [st1|st1|st1]
  end; try discriminate.
  simpl in Hu, Hc. unfold end_of_cycle.
  destruct (increment_broadcast_cycle _ _ _) as [d|] eqn:Hd; [|discriminate].
  apply increment_broadcast_cycle_users in Hd.
  destruct (as_int _); [|discriminate].
  destruct (py_mod _ _); [|discriminate].
  intros [= <-]. simpl. split.
  - destruct (_ =? 0); simpl; rewrite Hd; apply update_ad_cycle_users; exact Hu.
  - destruct (_ =? 0); simpl; exact Hc.
Qed.

(** X3: after the loop has gone round with N cycles completed, the pointer
    that started at 0 is N mod message_count. *)
Lemma rotation_pointer_after_completed_cycles (fuel : nat) (w : World) (cfg : Config)
    (sched : option Z) (st st' : State) :
  get_current_ad_cycle (db st) (uid cfg) = VInt 0 ->
  run_loop fuel w cfg sched st = Again st' ->
  0 <= cycle_count st' - cycle_count st
  /\ get_current_ad_cycle (db st') (uid cfg)
     = VInt ((cycle_count st' - cycle_count st)
             mod get_user_saved_messages_count (db st) (uid cfg)).
Proof.
  intros H0.
  set (m := get_user_saved_messages_count (db st) (uid cfg)).
  pose proof (saved_messages_count_positive (db st) (uid cfg)) as Hpos. fold m in Hpos.
  assert (Hgen : forall st1 k, 0 <= k ->
            get_current_ad_cycle (db st1) (uid cfg) = VInt (k mod m) ->
            get_user_saved_messages_count (db st1) (uid cfg) = m ->
            cycle_count st1 = cycle_count st + k ->
            run_loop fuel w cfg sched st1 = Again st' ->
            0 <= cycle_count st' - cycle_count st
            /\ get_current_ad_cycle (db st') (uid cfg)
               = VInt ((cycle_count st' - cycle_count st) mod m)).
  { induction fuel as [|fuel IH]; intros st1 k Hk Hp Hm Hc; simpl.
    - intros [= <-]. rewrite Hc. replace (cycle_count st + k - cycle_count st) with k by lia.
      done.
    - destruct (loop_turn w cfg sched st1) as [st2|st2|st2|st2] eqn:Hturn; try discriminate.
      unfold loop_turn in Hturn.
      destruct (negb (is_running _ _)); [discriminate|].
      match type of Hturn with context [if ?b then _ else _] => destruct b end.
      { destruct (get_user _ _); [|discriminate].
        destruct (set_broadcast_state _ _ _ _ _); discriminate. }
      destruct (Schedule.is_within_schedule _ _) as [within msg].
      destruct (negb within).
      + injection Hturn as <-. apply (IH _ k); done.
      + destruct (run_cycle w cfg st1) as [st3|st3|st3] eqn:Hcycle; try discriminate.
        injection Hturn as <-.
        destruct (run_cycle_advances _ _ _ _ Hcycle) as [Hu Hcc].
        destruct (rotation_reads_users _ _ (uid cfg) Hu) as [Hp3 Hm3].
        destruct (update_ad_cycle_step (db st1) (uid cfg) (k mod m) Hp) as (Hp' & Hm' & _).
        rewrite Hm in Hp', Hm'.
        apply (IH _ (k + 1)); [lia| | |lia].
        * rewrite Hp3, Hp'. f_equal. by rewrite Zplus_mod_idemp_l.
        * by rewrite Hm3, Hm'. }
  intros Hrun. apply (Hgen st 0); try done; try lia.
Qed.

Lemma reset_ad_cycle_zero (d : DB) (u : Z) :
  get_current_ad_cycle (reset_ad_cycle d u).1 u = VInt 0.
Proof.
  unfold reset_ad_cycle.
  destruct (update_one_set_by_user (coll d "users") u [("ad_cycle_index", VInt 0)])
    as (c' & -> & Hf).
  { simpl. intros Hin%list_elem_of_singleton. discriminate Hin. }
  simpl. unfold get_current_ad_cycle. rewrite coll_set_coll_eq, Hf.
  unfold get_or, op_set. simpl. by rewrite lookup_insert_eq.
Qed.

End EngineRotation.

(** ** Send errors *)

Section SendClaims.
Import Engine Scenario.

(** A forward to a target without topics that raises: the visit is the
    handler applied after the two calls. *)
Lemma visit_group_forward_raises (w : World) (cfg : Config) (acc : Z) (group : Group)
    (st : State) (e : Exn) :
  is_running (db st) (uid cfg) = true ->
  v_prepare (telegram w (cycle_count st) acc group) = true ->
  v_get_entity (telegram w (cycle_count st) acc group) = Returns ->
  is_forum group && negb (bool_decide (topics group = [])) = false ->
  v_forward (telegram w (cycle_count st) acc group) = Raises e ->
  visit_group w cfg acc group st
  = Next (handle_send_error acc group e
            (emit (EvForward acc (g_id group) None)
               (emit (EvGetEntity acc (g_id group)) st))).
Proof.
  intros Hrun Hprep Hent Hforum Hfwd. unfold visit_group.
  rewrite Hrun, Hprep, Hent, Hforum, Hfwd. done.
Qed.

Lemma contains_forbidden_permanent (err : string) :
  Str.contains "forbidden" err = true -> is_permanent err = true.
Proof.
  intros H. unfold is_permanent. cbn [existsb]. rewrite H.
  by rewrite orb_true_r.
Qed.

(** The clause written for rate limits, [except FloodWait]: for an
    exception of the class it names, carrying a wait of W > 0 seconds,
    the attempt is counted in [failed_count], the rate limit is reported
    and the engine sleeps W + 2 seconds as the last effect of the visit;
    the working sets and the database are left as they were. The class
    it names is pyrogram's, which no send of the engine raises. *)
Lemma flood_wait_clause_sleeps (w : World) (cfg : Config) (acc : Z) (group : Group)
    (st : State) (e : Exn) (W : Z) :
  is_running (db st) (uid cfg) = true ->
  v_prepare (telegram w (cycle_count st) acc group) = true ->
  v_get_entity (telegram w (cycle_count st) acc group) = Returns ->
  is_forum group && negb (bool_decide (topics group = [])) = false ->
  v_forward (telegram w (cycle_count st) acc group) = Raises e ->
  exn_class e = FloodWait ->
  exn_value e = Some W ->
  0 < W ->
  exists st',
    visit_group w cfg acc group st = Next st'
    /\ failed_count st' = failed_count st + 1
    /\ sent_count st' = sent_count st
    /\ trace st' = trace st ++ [EvGetEntity acc (g_id group);
                                EvForward acc (g_id group) None;
                                EvDm (DmRateLimited W);
                                EvSleep (W + 2)]
    /\ W <= W + 2
    /\ working_groups_map st' = working_groups_map st
    /\ db st' = db st.
Proof.
  intros Hrun Hprep Hent Hforum Hfwd Hclass Hval HW.
  rewrite (visit_group_forward_raises w cfg acc group st e) by done.
  eexists; split; [done|].
  unfold handle_send_error. rewrite Hclass.
  assert (wait_time e = W) as Hwait.
  { unfold wait_time. rewrite Hval. simpl.
    destruct (W =? 0) eqn:H0; [apply Z.eqb_eq in H0; lia|done]. }
  unfold on_flood_wait. rewrite Hwait. simpl.
  repeat split; try done; try lia.
  by rewrite <- !app_assoc.
Qed.

(** C2, as amended: when the forward to a target that is not a forum
    with topics raises, the attempt is counted as failed, and
    - an error the last clause takes ([except Exception]) whose
      lower-cased text contains "forbidden" removes the group (its first
      occurrence) from that account's working set, so that a working set
      without duplicates no longer holds it;
    - such an error whose text contains "timeout" and none of "banned",
      "forbidden", "kicked", "rights", "not enough" leaves every working
      set as it was;
    - an error taken by [except FloodWait] or [except RPCError] leaves
      every working set as it was, whatever its text. *)
Theorem C2_send_error_and_working_set (w : World) (cfg : Config) (acc : Z) (group : Group)
    (st : State) (e : Exn) :
  is_running (db st) (uid cfg) = true ->
  v_prepare (telegram w (cycle_count st) acc group) = true ->
  v_get_entity (telegram w (cycle_count st) acc group) = Returns ->
  is_forum group && negb (bool_decide (topics group = [])) = false ->
  v_forward (telegram w (cycle_count st) acc group) = Raises e ->
  exists st',
    visit_group w cfg acc group st = Next st'
    /\ failed_count st' = failed_count st + 1
    /\ (exn_class e = OtherException ->
        Str.contains "forbidden" (Str.lower (exn_msg e)) = true ->
        working_groups st' acc = remove_first group (working_groups st acc)
        /\ (NoDup (working_groups st acc) -> group ∉ working_groups st' acc))
    /\ (exn_class e = OtherException ->
        Str.contains "timeout" (Str.lower (exn_msg e)) = true ->
        is_permanent (Str.lower (exn_msg e)) = false ->
        working_groups_map st' = working_groups_map st)
    /\ (exn_class e <> OtherException ->
        working_groups_map st' = working_groups_map st).
Proof.
  intros Hrun Hprep Hent Hforum Hfwd.
  rewrite (visit_group_forward_raises w cfg acc group st e) by done.
  eexists; split; [done|].
  unfold handle_send_error, on_flood_wait, on_rpc_error, on_exception.
  split; [|split; [|split]].
  - destruct (exn_class e); repeat case_match; reflexivity.
  - intros -> Hforb. rewrite (contains_forbidden_permanent _ Hforb).
    rewrite working_groups_remove. rewrite decide_True by done.
    assert (forall st0, working_groups
              (if Str.contains "topic_closed" (Str.lower (exn_msg e))
               then emit (EvDm DmForumTopicClosed) (add_failed st0)
               else emit (EvDm (DmSendFailedSkippingGroup (generic_reason (exn_msg e))))
                      (add_failed st0)) acc = working_groups st0 acc) as Hsame.
    { intros st0. by destruct (Str.contains "topic_closed" _). }
    rewrite Hsame. split; [done|]. intros Hnd. by apply remove_first_NoDup.
  - intros -> _ Hperm. rewrite Hperm. by destruct (Str.contains "topic_closed" _).
  - intros Hne. destruct (exn_class e); done.
Qed.


(** A forward into a forum topic: the rate limit of 30 s on the first
    topic is taken by the topic loop's own handler, [failed_count] stays
    0 and the forward to the second topic follows after a sleep of 2 s. *)
Lemma topic_rate_limit_is_swallowed :
  let st' := flow_state (visit_group world_topic_flood cfg_alice 1 forum_two_topics
                           (st_start [forum_two_topics])) in
  failed_count st' = 0
  /\ trace st' = [EvGetEntity 1 (-1003); EvDm (DmBroadcastingToForum 2);
                  EvForward 1 (-1003) (Some 11); EvSleep 2;
                  EvForward 1 (-1003) (Some 12); EvSleep 5;
                  EvDm (DmForumBroadcastComplete 1 1 0); EvSleep 5].
Proof. vm_compute. split; reflexivity. Qed.


Lemma C2_send_error_witness :
  is_running (db (st_start [group_denied; group_open])) (uid cfg_alice) = true
  /\ exists st',
       visit_group (world_refusing exn_forbidden) cfg_alice 1 group_denied
         (st_start [group_denied; group_open]) = Next st'
       /\ failed_count st' = 1
       /\ working_groups st' 1 = [group_open].
Proof.
  split; [reflexivity|].
  destruct (C2_send_error_and_working_set (world_refusing exn_forbidden) cfg_alice 1
              group_denied (st_start [group_denied; group_open]) exn_forbidden)
    as (st' & Hv & Hf & Hforb & _);
    [reflexivity | reflexivity | reflexivity | reflexivity | reflexivity |].
  exists st'. split; [exact Hv|]. split; [exact Hf|].
  destruct Hforb as [Hw _]; [reflexivity | reflexivity |].
  rewrite Hw. reflexivity.
Defined.

(** C2 as stated fails on both halves: an error with "forbidden" in its
    text that the [except RPCError] clause takes leaves the group in the
    working set, and an error with "timeout" in its text that also names
    "rights" removes it. *)
Lemma C2_forbidden_kept_timeout_removed :
  (Str.contains "forbidden" (exn_msg exn_forbidden_rpc) = true
   /\ working_groups
        (flow_state (visit_group (world_refusing exn_forbidden_rpc) cfg_alice 1 group_denied
                       (st_start [group_denied; group_open]))) 1
      = [group_denied; group_open])
  /\ (Str.contains "timeout" (exn_msg exn_timeout_rights) = true
      /\ working_groups
           (flow_state (visit_group (world_refusing exn_timeout_rights) cfg_alice 1
                          group_denied (st_start [group_denied; group_open]))) 1
         = [group_open]).
Proof. vm_compute. repeat split. Qed.

(** C1, in the end-to-end scenario: whether the refused forward is a
    permission error, a rate limit or a timeout, the first cycle ends
    with one send counted and one failure counted in the run's own
    counters and in the cycle summary, [total_sent] has gone from 0 to 1
    and [total_failed] is still 0. *)
Theorem C1_failed_send_not_recorded_in_analytics :
  total_sent db_running alice = VInt 0
  /\ total_failed db_running alice = VInt 0
  /\ forall e, In e [exn_denied; exn_flood30; exn_timeout] ->
       let st := flow_state (first_cycle e) in
       is_next (first_cycle e) = true
       /\ sent_count st = 1
       /\ failed_count st = 1
       /\ In (EvDm (DmCycleCompleted 1 1 1 1)) (trace st)
       /\ total_sent (db st) alice = VInt 1
       /\ total_failed (db st) alice = VInt 0.
Proof.
  split; [reflexivity|]. split; [reflexivity|].
  intros e [<- | [<- | [<- | []]]]; cbv zeta;
    (split; [vm_compute; reflexivity|]);
    (split; [vm_compute; reflexivity|]);
    (split; [vm_compute; reflexivity|]);
    (split; [vm_compute; repeat (first [left; reflexivity | right])|]);
    (split; vm_compute; reflexivity).
Qed.

End SendClaims.

(** ** The order of effects *)

Section TraceFacts.
Import Engine Scenario.

(** Effects are only ever appended to the trace. *)
Lemma visit_groups_trace_extends (w : World) (cfg : Config) (acc : Z)
    (snapshot : list Group) (st : State) :
  exists suffix,
    trace (flow_state (visit_groups w cfg acc snapshot st)) = trace st ++ suffix.
Proof.
  apply (visit_groups_inv w cfg
           (fun st1 st2 => exists suffix, trace st2 = trace st1 ++ suffix)).
  - intros st1. exists []. by rewrite app_nil_r.
  - intros st1 st2 st3 [s1 H1] [s2 H2]. exists (s1 ++ s2).
    by rewrite H2, H1, app_assoc.
  - intros ev st1. by exists [ev].
  - intros st1. exists []. by rewrite app_nil_r.
  - intros st1. exists []. by rewrite app_nil_r.
  - intros acc0 g st1. exists []. by rewrite app_nil_r.
  - intros st1 d now _. exists []. by rewrite app_nil_r.
Qed.

(** After a forward that the [except FloodWait] clause takes, whatever
    the rest of the account's turn does comes after the sleep of W + 2
    seconds. *)
Lemma rate_limit_sleep_precedes_rest (w : World) (cfg : Config) (acc : Z) (group : Group)
    (rest : list Group) (st : State) (e : Exn) (W : Z) :
  is_running (db st) (uid cfg) = true ->
  v_prepare (telegram w (cycle_count st) acc group) = true ->
  v_get_entity (telegram w (cycle_count st) acc group) = Returns ->
  is_forum group && negb (bool_decide (topics group = [])) = false ->
  v_forward (telegram w (cycle_count st) acc group) = Raises e ->
  exn_class e = FloodWait ->
  exn_value e = Some W ->
  0 < W ->
  exists suffix,
    trace (flow_state (visit_groups w cfg acc (group :: rest) st))
    = trace st ++ [EvGetEntity acc (g_id group); EvForward acc (g_id group) None;
                   EvDm (DmRateLimited W); EvSleep (W + 2)] ++ suffix.
Proof.
  intros Hrun Hprep Hent Hforum Hfwd Hclass Hval HW. simpl.
  rewrite (visit_group_forward_raises w cfg acc group st e) by done.
  match goal with
  | |- context [visit_groups w cfg acc rest ?st1] =>
      destruct (visit_groups_trace_extends w cfg acc rest st1) as [suffix ->]
  end.
  exists suffix.
  unfold handle_send_error. rewrite Hclass. unfold on_flood_wait, wait_time.
  rewrite Hval. simpl.
  destruct (W =? 0) eqn:H0; [apply Z.eqb_eq in H0; lia|]. simpl.
  rewrite <- !app_assoc. reflexivity.
Qed.

End TraceFacts.

(** ** The pre-broadcast target list *)

Section AnalysisClaims.
Import Engine Analysis Scenario.

Lemma collect_restricted (results : list (option CheckResult)) (r : Restricted) :
  r ∈ (collect results).2 <-> Some (IsRestricted r) ∈ results.
Proof.
  induction results as [|result results IH]; simpl.
  - rewrite !elem_of_nil. tauto.
  - destruct (collect results) as [usable restricted] eqn:Hc. simpl in IH.
    destruct result as [[g|r'|d]|]; simpl; rewrite ?elem_of_cons, IH; naive_solver.
Qed.

Lemma account_groups_elem (working : list Target) (accessible : list Z)
    (l : list Target) (g : Group) :
  account_groups working accessible = Some l ->
  (TGroup g ∈ l <-> TGroup g ∈ working /\ g_id g ∈ accessible).
Proof.
  revert l. induction working as [|t working IH]; intros l; simpl.
  - intros [= <-]. rewrite !elem_of_nil. tauto.
  - destruct t as [g'|d].
    + destruct (account_groups working accessible) as [l'|]; [|done].
      intros [= <-]. specialize (IH l' eq_refl).
      case_bool_decide as Hin; rewrite ?elem_of_cons, IH; naive_solver.
    + destruct (d !! "id") as [v|]; [|done].
      destruct (account_groups working accessible) as [l'|]; [|done].
      intros [= <-]. specialize (IH l' eq_refl).
      case_bool_decide; rewrite ?elem_of_cons, IH; naive_solver.
Qed.

(** In "forums_only" mode the filter keeps the usable forums and
    nothing else: every restricted group is dropped. *)
Lemma all_groups_combined_forums_only (usable_groups : list Target)
    (restricted_groups : list Restricted) :
  all_groups_combined (VStr "forums_only") usable_groups restricted_groups
  = List.filter target_is_forum usable_groups.
Proof.
  unfold all_groups_combined, is_mode.
  rewrite bool_decide_eq_false_2 by discriminate.
  rewrite bool_decide_eq_true_2 by done.
  rewrite List.filter_app.
  assert (List.filter target_is_forum
            (map (fun r0 => TGroup (restricted_as_group r0)) restricted_groups) = []) as ->.
  { induction restricted_groups as [|r0 rs IH]; simpl; done. }
  by rewrite app_nil_r.
Qed.

(** C9, as amended: a group is in the analyser's restricted list
    exactly when its check classified it as restricted; in every mode
    but "forums_only" each restricted group is in the mode-filtered
    combined list, as an entry that is not a forum and has no topics;
    and the list an account iterates holds a restricted group's entry
    exactly when the combined list holds it and the group is among that
    account's usable dialogs. *)
Theorem C9_restricted_groups_in_target_list (broadcast_mode : Value)
    (results : list (option CheckResult)) (r : Restricted) :
  let usable_groups := (collect results).1 in
  let restricted_groups := (collect results).2 in
  let combined := all_groups_combined broadcast_mode usable_groups restricted_groups in
  (Some (IsRestricted r) ∈ results <-> r ∈ restricted_groups)
  /\ (broadcast_mode <> VStr "forums_only" -> r ∈ restricted_groups ->
      TGroup (restricted_as_group r) ∈ combined)
  /\ (forall accessible_group_ids l,
        account_groups combined accessible_group_ids = Some l ->
        (TGroup (restricted_as_group r) ∈ l
         <-> TGroup (restricted_as_group r) ∈ combined /\ r_id r ∈ accessible_group_ids)).
Proof.
  intros usable_groups restricted_groups combined.
  split; [symmetry; apply collect_restricted|].
  split.
  - intros Hmode Hr. unfold combined, all_groups_combined, is_mode.
    assert (TGroup (restricted_as_group r)
              ∈ usable_groups ++ map (fun r0 => TGroup (restricted_as_group r0)) restricted_groups)
      as Hin.
    { apply elem_of_app. right. apply list_elem_of_In.
      apply (in_map (fun r0 => TGroup (restricted_as_group r0)) _ r).
      by apply list_elem_of_In. }
    case_bool_decide.
    + apply list_elem_of_In, filter_In. split; [by apply list_elem_of_In|done].
    + by rewrite bool_decide_eq_false_2.
  - intros accessible l Hl.
    apply (account_groups_elem _ _ _ (restricted_as_group r) Hl).
Qed.

(** C9 as stated fails in two ways: in "forums_only" mode a group that
    the check found write-forbidden is not in the combined list; and in
    "both" mode a group filed under "Not a member" is in the combined
    list but not in the list the account iterates, because it is not
    among the account's dialogs. *)
Lemma C9_restricted_group_dropped :
  check_group (VStr "forums_only") locked_doc (-1002) "Locked" RaisesChatWriteForbiddenError
  = IsRestricted locked_restricted
  /\ all_groups_combined (VStr "forums_only")
       (collect [Some (IsRestricted locked_restricted)]).1
       (collect [Some (IsRestricted locked_restricted)]).2 = []
  /\ check_group (VStr "both") locked_doc (-1004) "Left" RaisesValueError
     = IsRestricted left_restricted
  /\ account_groups
       (all_groups_combined (VStr "both")
          (collect [Some (IsRestricted left_restricted)]).1
          (collect [Some (IsRestricted left_restricted)]).2)
       (analyze_account_groups_fast
          (Some [ {| d_id := -1001; d_is_group := true;
                     slowmode_seconds := None; participants_count := None |} ])
          [-1001; -1004] [])
     = Some [].
Proof. vm_compute. repeat split. Qed.

End AnalysisClaims.

(** ** Users do not see each other's writes *)

Section Isolation.
Import Engine Control.

Lemma matches_cons (kv : string * Value) (q : Query) (d : Doc) :
  matches (kv :: q) d = bool_decide (d !! kv.1 = Some kv.2) && matches q d.
Proof. done. Qed.

Lemma matches_user_first (uid : Z) (q : Query) (d : Doc) :
  matches (("user_id", VInt uid) :: q) d = true -> d !! "user_id" = Some (VInt uid).
Proof.
  rewrite matches_cons. intros [H _]%andb_prop. by apply bool_decide_eq_true_1 in H.
Qed.

Lemma other_user_no_match (uid uid' : Z) (q : Query) (d : Doc) :
  d !! "user_id" = Some (VInt uid) -> uid <> uid' ->
  matches (("user_id", VInt uid') :: q) d = false.
Proof.
  intros Hd Hne. rewrite matches_cons. apply andb_false_intro1.
  apply bool_decide_eq_false_2. simpl. rewrite Hd. congruence.
Qed.

Lemma filter_replace_first (P : Doc -> bool) (q : Query) (d' : Doc) (c : Collection) :
  (forall d, matches q d = true -> P d = false) -> P d' = false ->
  List.filter P (replace_first q d' c) = List.filter P c.
Proof.
  intros Hq Hd'. induction c as [|d c IH]; simpl; [done|].
  destruct (matches q d) eqn:Hm; simpl.
  - by rewrite Hd', (Hq d Hm).
  - by rewrite IH.
Qed.

Lemma filter_app_one (P : Doc -> bool) (d' : Doc) (c : Collection) :
  P d' = false -> List.filter P (c ++ [d']) = List.filter P c.
Proof. intros H. rewrite List.filter_app. simpl. rewrite H. apply app_nil_r. Qed.

Lemma list_to_map_user_first (uid : Z) (q : Query) :
  (list_to_map (("user_id", VInt uid) :: q) : Doc) !! "user_id" = Some (VInt uid).
Proof. simpl. apply lookup_insert_eq. Qed.

(** An update addressed to one user leaves the answer to every query
    that names another user as it was. *)
Lemma update_one_other_user (c c' : Collection) (uid uid' : Z) (q q' : Query)
    (u : Update) (upsert : bool) :
  update_one c (("user_id", VInt uid) :: q) u upsert = Some c' ->
  "user_id" ∉ (u_inc u).*1 -> "user_id" ∉ (u_set u).*1 ->
  uid <> uid' ->
  find c' (("user_id", VInt uid') :: q') = find c (("user_id", VInt uid') :: q').
Proof.
  intros Hup Hi Hs Hne. unfold update_one in Hup. unfold find.
  destruct (find_one c _) as [d|] eqn:Hf.
  - destruct (apply_update u d) as [d'|] eqn:Ha; simplify_eq.
    apply filter_replace_first.
    + intros d0 Hm. apply other_user_no_match with uid; [|done].
      by apply matches_user_first in Hm.
    + apply other_user_no_match with uid; [|done].
      rewrite (apply_update_lookup_ne _ _ _ "user_id" Ha Hi Hs).
      apply find_one_Some_matches in Hf. by apply matches_user_first in Hf.
  - destruct upsert; simplify_eq; [|done].
    destruct (apply_update u _) as [d'|] eqn:Ha; simplify_eq.
    apply filter_app_one, other_user_no_match with uid; [|done].
    rewrite (apply_update_lookup_ne _ _ _ "user_id" Ha Hi Hs).
    apply list_to_map_user_first.
Qed.

Lemma filter_filter_out (P Q : Doc -> bool) (c : Collection) :
  (forall d, Q d = false -> P d = false) ->
  List.filter P (List.filter Q c) = List.filter P c.
Proof.
  intros H. induction c as [|d c IH]; [done|].
  cbn [List.filter]. destruct (Q d) eqn:HQ.
  - cbn [List.filter]. by rewrite IH.
  - by rewrite (H d HQ).
Qed.

Lemma delete_many_other_user (c : Collection) (uid uid' : Z) (q q' : Query) :
  uid <> uid' ->
  find (delete_many c (("user_id", VInt uid) :: q)) (("user_id", VInt uid') :: q')
  = find c (("user_id", VInt uid') :: q').
Proof.
  intros Hne. unfold find, delete_many. apply filter_filter_out.
  intros d Hm. apply negb_false_iff in Hm.
  apply other_user_no_match with uid; [|done]. by apply matches_user_first in Hm.
Qed.

Ltac not_in_keys :=
  simpl; rewrite ?not_elem_of_cons; repeat split; try discriminate; apply not_elem_of_nil.

Lemma set_coll_other_user (d : DB) (name n : string) (c : Collection) (q : Query) :
  find c q = find (coll d name) q ->
  find (coll (set_coll d name c) n) q = find (coll d n) q.
Proof.
  intros H. destruct (decide (name = n)) as [->|Hne].
  - by rewrite coll_set_coll_eq.
  - by rewrite coll_set_coll_ne.
Qed.

Lemma increment_broadcast_stats_other_user (d d' : DB) (u u' now : Z) (ok : bool)
    (n : string) (q' : Query) :
  increment_broadcast_stats d u ok now = Some d' -> u <> u' ->
  find (coll d' n) (("user_id", VInt u') :: q') = find (coll d n) (("user_id", VInt u') :: q').
Proof.
  unfold increment_broadcast_stats. intros H Hne.
  destruct (update_one _ _ _ _) as [c'|] eqn:Hup; simplify_eq.
  apply set_coll_other_user.
  apply (update_one_other_user _ _ u u' [] q' _ _ Hup); [destruct ok; not_in_keys|not_in_keys|done].
Qed.

Lemma update_ad_cycle_other_user (d : DB) (u u' : Z) (n : string) (q' : Query) :
  u <> u' ->
  find (coll (update_ad_cycle d u).1 n) (("user_id", VInt u') :: q')
  = find (coll d n) (("user_id", VInt u') :: q').
Proof.
  intros Hne. unfold update_ad_cycle.
  repeat case_match; simpl; try done.
  apply set_coll_other_user.
  match goal with H : update_one _ _ _ _ = Some _ |- _ =>
    apply (update_one_other_user _ _ u u' [] q' _ _ H); [not_in_keys|not_in_keys|done] end.
Qed.

Lemma increment_broadcast_cycle_other_user (d d' : DB) (u u' now : Z)
    (n : string) (q' : Query) :
  increment_broadcast_cycle d u now = Some d' -> u <> u' ->
  find (coll d' n) (("user_id", VInt u') :: q') = find (coll d n) (("user_id", VInt u') :: q').
Proof.
  unfold increment_broadcast_cycle. intros H Hne.
  destruct (update_one _ _ _ _) as [c'|] eqn:Hup; simplify_eq.
  rewrite update_ad_cycle_other_user by done.
  apply set_coll_other_user.
  apply (update_one_other_user _ _ u u' [] q' _ _ Hup); [not_in_keys|not_in_keys|done].
Qed.

Lemma set_broadcast_state_other_user (d d' : DB) (u u' now : Z) (r p : bool)
    (n : string) (q' : Query) :
  set_broadcast_state d u r p now = Some d' -> u <> u' ->
  find (coll d' n) (("user_id", VInt u') :: q') = find (coll d n) (("user_id", VInt u') :: q').
Proof.
  unfold set_broadcast_state. intros H Hne.
  destruct (update_one _ _ _ _) as [c'|] eqn:Hup; simplify_eq.
  apply set_coll_other_user.
  apply (update_one_other_user _ _ u u' [] q' _ _ Hup); [not_in_keys|not_in_keys|done].
Qed.

(** X4: whatever a run of the engine for one user does, every query that
    names another user gives the same documents before and after, in
    every collection. *)
Theorem run_loop_leaves_other_users (fuel : nat) (w : World) (cfg : Config)
    (sched : option Z) (st : State) (other : Z) (name : string) (q : Query) :
  other <> uid cfg ->
  find (coll (db (turn_state (run_loop fuel w cfg sched st))) name)
       (("user_id", VInt other) :: q)
  = find (coll (db st) name) (("user_id", VInt other) :: q).
Proof.
  intros Hne. revert name q.
  apply (run_loop_inv w cfg
           (fun st1 st2 => forall name q,
                find (coll (db st2) name) (("user_id", VInt other) :: q)
                = find (coll (db st1) name) (("user_id", VInt other) :: q)));
    try done.
  - intros st1 st2 st3 H12 H23 name q. by rewrite H23.
  - intros st1 d now H name q. by apply increment_broadcast_stats_other_user with (uid cfg) now true.
  - intros st1 d now H name q. by apply increment_broadcast_cycle_other_user with (uid cfg) now.
  - intros st1 d now H name q.
    by apply set_broadcast_state_other_user with (uid cfg) now false false.
Qed.

End Isolation.

(** ** Where the engine forwards to *)

Section Forwards.
Import Engine Observe.

Variables (w : World) (cfg : Config).

Lemma ext_refl (ok : Z -> Z -> Prop) (st : State) : continues ok st st.
Proof.
  exists []. split; [by rewrite app_nil_r|]. intros a g H. by apply elem_of_nil in H.
Qed.

Lemma ext_trans (ok : Z -> Z -> Prop) (st1 st2 st3 : State) :
  continues ok st1 st2 -> continues ok st2 st3 -> continues ok st1 st3.
Proof.
  unfold continues. intros (s1 & H1 & F1) (s2 & H2 & F2). exists (s1 ++ s2). split.
  - by rewrite H2, H1, app_assoc.
  - intros a g. unfold forwards. rewrite omap_app, elem_of_app. intros [H|H]; auto.
Qed.

Lemma ext_mono (ok ok' : Z -> Z -> Prop) (st st' : State) :
  (forall a g, ok a g -> ok' a g) -> continues ok st st' -> continues ok' st st'.
Proof. unfold continues. intros Himp (s & H & F). exists s. split; [done|]. auto. Qed.

Lemma ext_same (ok : Z -> Z -> Prop) (st st' : State) :
  trace st' = trace st -> continues ok st st'.
Proof.
  intros H. exists []. split; [by rewrite app_nil_r|].
  intros a g Hin. by apply elem_of_nil in Hin.
Qed.

Lemma ext_emit (ok : Z -> Z -> Prop) (ev : Event) (st : State) :
  (forall a g t, ev = EvForward a g t -> ok a g) -> continues ok st (emit ev st).
Proof.
  intros H. exists [ev]. split; [done|].
  intros a g. destruct ev; simpl; intros Hin;
    try (by apply elem_of_nil in Hin).
  apply list_elem_of_singleton in Hin. simplify_eq. by eapply H.
Qed.

Lemma ext_add_sent ok st : continues ok st (add_sent st).
Proof. by apply ext_same. Qed.

Lemma ext_add_failed ok st : continues ok st (add_failed st).
Proof. by apply ext_same. Qed.

Lemma ext_with_db ok d st : continues ok st (with_db d st).
Proof. by apply ext_same. Qed.

Lemma ext_set_cycle ok cc cur st : continues ok st (set_cycle cc cur st).
Proof. by apply ext_same. Qed.

Lemma ext_remove ok acc g st : continues ok st (remove_working_group acc g st).
Proof. by apply ext_same. Qed.

Ltac quiet := apply ext_emit; intros ? ? ? ?; discriminate.
Ltac chain :=
  eapply ext_trans;
  [| first [ quiet | apply ext_add_sent | apply ext_add_failed | apply ext_with_db
           | apply ext_set_cycle | apply ext_remove ] ].

Lemma handle_send_error_ext ok acc group e st :
  continues ok st (handle_send_error acc group e st).
Proof.
  unfold handle_send_error, on_flood_wait, on_rpc_error, on_exception.
  destruct (exn_class e); repeat case_match; repeat chain; apply ext_refl.
Qed.

Lemma record_sent_ext ok st st' : record_sent w cfg st = Some st' -> continues ok st st'.
Proof.
  unfold record_sent. intros H.
  destruct (increment_broadcast_stats _ _ _ _) as [d|]; simplify_eq. apply ext_with_db.
Qed.

Lemma forward_to_topics_ext (ok : Z -> Z -> Prop) acc group v ts tally st :
  ok acc (g_id group) ->
  continues ok st (forward_to_topics w cfg acc group v ts tally st).2.
Proof.
  intros Hok. revert tally st.
  induction ts as [|topic ts IH]; intros [[s f] k] st; simpl; [apply ext_refl|].
  destruct (closed topic); [apply IH|].
  assert (continues ok st (emit (EvForward acc (g_id group) (Some (t_id topic))) st)) as Hfw.
  { apply ext_emit. intros a g t Heq. by simplify_eq. }
  destruct (v_forward_topic v (t_id topic)) as [|e].
  - destruct (record_sent _ _ _) as [st1|] eqn:Hrec.
    + eapply ext_trans; [|apply IH].
      chain. eapply ext_trans; [|eapply record_sent_ext, Hrec].
      chain. exact Hfw.
    + eapply ext_trans; [|apply IH]. chain. chain. exact Hfw.
  - eapply ext_trans; [|apply IH]. chain. exact Hfw.
Qed.

Lemma visit_group_ext (ok : Z -> Z -> Prop) acc group st :
  ok acc (g_id group) ->
  continues ok st (flow_state (visit_group w cfg acc group st)).
Proof.
  intros Hok. unfold visit_group.
  destruct (negb (is_running _ _)); [apply ext_refl|].
  destruct (negb (v_prepare _)); [apply ext_refl|].
  destruct (v_get_entity _); [|cbn [flow_state]; chain; chain; apply ext_refl].
  assert (forall t st0, continues ok st0 (emit (EvForward acc (g_id group) t) st0)) as Hfw.
  { intros t st0. apply ext_emit. intros a g t' Heq. by simplify_eq. }
  destruct (is_forum group && _).
  - match goal with
    | |- context [forward_to_topics w cfg acc group ?v ?ts ?tally ?st0] =>
        pose proof (forward_to_topics_ext ok acc group v ts tally st0 Hok) as Hft;
        destruct (forward_to_topics w cfg acc group v ts tally st0) as [[[s f] k] st1]
    end.
    cbn [snd] in Hft. cbn [flow_state]. chain. chain.
    eapply ext_trans; [|exact Hft]. chain. chain. apply ext_refl.
  - destruct (v_forward _) as [|e].
    + destruct (record_sent _ _ _) as [st1|] eqn:Hrec; cbn [flow_state].
      * chain. chain. eapply ext_trans; [|eapply record_sent_ext, Hrec].
        chain. eapply ext_trans; [|apply Hfw]. chain. apply ext_refl.
      * eapply ext_trans; [|apply handle_send_error_ext]. chain.
        eapply ext_trans; [|apply Hfw]. chain. apply ext_refl.
    + cbn [flow_state]. eapply ext_trans; [|apply handle_send_error_ext].
      eapply ext_trans; [|apply Hfw]. chain. apply ext_refl.
Qed.

Lemma visit_groups_ext (ok : Z -> Z -> Prop) acc snapshot st :
  (forall g, g ∈ snapshot -> ok acc (g_id g)) ->
  continues ok st (flow_state (visit_groups w cfg acc snapshot st)).
Proof.
  revert st. induction snapshot as [|group rest IH]; intros st Hok; simpl; [apply ext_refl|].
  pose proof (visit_group_ext ok acc group st (Hok group ltac:(left))) as Hv.
  destruct (visit_group w cfg acc group st) as [st1|st1|st1]; cbn [flow_state] in *;
    [|done|done].
  eapply ext_trans; [exact Hv|]. apply IH. intros g Hg. apply Hok. by right.
Qed.

Ltac shrinking :=
  first
    [ done
    | intros acc0 g1 st1 a0 g0; rewrite working_groups_remove;
      destruct (decide (acc0 = a0)); [apply remove_first_subset|done]
    | intros st1 st2 st3 H12 H23 a0 g0 Hin; auto ].

Lemma visit_groups_shrink acc snapshot st a g :
  g ∈ working_groups (flow_state (visit_groups w cfg acc snapshot st)) a ->
  g ∈ working_groups st a.
Proof.
  revert a g.
  apply (visit_groups_inv w cfg
           (fun st1 st2 => forall a g, g ∈ working_groups st2 a -> g ∈ working_groups st1 a));
    shrinking.
Qed.

Lemma loop_turn_shrink sched st a g :
  g ∈ working_groups (turn_state (loop_turn w cfg sched st)) a ->
  g ∈ working_groups st a.
Proof.
  revert a g.
  apply (loop_turn_inv w cfg
           (fun st1 st2 => forall a g, g ∈ working_groups st2 a -> g ∈ working_groups st1 a));
    shrinking.
Qed.

Lemma visit_accounts_ext accs st :
  continues (may_forward cfg accs st) st (flow_state (visit_accounts w cfg accs st)).
Proof.
  revert st. induction accs as [|acc accs IH]; intros st; simpl; [apply ext_refl|].
  destruct (bool_decide (acc ∈ clients cfg)) eqn:Hcl; cbn [negb].
  - apply bool_decide_eq_true_1 in Hcl.
    assert (continues (may_forward cfg (acc :: accs) st) st
              (flow_state (visit_groups w cfg acc (working_groups st acc) st))) as Hv.
    { apply visit_groups_ext. intros g Hg. unfold may_forward. split; [left|split; [done|]].
      unfold working_ids. apply list_elem_of_fmap. by exists g. }
    pose proof (visit_groups_shrink acc (working_groups st acc) st) as Hsh.
    destruct (visit_groups _ _ _ _ _) as [st1|st1|st1]; cbn [flow_state] in *; [|done|done].
    eapply ext_trans; [exact Hv|].
    eapply ext_mono; [|apply IH].
    unfold may_forward. intros a g (Ha & Hc & Hg). split; [by right|split; [done|]].
    unfold working_ids in *. apply list_elem_of_fmap in Hg as (grp & -> & Hgrp).
    apply list_elem_of_fmap. exists grp. split; [done|]. by apply Hsh.
  - eapply ext_mono; [|apply IH].
    unfold may_forward. intros a g (Ha & Hc & Hg). split; [by right|done].
Qed.

Lemma end_of_cycle_ext ok st : continues ok st (flow_state (end_of_cycle w cfg st)).
Proof.
  unfold end_of_cycle.
  destruct (increment_broadcast_cycle _ _ _) as [d|]; [|apply ext_refl].
  destruct (as_int _); [|cbn [flow_state]; chain; chain; apply ext_refl].
  destruct (py_mod _ _); [|cbn [flow_state]; chain; chain; apply ext_refl].
  cbn [flow_state]. chain.
  match goal with |- context [if ?b then _ else _] => destruct b end;
    repeat chain; apply ext_refl.
Qed.

Lemma run_cycle_ext st :
  continues (may_forward cfg (accounts cfg) st) st (flow_state (run_cycle w cfg st)).
Proof.
  unfold run_cycle.
  match goal with
  | |- context [visit_accounts w cfg ?accs ?st0] =>
      pose proof (visit_accounts_ext accs st0) as Hv;
      destruct (visit_accounts w cfg accs st0) as [st1|st1|st1]
  end; cbn [flow_state] in *.
  - eapply ext_trans; [|apply end_of_cycle_ext]. eapply ext_trans; [|exact Hv].
    apply ext_set_cycle.
  - eapply ext_trans; [|exact Hv]. apply ext_set_cycle.
  - eapply ext_trans; [|exact Hv]. apply ext_set_cycle.
Qed.

Lemma loop_turn_ext sched st :
  continues (may_forward cfg (accounts cfg) st) st (turn_state (loop_turn w cfg sched st)).
Proof.
  unfold loop_turn.
  destruct (negb (is_running _ _)); [apply ext_refl|].
  match goal with |- context [if ?b then _ else _] => destruct b end.
  - destruct (get_user _ _); [|apply ext_refl].
    destruct (set_broadcast_state _ _ _ _ _) as [d|]; cbn [turn_state].
    + chain. chain. apply ext_refl.
    + chain. apply ext_refl.
  - destruct (Schedule.is_within_schedule _ _) as [within msg].
    destruct (negb within); cbn [turn_state].
    + chain. chain. apply ext_refl.
    + pose proof (run_cycle_ext st) as Hc.
      destruct (run_cycle w cfg st); exact Hc.
Qed.

(** X5: every forward of a run goes through an account of the run that
    has a started client, to a group that was in that account's working
    set when the run began. *)
Theorem run_loop_forwards_to_working_groups (fuel : nat) (sched : option Z) (st : State) :
  exists suffix,
    trace (turn_state (run_loop fuel w cfg sched st)) = trace st ++ suffix
    /\ forall acc group_id, (acc, group_id) ∈ forwards suffix ->
         acc ∈ accounts cfg /\ acc ∈ clients cfg /\ group_id ∈ working_ids st acc.
Proof.
  change (continues (may_forward cfg (accounts cfg) st) st
            (turn_state (run_loop fuel w cfg sched st))).
  revert st. induction fuel as [|fuel IH]; intros st; simpl; [apply ext_refl|].
  pose proof (loop_turn_ext sched st) as Ht.
  pose proof (loop_turn_shrink sched st) as Hsh.
  destruct (loop_turn w cfg sched st) as [st1|st1|st1|st1]; cbn [turn_state] in *; [|done..].
  eapply ext_trans; [exact Ht|].
  eapply ext_mono; [|apply IH].
  unfold may_forward. intros a g (Ha & Hc & Hg). split; [done|split; [done|]].
  unfold working_ids in *. apply list_elem_of_fmap in Hg as (grp & -> & Hgrp).
  apply list_elem_of_fmap. exists grp. split; [done|]. by apply Hsh.
Qed.

End Forwards.

(** ** More on start and stop requests *)

Section ControlFacts.
Import Engine Control.

Lemma set_broadcast_state_other_coll (d d' : DB) (u now : Z) (r p : bool) (name : string) :
  set_broadcast_state d u r p now = Some d' ->
  name <> "broadcast_states" -> coll d' name = coll d name.
Proof.
  unfold set_broadcast_state. intros H Hne.
  destruct (update_one _ _ _ _) as [c'|]; simplify_eq.
  by rewrite coll_set_coll_ne.
Qed.

Lemma cancel_and_await_other_coll (a : App) (u : Z) (task : Task) (now : Z) (name : string) :
  name <> "broadcast_states" ->
  coll (app_db (cancel_and_await a u task now)) name = coll (app_db a) name.
Proof.
  intros Hne. unfold cancel_and_await. destruct task; try done.
  destruct (set_broadcast_state _ _ _ _ _) as [d|] eqn:Hd; [|done].
  simpl. by eapply set_broadcast_state_other_coll.
Qed.

(** X6: [/stop] writes the running flag and nothing else. Its reply is
    always "no broadcast running", the task map is left as it was (the
    task is not cancelled), and the rotation pointer is not reset. *)
Theorem stop_command_only_lowers_flag (a : App) (u : Z) (now : Z) :
  (stop_command a u now).2 = NoBroadcastRunning
  /\ user_tasks (stop_command a u now).1 = user_tasks a
  /\ get_current_ad_cycle (app_db (stop_command a u now).1) u
     = get_current_ad_cycle (app_db a) u
  /\ is_running (app_db (stop_command a u now).1) u = false.
Proof.
  unfold stop_command.
  destruct (set_broadcast_state_is_running (app_db a) u false false now)
    as (d & Hset & Hrun).
  rewrite Hset. rewrite stop_broadcast_task_idle by done. cbn [fst snd app_db user_tasks].
  repeat split; [|done].
  apply rotation_reads_users.
  by apply (set_broadcast_state_other_coll _ _ _ _ _ _ "users" Hset).
Qed.

(** X7: the stop-broadcast button on a running broadcast answers
    "stopped", leaves no task for the user, resets the rotation pointer
    to 0 and lowers the running flag. *)
Theorem stop_button_cancels_and_resets (a : App) (u : Z) (now : Z) :
  is_running (app_db a) u = true ->
  (stop_broadcast_callback a u now).2 = BroadcastStopped
  /\ user_tasks (stop_broadcast_callback a u now).1 !! u = None
  /\ get_current_ad_cycle (app_db (stop_broadcast_callback a u now).1) u = VInt 0
  /\ is_running (app_db (stop_broadcast_callback a u now).1) u = false.
Proof.
  intros Hrun. unfold stop_broadcast_callback, stop_broadcast_task.
  unfold is_running in Hrun. rewrite Hrun. cbn [negb user_tasks].
  match goal with
  | |- context [set_broadcast_state ?d u false false now] =>
      destruct (set_broadcast_state_is_running d u false false now)
        as (d' & Hset & Hrun'); rewrite Hset
  end.
  cbn [fst snd app_db user_tasks]. split; [done|]. split; [|split; [|done]].
  - destruct (user_tasks a !! u) as [task|] eqn:Ht; cbn [user_tasks].
    + apply lookup_delete_eq.
    + done.
  - etrans; [|apply (reset_ad_cycle_zero (app_db a) u)].
    apply rotation_reads_users.
    rewrite (set_broadcast_state_other_coll _ _ _ _ _ _ "users" Hset) by done.
    destruct (user_tasks a !! u) as [task|]; cbn [app_db]; [|done].
    by rewrite cancel_and_await_other_coll.
Qed.


Lemma post_link_reads_users (d1 d2 : DB) (u : Z) :
  coll d1 "users" = coll d2 "users" -> get_user_post_link d1 u = get_user_post_link d2 u.
Proof. intros H. unfold get_user_post_link. by rewrite H. Qed.

Lemma accounts_reads_accounts (d1 d2 : DB) (u : Z) :
  coll d1 "accounts" = coll d2 "accounts" -> get_user_accounts d1 u = get_user_accounts d2 u.
Proof. intros H. unfold get_user_accounts. by rewrite H. Qed.

Lemma is_running_truthy (d : DB) (u : Z) :
  truthy (get_or (get_broadcast_state d u) "running" VNone) = is_running d u.
Proof.
  unfold is_running, get_or. by destruct (get_broadcast_state d u !! "running").
Qed.

(** X9: a start request that was accepted is not accepted twice. After
    the start button answered "started", pressing it again answers
    "already running" and changes nothing; the same holds for [/go]
    after it answered "started" or "task already exists". *)
Theorem second_start_is_refused (a : App) (u : Z) (saved saved' : option Z)
    (now now' : Z) :
  ((start_broadcast_callback a u saved now).2 = BroadcastStarted ->
   start_broadcast_callback (start_broadcast_callback a u saved now).1 u saved' now'
   = ((start_broadcast_callback a u saved now).1, BroadcastAlreadyRunning))
  /\ ((go_command a u now).2 = BroadcastStarted
      \/ (go_command a u now).2 = TaskAlreadyExists ->
      go_command (go_command a u now).1 u now'
      = ((go_command a u now).1, BroadcastAlreadyRunning)).
Proof.
  split.
  - unfold start_broadcast_callback at 1 3 4.
    destruct (match get_user_post_link (app_db a) u with Some _ => _ | None => _ end)
      eqn:Hpl; [discriminate|].
    destruct (truthy _); [discriminate|].
    destruct (match get_user_accounts (app_db a) u with [] => _ | _ => _ end);
      [discriminate|].
    destruct (get_user_accounts (app_db a) u) as [|acc accs]; [discriminate|].
    rewrite get_logger_status_truthy. cbn [negb user_tasks create_task app_db].
    match goal with
    | |- context [set_broadcast_state ?d u true false now] =>
        destruct (set_broadcast_state_is_running d u true false now)
          as (d' & Hset & Hrun'); rewrite Hset;
        assert (coll d' "users" = coll (app_db a) "users") as Husers
    end.
    { rewrite (set_broadcast_state_other_coll _ _ _ _ _ _ "users" Hset) by done.
      cbn [create_task app_db].
      destruct (user_tasks a !! u); cbn [app_db]; [|done].
      by rewrite cancel_and_await_other_coll. }
    intros _. cbn [fst snd]. unfold start_broadcast_callback. cbn [app_db].
    rewrite (post_link_reads_users _ _ u Husers), Hpl.
    by rewrite is_running_truthy, Hrun'.
  - unfold go_command at 1 2 4 5.
    destruct (get_user_accounts (app_db a) u) as [|acc accs] eqn:Hacc;
      [intros [?|?]; discriminate|].
    destruct (truthy _); [intros [?|?]; discriminate|].
    destruct (set_broadcast_state_is_running (app_db a) u true false now)
      as (d' & Hset & Hrun').
    rewrite Hset. cbn [user_tasks app_db].
    assert (get_user_accounts d' u = acc :: accs) as Hacc'.
    { rewrite <- Hacc. apply accounts_reads_accounts.
      by apply (set_broadcast_state_other_coll _ _ _ _ _ _ "accounts" Hset). }
    intros _. unfold go_command.
    destruct (user_tasks a !! u) as [[]|]; cbn [fst snd create_task app_db];
      by rewrite Hacc', is_running_truthy, Hrun'.
Qed.

End ControlFacts.

Section WipeFacts.

Ltac listed :=
  apply list_elem_of_In; unfold collections; cbn [In];
  repeat (first [left; reflexivity | right]).

(** X10: the full wipe of one user removes nothing of anybody else: in
    every collection, every query that names another user gives the
    same documents before and after. *)
Theorem delete_user_fully_leaves_other_users (d : DB) (u other : Z) (name : string)
    (q : Query) :
  other <> u ->
  find (coll (delete_user_fully d u).1 name) (("user_id", VInt other) :: q)
  = find (coll d name) (("user_id", VInt other) :: q).
Proof.
  intros Hne. unfold delete_user_fully. cbn [fst]. rewrite wipe_fold_coll.
  case_bool_decide; [|done].
  apply (delete_many_other_user _ u other [] q). congruence.
Qed.

(** X11: wiping a user twice is the same as wiping once, and after the
    wipe the user has no profile, no linked account and no selected
    group left. *)
Theorem delete_user_fully_idempotent (d : DB) (u : Z) (name : string) :
  coll (delete_user_fully (delete_user_fully d u).1 u).1 name
  = coll (delete_user_fully d u).1 name
  /\ get_user (delete_user_fully d u).1 u = None
  /\ get_user_accounts (delete_user_fully d u).1 u = []
  /\ get_target_groups (delete_user_fully d u).1 u = [].
Proof.
  split; [|split; [|split]].
  - unfold delete_user_fully. cbn [fst].
    rewrite (wipe_fold_coll collections _ u name).
    rewrite (wipe_fold_coll collections d u name).
    case_bool_decide; [|done]. apply delete_many_idem.
  - unfold get_user.
    pose proof (delete_user_fully_listed d u "users") as H.
    unfold find in H. unfold find_one.
    destruct (List.find _ _) as [doc|] eqn:Hf; [|done].
    apply List.find_some in Hf as [Hin Hm].
    assert (In doc (List.filter (matches (by_user u)) (coll (delete_user_fully d u).1 "users")))
      as Hin' by (apply List.filter_In; split; assumption).
    rewrite H in Hin'; [destruct Hin'|]. listed.
  - apply delete_user_fully_listed. listed.
  - apply delete_user_fully_listed. listed.
Qed.

End WipeFacts.

(** ** More on the pre-broadcast target list *)

Section AnalysisFacts.
Import Engine Analysis.

(** X12: the mode filter of the combined target list: in "groups only"
    mode no entry of the list is a forum, in "forums only" mode every
    entry is one; and a group that [check_group] passes as usable has
    open topics only, is a forum in "forums only" mode, and its entity
    was not banned from sending. *)
Theorem mode_filter_is_sound (broadcast_mode : Value) (usable_groups : list Target)
    (restricted_groups : list Restricted) (t : Target) (stored : Doc) (group_id : Z)
    (group_title : string) (e : Entity) (g : Group) :
  (t ∈ all_groups_combined broadcast_mode usable_groups restricted_groups ->
   (broadcast_mode = VStr "groups_only" -> target_is_forum t = false)
   /\ (broadcast_mode = VStr "forums_only" -> target_is_forum t = true))
  /\ (check_group broadcast_mode stored group_id group_title (Found e) = Usable g ->
      Forall (fun topic => closed topic = false) (topics g)
      /\ (broadcast_mode = VStr "forums_only" -> is_forum g = true)
      /\ ent_send_banned e = false
      /\ g_id g = group_id).
Proof.
  split.
  - intros Hin. split; intros ->.
    + unfold all_groups_combined, is_mode in Hin.
      rewrite bool_decide_eq_true_2 in Hin by done.
      apply list_elem_of_In, List.filter_In in Hin as [_ H].
      by apply negb_true_iff in H.
    + rewrite all_groups_combined_forums_only in Hin.
      by apply list_elem_of_In, List.filter_In in Hin as [_ H].
  - unfold check_group. intros H.
    destruct (is_mode broadcast_mode "forums_only" && negb (ent_forum e)) eqn:Hmode;
      [discriminate|].
    destruct (ent_send_banned e) eqn:Hban; [discriminate|].
    injection H as <-. cbn [topics is_forum g_id].
    split; [|split; [|done]].
    + destruct (ent_forum e); [|constructor].
      destruct (ent_topics e) as [ts|]; [|constructor].
      unfold open_topics. apply Forall_forall. intros topic Hin.
      apply list_elem_of_In, List.in_map_iff in Hin as (t0 & <- & _). done.
    + intros ->. unfold is_mode in Hmode. rewrite bool_decide_eq_true_2 in Hmode by done.
      by destruct (ent_forum e).
Qed.

(** X13: the ids [analyze_account_groups_fast] reports as usable are ids
    of the account's group dialogs, none of them is on the skip list,
    and with a non-empty target list each of them is on it. *)
Theorem analysed_ids_respect_lists (dialogs : option (list Dialog))
    (target_group_ids skip_group_ids : list Z) (id : Z) :
  id ∈ analyze_account_groups_fast dialogs target_group_ids skip_group_ids ->
  (id ∉ skip_group_ids)
  /\ (target_group_ids = [] \/ id ∈ target_group_ids)
  /\ exists ds d, dialogs = Some ds /\ d ∈ ds /\ d_id d = id /\ d_is_group d = true
                  /\ dialog_usable d = true.
Proof.
  unfold analyze_account_groups_fast. destruct dialogs as [ds|].
  2: { intros H. by apply elem_of_nil in H. }
  intros (d & -> & Hin)%list_elem_of_fmap.
  apply list_elem_of_In, List.filter_In in Hin as [Hin Hc].
  apply andb_prop in Hc as [Hc Hus]. apply andb_prop in Hc as [Hc Htg].
  apply andb_prop in Hc as [Hgrp Hskip].
  split; [|split].
  - apply negb_true_iff, bool_decide_eq_false_1 in Hskip. done.
  - apply orb_prop in Htg as [H|H]; apply bool_decide_eq_true_1 in H; auto.
  - exists ds, d. repeat split; try done. by apply list_elem_of_In.
Qed.

End AnalysisFacts.

(** ** Writes of the adapter and what its readers see *)

Section AdapterStore.
Import Driver.

Ltac keys :=
  simpl; rewrite ?not_elem_of_cons; repeat split; try discriminate; apply not_elem_of_nil.

Lemma update_one_set_eq (c : Collection) (q : Query) (sets : list (string * Value))
    (upsert : bool) :
  update_one_set c q sets upsert
  = match find_one c q with
    | Some d => replace_first q (op_set sets d) c
    | None => if upsert then c ++ [op_set sets (list_to_map q)] else c
    end.
Proof.
  unfold update_one_set, update_one, apply_update. cbn [u_inc u_set op_inc fmap option_fmap option_map].
  destruct (find_one c q); [done|]. by destruct upsert.
Qed.

Lemma find_one_update_one_set (c : Collection) (u : Z) (sets : list (string * Value)) :
  "user_id" ∉ sets.*1 ->
  find_one (update_one_set c (by_user u) sets true) (by_user u)
  = Some (op_set sets (base_doc c u)).
Proof.
  intros Hk. unfold update_one_set.
  destruct (update_one_set_by_user c u sets Hk) as (c' & -> & Hf). done.
Qed.

Lemma find_one_update_one_set_no_upsert (c : Collection) (u : Z)
    (sets : list (string * Value)) :
  "user_id" ∉ sets.*1 ->
  find_one (update_one_set c (by_user u) sets false) (by_user u)
  = op_set sets <$> find_one c (by_user u).
Proof.
  intros Hk. rewrite update_one_set_eq.
  destruct (find_one c (by_user u)) as [d|] eqn:Hf; [|by rewrite Hf].
  cbn [fmap option_fmap option_map]. apply find_one_replace_first with d; [done|].
  apply matches_by_user. rewrite op_set_lookup_ne by done.
  apply matches_by_user. by apply find_one_Some_matches in Hf.
Qed.

Lemma update_one_set_other_user (c : Collection) (u other : Z) (q q' : Query)
    (sets : list (string * Value)) (upsert : bool) :
  "user_id" ∉ sets.*1 -> u <> other ->
  find (update_one_set c (("user_id", VInt u) :: q) sets upsert) (("user_id", VInt other) :: q')
  = find c (("user_id", VInt other) :: q').
Proof.
  intros Hk Hne. unfold update_one_set.
  destruct (update_one c _ _ upsert) as [c'|] eqn:Hup; [|reflexivity].
  change (find c' (("user_id", VInt other) :: q') = find c (("user_id", VInt other) :: q')).
  apply (update_one_other_user _ _ u other q q' _ _ Hup); [apply not_elem_of_nil|exact Hk|exact Hne].
Qed.

(** What a reader with a default sees, in terms of the document an
    upsert would work on. *)
Lemma reader_of_base_doc (c : Collection) (u : Z) (k : string) (dflt : Value) :
  k <> "user_id" ->
  match find_one c (by_user u) with
  | Some d => get_or d k dflt
  | None => dflt
  end = get_or (base_doc c u) k dflt.
Proof.
  intros Hk. unfold base_doc, by_user.
  destruct (find_one c [("user_id", VInt u)]); [reflexivity|].
  unfold get_or. simpl. rewrite lookup_insert_ne by done. reflexivity.
Qed.

Lemma find_one_find_nil (c : Collection) (q : Query) :
  find c q = [] -> find_one c q = None.
Proof.
  unfold find, find_one. induction c as [|d c IH]; simpl; [done|].
  destruct (matches q d); [discriminate|done].
Qed.

Lemma find_one_of_find (c1 c2 : Collection) (q : Query) :
  find c1 q = find c2 q -> find_one c1 q = find_one c2 q.
Proof.
  unfold find, find_one. revert c2. induction c1 as [|d c1 IH]; intros c2; simpl.
  - intros H. symmetry. induction c2 as [|d2 c2 IH2]; simpl in *; [done|].
    destruct (matches q d2); [discriminate|auto].
  - destruct (matches q d) eqn:Hm.
    + induction c2 as [|d2 c2 IH2]; simpl; [discriminate|].
      destruct (matches q d2) eqn:Hm2; [by intros [= -> _]|auto].
    + apply IH.
Qed.

End AdapterStore.

(** ** Settings: what is written is what is read *)

Section Settings.
Import Engine Driver Users Delays.

Ltac keys :=
  simpl; rewrite ?not_elem_of_cons; repeat split; try discriminate; apply not_elem_of_nil.

Ltac lookups :=
  unfold get_or, op_set; cbn [fold_left fst snd];
  repeat first [ rewrite lookup_insert_eq | rewrite lookup_insert_ne by discriminate ].

(** The reader of field [k] of collection [name] after an upsert of
    [sets] into the same collection. *)
Lemma read_after_upsert (d : DB) (name : string) (u : Z) (sets : list (string * Value))
    (k : string) (dflt : Value) :
  "user_id" ∉ sets.*1 -> k <> "user_id" ->
  match find_one (coll (set_coll d name (update_one_set (coll d name) (by_user u) sets true))
                    name) (by_user u) with
  | Some doc => get_or doc k dflt
  | None => dflt
  end = get_or (op_set sets (base_doc (coll d name) u)) k dflt.
Proof.
  intros Hs Hk. rewrite coll_set_coll_eq, find_one_update_one_set by done. done.
Qed.

(** X14: each of the three delays reads back what was last written for
    the user, and writing one of them leaves the other two as they
    were. *)
Theorem delay_settings_round_trip (d : DB) (u : Z) (v : Value) (now : Z) :
  get_user_ad_delay (set_user_ad_delay d u v now) u = v
  /\ get_user_group_msg_delay (set_user_group_msg_delay d u v now) u = v
  /\ get_user_cycle_timeout (set_user_cycle_timeout d u v now) u = v
  /\ get_user_group_msg_delay (set_user_ad_delay d u v now) u = get_user_group_msg_delay d u
  /\ get_user_cycle_timeout (set_user_ad_delay d u v now) u = get_user_cycle_timeout d u
  /\ get_user_ad_delay (set_user_group_msg_delay d u v now) u = get_user_ad_delay d u
  /\ get_user_cycle_timeout (set_user_group_msg_delay d u v now) u
     = get_user_cycle_timeout d u
  /\ get_user_ad_delay (set_user_cycle_timeout d u v now) u = get_user_ad_delay d u
  /\ get_user_group_msg_delay (set_user_cycle_timeout d u v now) u
     = get_user_group_msg_delay d u.
Proof.
  unfold get_user_ad_delay, get_user_group_msg_delay, get_user_cycle_timeout,
    set_user_ad_delay, set_user_group_msg_delay, set_user_cycle_timeout.
  repeat split;
    first [ rewrite read_after_upsert by (first [keys | discriminate]); by lookups
          | by rewrite coll_set_coll_ne by discriminate ].
Qed.

Ltac listed :=
  apply list_elem_of_In; unfold collections; cbn [In];
  repeat (first [left; reflexivity | right]).

Lemma delete_user_fully_finds_none (d : DB) (u : Z) (name : string) :
  name ∈ collections ->
  find_one (coll (delete_user_fully d u).1 name) (by_user u) = None.
Proof. intros H. by apply find_one_find_nil, delete_user_fully_listed. Qed.

(** X15: after the full wipe every setting of the user reads its default:
    the delays 300, 15 and 600 seconds, three Saved Messages, rotation
    pointer 0, mode "both", no conversation state, and no broadcast
    running. *)
Theorem wipe_resets_settings (d : DB) (u : Z) :
  let d' := (delete_user_fully d u).1 in
  get_user_ad_delay d' u = VInt 300
  /\ get_user_group_msg_delay d' u = VInt 15
  /\ get_user_cycle_timeout d' u = VInt 600
  /\ get_user_saved_messages_count d' u = 3
  /\ get_current_ad_cycle d' u = VInt 0
  /\ get_broadcast_mode d' u = VStr "both"
  /\ get_user_state d' u = VStr EmptyString
  /\ is_running d' u = false.
Proof.
  cbv zeta.
  unfold get_user_ad_delay, get_user_group_msg_delay, get_user_cycle_timeout,
    get_user_saved_messages_count, get_current_ad_cycle, get_broadcast_mode,
    get_user_state, is_running, get_broadcast_state.
  rewrite !delete_user_fully_finds_none by listed.
  repeat split.
Qed.

Lemma set_fields_other_user (d : DB) (name n : string) (u other : Z)
    (sets : list (string * Value)) (upsert : bool) :
  "user_id" ∉ sets.*1 -> other <> u ->
  find_one (coll (set_coll d name (update_one_set (coll d name) (by_user u) sets upsert)) n)
           (by_user other)
  = find_one (coll d n) (by_user other).
Proof.
  intros Hs Hne. destruct (decide (name = n)) as [->|Hn].
  - rewrite coll_set_coll_eq. apply find_one_of_find.
    apply (update_one_set_other_user _ u other [] []); [done|congruence].
  - by rewrite coll_set_coll_ne.
Qed.

(** X16: a setting written for one user is not seen by any other user:
    the delays, the message count, the rotation pointer, the mode and
    the post link of everybody else read as before. *)
Theorem settings_leave_other_users (d : DB) (u other : Z) (v : Value) (now : Z) :
  other <> u ->
  get_user_ad_delay (set_user_ad_delay d u v now) other = get_user_ad_delay d other
  /\ get_user_group_msg_delay (set_user_group_msg_delay d u v now) other
     = get_user_group_msg_delay d other
  /\ get_user_cycle_timeout (set_user_cycle_timeout d u v now) other
     = get_user_cycle_timeout d other
  /\ get_user_saved_messages_count (set_user_saved_messages_count d u v now) other
     = get_user_saved_messages_count d other
  /\ get_current_ad_cycle (set_user_saved_messages_count d u v now) other
     = get_current_ad_cycle d other
  /\ get_broadcast_mode (set_broadcast_mode d u v now) other = get_broadcast_mode d other
  /\ get_user_post_link (set_user_post_link d u v v v now) other
     = get_user_post_link d other.
Proof.
  intros Hne.
  unfold get_user_ad_delay, get_user_group_msg_delay, get_user_cycle_timeout,
    get_user_saved_messages_count, get_current_ad_cycle, get_broadcast_mode,
    get_user_post_link,
    set_user_ad_delay, set_user_group_msg_delay, set_user_cycle_timeout,
    set_user_saved_messages_count, set_broadcast_mode, set_user_post_link.
  repeat split; by rewrite set_fields_other_user by (first [keys | done]).
Qed.

(** X17: the settings kept in the user document. The mode reads back as
    written; a message count n reads back as n when n > 0 and as 3
    otherwise; and writing the mode or the count leaves the rotation
    pointer, and each other, as they were. *)
Theorem profile_settings_round_trip (d : DB) (u : Z) (mode : Value) (n : Z) (now : Z) :
  get_broadcast_mode (set_broadcast_mode d u mode now) u = mode
  /\ get_user_saved_messages_count (set_user_saved_messages_count d u (VInt n) now) u
     = (if 0 <? n then n else 3)
  /\ get_current_ad_cycle (set_broadcast_mode d u mode now) u = get_current_ad_cycle d u
  /\ get_current_ad_cycle (set_user_saved_messages_count d u (VInt n) now) u
     = get_current_ad_cycle d u
  /\ get_user_saved_messages_count (set_broadcast_mode d u mode now) u
     = get_user_saved_messages_count d u
  /\ get_broadcast_mode (set_user_saved_messages_count d u (VInt n) now) u
     = get_broadcast_mode d u.
Proof.
  unfold get_broadcast_mode, get_current_ad_cycle, set_broadcast_mode,
    set_user_saved_messages_count.
  split; [rewrite read_after_upsert by (first [keys | discriminate]); by lookups|].
  split.
  { rewrite count_of_base_doc, coll_set_coll_eq.
    unfold base_doc at 1. change [("user_id", VInt u)] with (by_user u).
    rewrite find_one_update_one_set by keys. cbn [default from_option id].
    replace (get_or _ "saved_messages_count" (VInt 3)) with (VInt n) by (by lookups).
    cbn [as_int]. destruct (0 <? n) eqn:H0, (n <=? 0) eqn:H1; lia. }
  split; [rewrite read_after_upsert by (first [keys | discriminate]);
          rewrite reader_of_base_doc by discriminate; by lookups|].
  split; [rewrite read_after_upsert by (first [keys | discriminate]);
          rewrite reader_of_base_doc by discriminate; by lookups|].
  split.
  { rewrite !count_of_base_doc, coll_set_coll_eq.
    unfold base_doc at 1. change [("user_id", VInt u)] with (by_user u).
    rewrite find_one_update_one_set by keys. cbn [default from_option id].
    replace (get_or (op_set _ _) "saved_messages_count" (VInt 3))
      with (get_or (base_doc (coll d "users") u) "saved_messages_count" (VInt 3))
      by (by lookups).
    done. }
  rewrite read_after_upsert by (first [keys | discriminate]).
  rewrite reader_of_base_doc by discriminate. by lookups.
Qed.

End Settings.

(** ** The post link *)

Section PostLink.
Import Engine Control Driver Users.

Ltac keys :=
  simpl; rewrite ?not_elem_of_cons; repeat split; try discriminate; apply not_elem_of_nil.

Ltac lookups :=
  unfold get_or, op_set, op_unset; cbn [fold_left fst snd];
  repeat first [ rewrite lookup_insert_eq | rewrite lookup_insert_ne by discriminate
               | rewrite lookup_delete_eq | rewrite lookup_delete_ne by discriminate
               | rewrite lookup_singleton_eq | rewrite lookup_singleton_ne by discriminate ];
  cbn [default from_option id].

Lemma find_one_update_one_unset (c : Collection) (u : Z) (d : Doc) (unsets : list string)
    (sets : list (string * Value)) :
  find_one c (by_user u) = Some d ->
  "user_id" ∉ unsets -> "user_id" ∉ sets.*1 ->
  find_one (update_one_unset c (by_user u) unsets sets) (by_user u)
  = Some (op_set sets (op_unset unsets d)).
Proof.
  intros Hf Hu Hs. unfold update_one_unset. rewrite Hf.
  apply find_one_replace_first with d; [done|].
  apply matches_by_user. rewrite op_set_lookup_ne by done.
  assert (forall ks (d0 : Doc), "user_id" ∉ ks ->
            op_unset ks d0 !! "user_id" = d0 !! "user_id") as Hun.
  { unfold op_unset. induction ks as [|k ks IH]; intros d0 Hk; simpl; [done|].
    apply not_elem_of_cons in Hk as [Hne Hk]. rewrite IH by done.
    by rewrite lookup_delete_ne. }
  rewrite Hun by done. apply matches_by_user. by apply find_one_Some_matches in Hf.
Qed.

Lemma start_reply_post_link (a : App) (u : Z) (saved : option Z) (now : Z) :
  (start_broadcast_callback a u saved now).2 = PostLinkNotSet
  <-> match get_user_post_link (app_db a) u with
      | Some post_link_data =>
          bool_decide (post_link_data !! "message_source" = Some (VStr "post_link"))
          && (negb (truthy (get_or post_link_data "post_link" VNone))
              || negb (truthy (get_or post_link_data "saved_msg_id" VNone)))
      | None => false
      end = true.
Proof.
  unfold start_broadcast_callback.
  destruct (match get_user_post_link (app_db a) u with Some _ => _ | None => _ end);
    [done|].
  split; [|discriminate].
  repeat case_match; cbn [snd]; discriminate.
Qed.

(** X18: a stored post link reads back with its three parts and the
    source "post_link"; a start request on it is refused with "post link
    not set" exactly when the link or the message id is falsy (empty,
    None or 0). After the link is cleared the three parts read None, the
    source is "saved_messages", and no start request is refused for the
    post link. *)
Theorem post_link_round_trip (a : App) (u : Z) (link peer mid : Value) (now now' : Z)
    (saved : option Z) :
  let a1 := {| app_db := set_user_post_link (app_db a) u link peer mid now;
               user_tasks := user_tasks a |} in
  let a2 := {| app_db := clear_user_post_link (app_db a1) u now';
               user_tasks := user_tasks a |} in
  get_user_post_link (app_db a1) u
  = Some {[ "post_link" := link; "saved_from_peer" := peer; "saved_msg_id" := mid;
            "message_source" := VStr "post_link" ]}
  /\ ((start_broadcast_callback a1 u saved now').2 = PostLinkNotSet
      <-> truthy link = false \/ truthy mid = false)
  /\ get_user_post_link (app_db a2) u
     = Some {[ "post_link" := VNone; "saved_from_peer" := VNone; "saved_msg_id" := VNone;
               "message_source" := VStr "saved_messages" ]}
  /\ (start_broadcast_callback a2 u saved now').2 <> PostLinkNotSet.
Proof.
  cbv zeta. cbn [app_db].
  assert (find_one (coll (set_user_post_link (app_db a) u link peer mid now) "users")
            (by_user u)
          = Some (op_set [("post_link", link); ("saved_from_peer", peer);
                          ("saved_msg_id", mid); ("message_source", VStr "post_link");
                          ("updated_at", VTime now)]
                    (base_doc (coll (app_db a) "users") u))) as Hset.
  { unfold set_user_post_link. rewrite coll_set_coll_eq.
    by rewrite find_one_update_one_set by keys. }
  assert (get_user_post_link (set_user_post_link (app_db a) u link peer mid now) u
          = Some {[ "post_link" := link; "saved_from_peer" := peer; "saved_msg_id" := mid;
                    "message_source" := VStr "post_link" ]}) as H1.
  { unfold get_user_post_link. rewrite Hset. by lookups. }
  assert (get_user_post_link
            (clear_user_post_link (set_user_post_link (app_db a) u link peer mid now) u now') u
          = Some {[ "post_link" := VNone; "saved_from_peer" := VNone;
                    "saved_msg_id" := VNone;
                    "message_source" := VStr "saved_messages" ]}) as H2.
  { unfold get_user_post_link, clear_user_post_link.
    rewrite coll_set_coll_eq.
    rewrite (find_one_update_one_unset _ u _ _ _ Hset) by keys. by lookups. }
  split; [exact H1|]. split; [|split; [exact H2|]].
  - rewrite start_reply_post_link. cbn [app_db]. rewrite H1. lookups.
    rewrite bool_decide_eq_true_2 by done. cbn [andb].
    rewrite orb_true_iff, !negb_true_iff. done.
  - intros H. apply start_reply_post_link in H. cbn [app_db] in H. rewrite H2 in H.
    revert H. lookups. by rewrite bool_decide_eq_false_2 by discriminate.
Qed.

End PostLink.

(** ** The selected groups *)

Section Selection.
Import Driver Targets.

Lemma matches_by_user_group (u g : Z) (d : Doc) :
  matches (by_user_group u g) d = true
  <-> d !! "user_id" = Some (VInt u) /\ d !! "group_id" = Some (VInt g).
Proof.
  unfold by_user_group, matches. cbn [forallb fst snd].
  rewrite andb_true_r, andb_true_iff, !bool_decide_eq_true. done.
Qed.

Lemma group_fields_keep (name : Value) (now : Z) (d : Doc) (k : string) :
  k = "user_id" \/ k = "group_id" ->
  op_set (group_fields name now) d !! k = d !! k.
Proof.
  intros Hk. unfold op_set, group_fields. cbn [fold_left fst snd].
  destruct Hk as [-> | ->]; by rewrite !lookup_insert_ne by discriminate.
Qed.

Lemma matches_group_fields (u g : Z) (name : Value) (now : Z) (d : Doc) :
  matches (by_user_group u g) (op_set (group_fields name now) d)
  = matches (by_user_group u g) d.
Proof.
  apply eq_true_iff_eq. rewrite !matches_by_user_group.
  by rewrite !group_fields_keep by auto.
Qed.

Lemma matches_new_group (u g : Z) :
  matches (by_user_group u g) (list_to_map (by_user_group u g)) = true.
Proof.
  apply matches_by_user_group. unfold by_user_group. cbn [list_to_map foldr fst snd uncurry].
  split; [apply lookup_insert_eq|].
  rewrite lookup_insert_ne by discriminate. apply lookup_insert_eq.
Qed.








Lemma delete_one_app_new (c : Collection) (q : Query) (d' : Doc) :
  find_one c q = None -> matches q d' = true -> (delete_one (c ++ [d']) q).1 = c.
Proof.
  unfold find_one. intros Hf Hm. induction c as [|d c IH]; cbn [app delete_one].
  - by rewrite Hm.
  - cbn [List.find] in Hf. destruct (matches q d) eqn:Hd; [discriminate|].
    specialize (IH Hf). destruct (delete_one (c ++ [d']) q) as [rest n].
    cbn [fst] in *. by rewrite IH.
Qed.

(** X20: selecting a group that was not selected and unselecting it again
    leaves the stored selection exactly as it was. *)
Theorem select_then_unselect_restores (d : DB) (u g : Z) (name : Value) (now : Z) :
  get_target_group d u g = None ->
  coll (remove_target_group (add_target_group d u g name now) u g) "target_groups"
  = coll d "target_groups"
  /\ get_target_group (remove_target_group (add_target_group d u g name now) u g) u g = None.
Proof.
  intros Hnone.
  assert (coll (remove_target_group (add_target_group d u g name now) u g) "target_groups"
          = coll d "target_groups") as Hc.
  { unfold remove_target_group, add_target_group. rewrite !coll_set_coll_eq.
    rewrite update_one_set_eq. unfold get_target_group in Hnone. rewrite Hnone.
    apply delete_one_app_new; [done|].
    rewrite matches_group_fields. apply matches_new_group. }
  split; [exact Hc|]. unfold get_target_group in *. by rewrite Hc.
Qed.







End Selection.

(** ** Profiles and linked accounts *)

Section Profiles.
Import Driver Users Accounts.

Ltac keys :=
  simpl; rewrite ?not_elem_of_cons; repeat split; try discriminate; apply not_elem_of_nil.

Lemma op_set_user_id (sets : list (string * Value)) (u : Z) (d : Doc) :
  "user_id" ∉ sets.*1 -> matches (by_user u) (op_set sets d) = matches (by_user u) d.
Proof.
  intros H. apply eq_true_iff_eq. rewrite !matches_by_user. by rewrite op_set_lookup_ne.
Qed.

(** The user document after [create_user]. *)
Lemma get_user_create_user (d : DB) (u : Z) (username first_name : Value) (now : Z) :
  get_user (create_user d u username first_name now) u
  = Some (op_set [("username", py_or username (VStr "Unknown"));
                  ("first_name", py_or first_name (VStr "User"));
                  ("last_interaction", VTime now)]
            match get_user d u with
            | Some doc => doc
            | None =>
                op_set [("created_at", VTime now); ("accounts_limit", VInt 1);
                        ("has_joined_vouch", VBool false); ("state", VStr EmptyString);
                        ("user_id", VInt u); ("user_type", VStr "free")]
                  (list_to_map (by_user u))
            end).
Proof.
  unfold get_user, create_user, update_one_set_on_insert. rewrite coll_set_coll_eq.
  destruct (find_one (coll d "users") (by_user u)) as [doc|] eqn:Hf.
  - apply find_one_replace_first with doc; [done|].
    rewrite op_set_user_id by keys. by apply find_one_Some_matches in Hf.
  - apply find_one_app_new; [done|].
    rewrite op_set_user_id by keys. apply matches_by_user.
    unfold op_set. cbn [fold_left fst snd].
    rewrite lookup_insert_ne by discriminate. apply lookup_insert_eq.
Qed.

Lemma create_user_other_coll (d : DB) (u : Z) (username first_name : Value) (now : Z)
    (name : string) :
  name <> "users" -> coll (create_user d u username first_name now) name = coll d name.
Proof. intros H. unfold create_user. by rewrite coll_set_coll_ne. Qed.

(** X22: [create_user] on a user who has a document rewrites the two
    names and [last_interaction] and keeps every other field (the
    account limit, the type, the conversation state, the rotation
    settings); for a user without a document it creates one with account
    limit 1, type "free" and an empty state, which is what
    [get_user_status] and [get_user_state] then report. *)
Theorem create_user_keeps_profile (d : DB) (u : Z) (username first_name : Value)
    (now : Z) :
  let d' := create_user d u username first_name now in
  (exists doc', get_user d' u = Some doc'
                /\ doc' !! "username" = Some (py_or username (VStr "Unknown"))
                /\ doc' !! "first_name" = Some (py_or first_name (VStr "User"))
                /\ doc' !! "user_id" = Some (VInt u)
                /\ forall doc k, get_user d u = Some doc ->
                     k <> "username" -> k <> "first_name" -> k <> "last_interaction" ->
                     doc' !! k = doc !! k)
  /\ (get_user d u = None ->
      get_user_status d' u
      = Some {[ "user_type" := VStr "free"; "accounts_limit" := VInt 1 ]}
      /\ get_user_state d' u = VStr EmptyString).
Proof.
  cbv zeta. pose proof (get_user_create_user d u username first_name now) as Hg.
  split.
  - eexists. split; [exact Hg|]. split; [|split; [|split]].
    + unfold op_set. cbn [fold_left fst snd].
      rewrite !lookup_insert_ne by discriminate. apply lookup_insert_eq.
    + unfold op_set at 1. cbn [fold_left fst snd].
      rewrite lookup_insert_ne by discriminate. apply lookup_insert_eq.
    + rewrite op_set_lookup_ne by keys.
      destruct (get_user d u) as [doc|] eqn:Hu.
      * apply find_one_Some_matches in Hu. by apply matches_by_user in Hu.
      * unfold op_set. cbn [fold_left fst snd].
        rewrite lookup_insert_ne by discriminate. apply lookup_insert_eq.
    + intros doc k -> Hk1 Hk2 Hk3. apply op_set_lookup_ne.
      simpl. rewrite !not_elem_of_cons. repeat split; try done. apply not_elem_of_nil.
  - intros Hnone. rewrite Hnone in Hg. unfold get_user in Hg.
    unfold get_user_status, get_user_state. rewrite Hg.
    unfold get_or, op_set. cbn [fold_left fst snd].
    repeat first [ rewrite lookup_insert_eq | rewrite lookup_insert_ne by discriminate ].
    done.
Qed.

(** X23: without a user document [set_user_state] writes nothing (it does
    not upsert) and the state still reads empty; once [create_user] has
    made the document, a state that is written is the state read. *)
Theorem user_state_needs_profile (d : DB) (u : Z) (state username first_name : Value)
    (now now' : Z) :
  (get_user d u = None ->
   (forall name, coll (set_user_state d u state now) name = coll d name)
   /\ get_user_state (set_user_state d u state now) u = VStr EmptyString)
  /\ get_user_state (set_user_state (create_user d u username first_name now') u state now) u
     = state.
Proof.
  split.
  - unfold get_user. intros Hnone.
    assert (forall name, coll (set_user_state d u state now) name = coll d name) as Heq.
    { intros name. unfold set_user_state. rewrite update_one_set_eq, Hnone.
      destruct (decide ("users" = name)) as [<-|Hn].
      - by rewrite coll_set_coll_eq.
      - by rewrite coll_set_coll_ne. }
    split; [exact Heq|]. unfold get_user_state. by rewrite Heq, Hnone.
  - pose proof (get_user_create_user d u username first_name now') as Hg.
    unfold get_user in Hg. unfold get_user_state, set_user_state.
    rewrite coll_set_coll_eq, find_one_update_one_set_no_upsert by keys.
    rewrite Hg. cbn [fmap option_fmap option_map].
    unfold get_or, op_set at 1. cbn [fold_left fst snd].
    rewrite lookup_insert_ne by discriminate. by rewrite lookup_insert_eq.
Qed.

Lemma count_after_insert (c : Collection) (q : Query) (doc : Doc) :
  count_documents (insert_one c doc) q
  = count_documents c q + Z.b2z (matches q doc).
Proof.
  unfold count_documents, insert_one, find. rewrite List.filter_app, length_app.
  cbn [List.filter]. destruct (matches q doc); cbn [length Z.b2z]; lia.
Qed.

(** The account just inserted is counted once. *)
Lemma count_after_add (d : DB) (u : Z)
    (phone_number session_string first_name last_name : Value) (now : Z) :
  get_user_accounts_count
    (set_coll d "accounts"
       (insert_one (coll d "accounts")
          {[ "user_id" := VInt u; "phone_number" := phone_number;
             "session_string" := session_string; "first_name" := first_name;
             "last_name" := last_name; "is_active" := VBool true;
             "created_at" := VTime now ]})) u
  = get_user_accounts_count d u + 1.
Proof.
  unfold get_user_accounts_count. rewrite coll_set_coll_eq, count_after_insert.
  f_equal. replace (matches _ _) with true; [done|].
  symmetry. apply matches_by_user. apply lookup_insert_eq.
Qed.

Lemma add_user_account_counts (d : DB) (u : Z)
    (phone_number session_string first_name last_name : Value) (now : Z) :
  let r := add_user_account d u phone_number session_string first_name last_name now in
  get_user_accounts_count r.1 u = get_user_accounts_count d u + Z.b2z r.2.
Proof.
  cbv zeta. unfold add_user_account.
  destruct (get_user d u) as [user|]; cbn [fst snd Z.b2z]; [|lia].
  destruct (accounts_limit user <=? get_user_accounts_count d u);
    cbn [fst snd Z.b2z]; [lia|].
  apply count_after_add.
Qed.

(** X24: [add_user_account] never takes a user past the account limit:
    it adds exactly one account and answers True only for a user with a
    document whose number of accounts is below the limit worked out from
    it, and otherwise answers False and leaves the database as it
    was. *)
Theorem add_user_account_respects_limit (d : DB) (u : Z)
    (phone_number session_string first_name last_name : Value) (now : Z) :
  let r := add_user_account d u phone_number session_string first_name last_name now in
  get_user_accounts_count r.1 u = get_user_accounts_count d u + Z.b2z r.2
  /\ (r.2 = true ->
      exists user, get_user d u = Some user
                   /\ get_user_accounts_count r.1 u <= accounts_limit user)
  /\ (r.2 = false -> r.1 = d).
Proof.
  split; [apply add_user_account_counts|]. cbv zeta. unfold add_user_account.
  destruct (get_user d u) as [user|]; cbn [fst snd]; [|split; done].
  destruct (accounts_limit user <=? get_user_accounts_count d u) eqn:Hle;
    cbn [fst snd]; [split; done|].
  split; [|discriminate].
  intros _. exists user. split; [done|]. rewrite count_after_add.
  apply Z.leb_gt in Hle. lia.
Qed.

(** X25: a user the bot has just created can link one account and no
    second one: the first [add_user_account] answers True, the next one
    False, and one account is stored. *)
Theorem new_user_links_one_account (d : DB) (u : Z) (username first_name : Value)
    (phone1 session1 phone2 session2 : Value) (now : Z) :
  get_user d u = None ->
  get_user_accounts_count d u = 0 ->
  let d0 := create_user d u username first_name now in
  let r1 := add_user_account d0 u phone1 session1 (VStr EmptyString) (VStr EmptyString) now in
  let r2 := add_user_account r1.1 u phone2 session2 (VStr EmptyString) (VStr EmptyString) now in
  r1.2 = true /\ r2.2 = false /\ r2.1 = r1.1 /\ get_user_accounts_count r2.1 u = 1.
Proof.
  intros Hnone Hzero. cbv zeta.
  pose proof (get_user_create_user d u username first_name now) as Hg.
  rewrite Hnone in Hg.
  set (d0 := create_user d u username first_name now) in *.
  assert (get_user_accounts_count d0 u = 0) as Hc0.
  { unfold get_user_accounts_count, d0. by rewrite create_user_other_coll by discriminate. }
  assert (forall user, get_user d0 u = Some user -> accounts_limit user = 1) as Hlim.
  { intros user Hu. rewrite Hg in Hu. injection Hu as <-.
    unfold accounts_limit, get_or, op_set. cbn [fold_left fst snd].
    repeat first [ rewrite lookup_insert_eq | rewrite lookup_insert_ne by discriminate ].
    done. }
  pose proof (add_user_account_counts d0 u phone1 session1 (VStr EmptyString)
                (VStr EmptyString) now) as Hcnt1.
  cbv zeta in Hcnt1.
  assert ((add_user_account d0 u phone1 session1 (VStr EmptyString) (VStr EmptyString)
             now).2 = true) as H1.
  { unfold add_user_account. rewrite Hg. rewrite (Hlim _ Hg), Hc0. done. }
  set (r1 := add_user_account d0 u phone1 session1 (VStr EmptyString) (VStr EmptyString)
               now) in *.
  rewrite H1, Hc0 in Hcnt1. cbn [Z.b2z Z.add] in Hcnt1.
  assert (get_user r1.1 u = get_user d0 u) as Hu1.
  { unfold r1, add_user_account. rewrite Hg.
    destruct (_ <=? _); cbn [fst]; [by rewrite Hg|].
    unfold get_user. by rewrite coll_set_coll_ne by discriminate. }
  assert ((add_user_account r1.1 u phone2 session2 (VStr EmptyString) (VStr EmptyString)
             now) = (r1.1, false)) as H2.
  { unfold add_user_account at 1. rewrite Hu1, Hg. rewrite (Hlim _ Hg), Hcnt1. done. }
  rewrite H2. cbn [fst snd]. done.
Qed.

End Profiles.

(** ** Temporary data *)

Section TempData.
Import Driver Temp.

Lemma find_head (c : Collection) (q : Query) : head (find c q) = find_one c q.
Proof.
  unfold find, find_one. induction c as [|d c IH]; cbn [List.filter List.find]; [done|].
  by destruct (matches q d).
Qed.

Lemma temp_query_key (u : Z) (key : string) :
  key <> EmptyString ->
  temp_query u (Some key) = [("user_id", VInt u); ("key", VStr key)]
  /\ key_given (Some key) = true.
Proof.
  intros Hk. unfold temp_query, key_given.
  destruct (String.eqb key EmptyString) eqn:He; [by apply String.eqb_eq in He|done].
Qed.

Lemma matches_temp (u : Z) (key : string) (d : Doc) :
  matches [("user_id", VInt u); ("key", VStr key)] d = true
  <-> d !! "user_id" = Some (VInt u) /\ d !! "key" = Some (VStr key).
Proof.
  unfold matches. cbn [forallb fst snd].
  rewrite andb_true_r, andb_true_iff, !bool_decide_eq_true. done.
Qed.

Lemma temp_fields_keep (value : Value) (now : Z) (d : Doc) (k : string) :
  k = "user_id" \/ k = "key" ->
  op_set [("value", value); ("updated_at", VTime now)] d !! k = d !! k.
Proof.
  intros Hk. unfold op_set. cbn [fold_left fst snd].
  destruct Hk as [-> | ->]; by rewrite !lookup_insert_ne by discriminate.
Qed.

Lemma matches_temp_fields (u : Z) (key : string) (value : Value) (now : Z) (d : Doc) :
  matches [("user_id", VInt u); ("key", VStr key)]
    (op_set [("value", value); ("updated_at", VTime now)] d)
  = matches [("user_id", VInt u); ("key", VStr key)] d.
Proof.
  apply eq_true_iff_eq. rewrite !matches_temp. by rewrite !temp_fields_keep by auto.
Qed.

Lemma matches_temp_new (u : Z) (key : string) :
  matches [("user_id", VInt u); ("key", VStr key)]
    (list_to_map [("user_id", VInt u); ("key", VStr key)]) = true.
Proof.
  apply matches_temp. cbn [list_to_map foldr fst snd uncurry].
  split; [apply lookup_insert_eq|].
  rewrite lookup_insert_ne by discriminate. apply lookup_insert_eq.
Qed.

Lemma find_one_set_temp_data (d : DB) (u : Z) (key : string) (value : Value) (now : Z) :
  exists doc,
    find_one (coll (set_temp_data d u key value now) "temp_data")
      [("user_id", VInt u); ("key", VStr key)] = Some doc
    /\ doc !! "value" = Some value.
Proof.
  unfold set_temp_data. rewrite coll_set_coll_eq, update_one_set_eq.
  destruct (find_one (coll d "temp_data") _) as [doc|] eqn:Hf.
  - eexists. split.
    + apply find_one_replace_first with doc; [done|].
      rewrite matches_temp_fields. by apply find_one_Some_matches in Hf.
    + unfold op_set. cbn [fold_left fst snd].
      rewrite lookup_insert_ne by discriminate. apply lookup_insert_eq.
  - eexists. split.
    + apply find_one_app_new; [done|].
      rewrite matches_temp_fields. apply matches_temp_new.
    + unfold op_set. cbn [fold_left fst snd].
      rewrite lookup_insert_ne by discriminate. apply lookup_insert_eq.
Qed.

Lemma other_key_no_match (u : Z) (key key' : string) (d : Doc) :
  key <> key' ->
  matches [("user_id", VInt u); ("key", VStr key)] d = true ->
  matches [("user_id", VInt u); ("key", VStr key')] d = false.
Proof.
  intros Hne [_ Hk]%matches_temp.
  apply not_true_is_false. intros [_ Hk']%matches_temp. congruence.
Qed.

(** X26: temporary data is kept per user and key. A value stored under a
    non-empty key is the value read under that key, whatever was stored
    before; storing it leaves the values under the user's other keys as
    they were; and after [delete_temp_data] for the key nothing is
    read. *)
Theorem temp_data_round_trip (d : DB) (u : Z) (key key' : string) (value : Value)
    (now : Z) :
  key <> EmptyString -> key' <> EmptyString -> key <> key' ->
  let d' := set_temp_data d u key value now in
  get_temp_data d' u (Some key) = value
  /\ get_temp_data d' u (Some key') = get_temp_data d u (Some key')
  /\ get_temp_data (delete_temp_data d' u (Some key)).1 u (Some key) = VNone.
Proof.
  intros Hk Hk' Hne. cbv zeta.
  destruct (temp_query_key u key Hk) as [Hq Hg].
  destruct (temp_query_key u key' Hk') as [Hq' Hg'].
  split; [|split].
  - unfold get_temp_data. rewrite Hq, Hg.
    destruct (find_one_set_temp_data d u key value now) as (doc & Hf & Hv).
    rewrite <- find_head in Hf.
    destruct (find _ _) as [|first rest]; [discriminate|].
    cbn [head] in Hf. injection Hf as ->. unfold get_or. by rewrite Hv.
  - unfold get_temp_data. rewrite Hq', Hg'.
    assert (find (coll (set_temp_data d u key value now) "temp_data")
              [("user_id", VInt u); ("key", VStr key')]
            = find (coll d "temp_data") [("user_id", VInt u); ("key", VStr key')]) as ->;
      [|done].
    unfold set_temp_data. rewrite coll_set_coll_eq, update_one_set_eq. unfold find.
    destruct (find_one (coll d "temp_data") _) as [doc|] eqn:Hf.
    + apply filter_replace_first.
      * intros d0. by apply other_key_no_match.
      * apply (other_key_no_match u key key'); [done|].
        rewrite matches_temp_fields. by apply find_one_Some_matches in Hf.
    + apply filter_app_one. apply (other_key_no_match u key key'); [done|].
      rewrite matches_temp_fields. apply matches_temp_new.
  - unfold get_temp_data, delete_temp_data. cbn [fst]. rewrite Hq.
    by rewrite coll_set_coll_eq, find_delete_many.
Qed.

End TempData.

(** ** The time left in the window *)

Section RemainingTime.
Import Schedule Remaining.





(** X27: the check made once before the loop and the check made at every
    turn agree: [calculate_remaining_time_today] lets a run start
    exactly when [is_within_schedule] says the time is within the
    window, for every user document and every time, also on the error
    paths. *)
Theorem remaining_time_agrees_with_window (user_data : option Doc) (current_time : Z) :
  (calculate_remaining_time_today user_data current_time).1.1
  = (is_within_schedule user_data current_time).1.
Proof.
  unfold calculate_remaining_time_today, is_within_schedule.
  destruct user_data as [user_data|]; [|done].
  destruct (negb _); [done|].
  destruct (str_field user_data "schedule_start_time" _) as [s|]; [|done].
  destruct (str_field user_data "schedule_end_time" _) as [e|]; [|done].
  destruct (strptime_IMp s) as [start_time|]; [|done].
  destruct (strptime_IMp e) as [end_time|]; [|done].
  cbv zeta.
  destruct (start_time <=? end_time) eqn:Hse.
  - destruct (time_of current_time <? start_time) eqn:H1.
    + assert ((start_time <=? time_of current_time) = false) as -> by lia. done.
    + assert ((start_time <=? time_of current_time) = true) as -> by lia.
      destruct (end_time <? time_of current_time) eqn:H2.
      * assert ((time_of current_time <=? end_time) = false) as -> by lia. done.
      * assert ((time_of current_time <=? end_time) = true) as -> by lia. done.
  - destruct (start_time <=? time_of current_time) eqn:H1; [done|].
    destruct (time_of current_time <=? end_time) eqn:H2; done.
Qed.






End RemainingTime.

(** ** Post links *)

Section PostLinks.
Import Text Links.

Lemma is_digit_word (c : ascii) : is_digit c = true -> is_word c = true.
Proof. destruct c as [[] [] [] [] [] [] [] []]; vm_compute; done. Qed.

Lemma all_chars_cons (p : ascii -> bool) (c : ascii) (s : string) :
  all_chars p (String c s) = p c && all_chars p s.
Proof. done. Qed.

Lemma all_chars_app (p : ascii -> bool) (s1 s2 : string) :
  all_chars p (s1 +:+ s2) = all_chars p s1 && all_chars p s2.
Proof.
  induction s1 as [|c s1 IH]; [done|].
  change (String c s1 +:+ s2) with (String c (s1 +:+ s2)).
  by rewrite !all_chars_cons, IH, andb_assoc.
Qed.

Lemma all_chars_impl (p q : ascii -> bool) (s : string) :
  (forall c, p c = true -> q c = true) -> all_chars p s = true -> all_chars q s = true.
Proof.
  intros H. induction s as [|c s IH]; [done|].
  rewrite !all_chars_cons, !andb_true_iff. intros [Hc Hs]. auto.
Qed.

Lemma rstrip_keep (p : ascii -> bool) (s : string) :
  all_chars (fun c => negb (p c)) s = true -> rstrip p s = s.
Proof.
  induction s as [|c s IH]; [done|].
  rewrite all_chars_cons, andb_true_iff, negb_true_iff. intros [Hc Hs].
  cbn [rstrip]. rewrite IH by done. destruct s; [by rewrite Hc|done].
Qed.

Lemma rstrip_app (p : ascii -> bool) (s1 s2 : string) :
  s2 <> EmptyString -> rstrip p s2 = s2 -> rstrip p (s1 +:+ s2) = s1 +:+ s2.
Proof.
  intros Hne H2. induction s1 as [|c s1 IH]; [done|].
  change (String c s1 +:+ s2) with (String c (s1 +:+ s2)).
  cbn [rstrip]. rewrite IH.
  destruct (s1 +:+ s2) eqn:Happ; [|done].
  destruct s1; [by destruct Hne|discriminate].
Qed.

Lemma before_keep (c : ascii) (s : string) :
  all_chars (fun a => negb (Ascii.eqb a c)) s = true -> before c s = s.
Proof.
  induction s as [|a s IH]; [done|].
  rewrite all_chars_cons, andb_true_iff, negb_true_iff. intros [Ha Hs].
  cbn [before]. by rewrite Ha, IH.
Qed.

Lemma before_app (c : ascii) (s1 s2 : string) :
  all_chars (fun a => negb (Ascii.eqb a c)) s1 = true ->
  before c (s1 +:+ String c s2) = s1.
Proof.
  induction s1 as [|a s1 IH].
  - intros _. change (EmptyString +:+ String c s2) with (String c s2).
    cbn [before]. by rewrite Ascii.eqb_refl.
  - rewrite all_chars_cons, andb_true_iff, negb_true_iff. intros [Ha Hs].
    change (String a s1 +:+ String c s2) with (String a (s1 +:+ String c s2)).
    cbn [before]. by rewrite Ha, IH.
Qed.

Lemma after_app (c : ascii) (s1 s2 : string) :
  all_chars (fun a => negb (Ascii.eqb a c)) s1 = true ->
  after c (s1 +:+ String c s2) = Some s2.
Proof.
  induction s1 as [|a s1 IH].
  - intros _. change (EmptyString +:+ String c s2) with (String c s2).
    cbn [after]. by rewrite Ascii.eqb_refl.
  - rewrite all_chars_cons, andb_true_iff, negb_true_iff. intros [Ha Hs].
    change (String a s1 +:+ String c s2) with (String a (s1 +:+ String c s2)).
    cbn [after]. by rewrite Ha, IH.
Qed.

Lemma after_none (c : ascii) (s : string) :
  all_chars (fun a => negb (Ascii.eqb a c)) s = true -> after c s = None.
Proof.
  induction s as [|a s IH]; [done|].
  rewrite all_chars_cons, andb_true_iff, negb_true_iff. intros [Ha Hs].
  cbn [after]. by rewrite Ha, IH.
Qed.

(** A text without a colon holds no scheme to remove. *)
Lemma remove_all_keep (s : string) :
  all_chars (fun a => negb (Ascii.eqb a ":"%char)) s = true ->
  remove_all "https://" 0 s = s /\ remove_all "http://" 0 s = s.
Proof.
  induction s as [|a s IH]; [done|].
  rewrite all_chars_cons, andb_true_iff. intros [Ha Hs].
  destruct (IH Hs) as [IH1 IH2].
  assert (String.prefix "https://" (String a s) = false
          /\ String.prefix "http://" (String a s) = false) as [H1 H2].
  { clear IH IH1 IH2.
    assert (forall p, all_chars (fun a => negb (Ascii.eqb a ":"%char)) p = true ->
              String.prefix "://" p = false) as Hcolon.
    { intros [|b p]; [done|]. rewrite all_chars_cons, andb_true_iff, negb_true_iff.
      intros [Hb _]. cbn [String.prefix].
      destruct (ascii_dec ":" b) as [<-|]; [by rewrite Ascii.eqb_refl in Hb|done]. }
    assert (all_chars (fun a => negb (Ascii.eqb a ":"%char)) (String a s) = true) as Hall
      by (rewrite all_chars_cons; by apply andb_true_iff).
    split.
    - destruct (String a s) as [|c1 [|c2 [|c3 [|c4 [|c5 p]]]]]; cbn [String.prefix];
        repeat (destruct (ascii_dec _ _); [|done]); try done.
      apply Hcolon. rewrite !all_chars_cons, !andb_true_iff in Hall. tauto.
    - destruct (String a s) as [|c1 [|c2 [|c3 [|c4 p]]]]; cbn [String.prefix];
        repeat (destruct (ascii_dec _ _); [|done]); try done.
      apply Hcolon. rewrite !all_chars_cons, !andb_true_iff in Hall. tauto. }
  split; cbn [remove_all]; [rewrite H1, IH1|rewrite H2, IH2]; done.
Qed.

Lemma prefix_app (p r : string) : String.prefix p (p +:+ r) = true.
Proof.
  induction p as [|c p IH]; [by destruct r|].
  change (String c p +:+ r) with (String c (p +:+ r)). cbn [String.prefix].
  destruct (ascii_dec c c); [exact IH|done].
Qed.

Lemma path_char_plain (c : ascii) :
  path_char c = true ->
  py_space c = false /\ c <> ":"%char /\ c <> "?"%char /\ c <> "#"%char
  /\ c <> "@"%char /\ c <> "."%char.
Proof.
  destruct c as [[] [] [] [] [] [] [] []]; vm_compute; intros H;
    first [discriminate H | repeat split; discriminate].
Qed.

Lemma path_no_host (s : string) :
  all_chars path_char s = true -> String.prefix "t.me/" s = false.
Proof.
  destruct s as [|c1 [|c2 s]]; cbn [String.prefix]; [done| |].
  - by destruct (ascii_dec "t" c1).
  - rewrite !all_chars_cons, !andb_true_iff. intros (_ & H2 & _).
    destruct (ascii_dec "t" c1); [|done].
    destruct (ascii_dec "." c2) as [<-|]; [discriminate H2|done].
Qed.

Lemma word_is_path (s : string) :
  all_chars is_word s = true -> all_chars path_char s = true.
Proof. apply all_chars_impl. intros c Hc. unfold path_char. by rewrite Hc. Qed.

Lemma digits_are_path (s : string) :
  all_chars is_digit s = true -> all_chars path_char s = true.
Proof. intros H. apply word_is_path. revert H. apply all_chars_impl, is_digit_word. Qed.

Lemma word_not_slash (c : ascii) : is_word c = true -> Ascii.eqb c "/"%char = false.
Proof. destruct c as [[] [] [] [] [] [] [] []]; vm_compute; congruence. Qed.

Lemma strip_path (p : ascii -> bool) (c : ascii) (s : string) :
  p c = false -> all_chars (fun a => negb (p a)) (String c s) = true ->
  strip p (String c s) = String c s.
Proof.
  intros Hc Hall. unfold strip. cbn [lstrip]. rewrite Hc. by apply rstrip_keep.
Qed.

Lemma path_lacks (body : string) (x : ascii) :
  path_char x = false -> all_chars path_char body = true ->
  all_chars (fun a => negb (Ascii.eqb a x)) body = true.
Proof.
  intros Hx. apply all_chars_impl. intros c Hc. apply negb_true_iff.
  apply Ascii.eqb_neq. intros ->. congruence.
Qed.

Lemma path_no_blank (body : string) :
  all_chars path_char body = true ->
  all_chars (fun a => negb (py_space a)) body = true.
Proof.
  apply all_chars_impl. intros c Hc. by destruct (path_char_plain c Hc) as [-> _].
Qed.

Lemma remove_all_skip (old p r : string) :
  remove_all old (String.length p) (p +:+ r) = remove_all old 0 r.
Proof.
  induction p as [|c p IH]; [by destruct r|].
  change (String c p +:+ r) with (String c (p +:+ r)). cbn [String.length remove_all].
  exact IH.
Qed.

Lemma remove_all_lead (h : ascii) (o r : string) :
  remove_all (String h o) 0 (String h o +:+ r) = remove_all (String h o) 0 r.
Proof.
  pose proof (prefix_app (String h o) r) as Hp.
  change (String h o +:+ r) with (String h (o +:+ r)) in *.
  cbn [remove_all]. rewrite Hp.
  replace (String.length (String h o) - 1)%nat with (String.length o)
    by (cbn [String.length]; lia).
  apply remove_all_skip.
Qed.

Lemma remove_all_not_prefix (old : string) (c : ascii) (r : string) :
  String.prefix old (String c r) = false ->
  remove_all old 0 (String c r) = String c (remove_all old 0 r).
Proof. intros H. cbn [remove_all]. by rewrite H. Qed.

Lemma https_keeps_http (r : string) :
  remove_all "https://" 0 r = r ->
  remove_all "https://" 0 ("http://" +:+ r) = "http://" +:+ r.
Proof.
  intros H.
  change ("http://" +:+ r)
    with (String "h" (String "t" (String "t" (String "p"
            (String ":" (String "/" (String "/" r))))))).
  do 7 (rewrite remove_all_not_prefix by reflexivity). by rewrite H.
Qed.

(** The clean-up before the patterns: of the accepted forms of scheme
    and host only the path is left. *)
Lemma clean_up (pfx body : string) :
  In pfx link_prefixes -> is_path body ->
  (let s := lstrip (Ascii.eqb "@"%char)
              (remove_all "http://" 0 (remove_all "https://" 0 (strip py_space (pfx +:+ body)))) in
   let s := if String.prefix "t.me/" s then drop_chars 5 s else s in
   strip (Ascii.eqb "/"%char) (_strip_query_frag s)) = body.
Proof.
  intros Hp (Hall & (c & r & -> & Hc) & Hr). cbv zeta.
  pose proof (path_no_blank _ Hall) as Hblank.
  pose proof (path_lacks _ ":"%char eq_refl Hall) as Hcolon.
  destruct (remove_all_keep _ Hcolon) as [Hs Hh].
  assert (path_char c = true) as Hpc by (unfold path_char; by rewrite Hc).
  destruct (path_char_plain c Hpc) as (Hsp & _ & _ & _ & Hat & _).
  assert (strip (Ascii.eqb "/"%char) (_strip_query_frag (String c r)) = String c r) as Htidy.
  { unfold _strip_query_frag.
    rewrite (before_keep "?"%char) by (by apply path_lacks).
    rewrite (before_keep "#"%char) by (by apply path_lacks).
    unfold strip. cbn [lstrip]. rewrite Ascii.eqb_sym, (word_not_slash c Hc). exact Hr. }
  assert (lstrip (Ascii.eqb "@"%char) (String c r) = String c r) as Hl.
  { cbn [lstrip]. destruct (Ascii.eqb_spec "@"%char c) as [<-|]; [discriminate Hc|done]. }
  set (host := "t.me/" +:+ String c r).
  assert (all_chars (fun a => negb (py_space a)) host = true) as Hbh
    by (unfold host; rewrite all_chars_app; by rewrite Hblank).
  assert (all_chars (fun a => negb (Ascii.eqb a ":"%char)) host = true) as Hch
    by (unfold host; rewrite all_chars_app; by rewrite Hcolon).
  destruct (remove_all_keep _ Hch) as [Hs' Hh'].
  assert (lstrip (Ascii.eqb "@"%char) host = host) as Hl' by done.
  assert ((if String.prefix "t.me/" host then drop_chars 5 host else host) = String c r) as Hd
    by (unfold host; by rewrite prefix_app).
  unfold link_prefixes in Hp. cbn [In] in Hp.
  destruct Hp as [<-|[<-|[<-|[<-|[]]]]].
  - change (EmptyString +:+ String c r) with (String c r).
    rewrite strip_path by done. rewrite Hs, Hh, Hl, (path_no_host _ Hall). exact Htidy.
  - fold host. replace (strip py_space host) with host
      by (symmetry; by apply strip_path).
    rewrite Hs', Hh', Hl', Hd. exact Htidy.
  - change ("https://t.me/" +:+ String c r) with ("https://" +:+ host).
    replace (strip py_space ("https://" +:+ host)) with ("https://" +:+ host).
    2:{ assert (all_chars (fun a => negb (py_space a)) ("https://" +:+ host) = true) as Hb1
          by (rewrite all_chars_app; by rewrite Hbh).
        symmetry. apply strip_path; [done|exact Hb1]. }
    rewrite remove_all_lead, Hs', Hh', Hl', Hd. exact Htidy.
  - change ("http://t.me/" +:+ String c r) with ("http://" +:+ host).
    replace (strip py_space ("http://" +:+ host)) with ("http://" +:+ host).
    2:{ assert (all_chars (fun a => negb (py_space a)) ("http://" +:+ host) = true) as Hb1
          by (rewrite all_chars_app; by rewrite Hbh).
        symmetry. apply strip_path; [done|exact Hb1]. }
    rewrite (https_keeps_http host Hs'), remove_all_lead, Hh', Hl', Hd. exact Htidy.
Qed.

Lemma digits_lack_slash (s : string) :
  all_chars is_digit s = true ->
  all_chars (fun a => negb (Ascii.eqb a "/"%char)) s = true.
Proof.
  apply all_chars_impl. intros c Hc. apply negb_true_iff, word_not_slash.
  by apply is_digit_word.
Qed.

Lemma words_lack_slash (s : string) :
  all_chars is_word s = true ->
  all_chars (fun a => negb (Ascii.eqb a "/"%char)) s = true.
Proof. apply all_chars_impl. intros c Hc. by apply negb_true_iff, word_not_slash. Qed.

Lemma rstrip_slash_digits (s : string) :
  all_chars is_digit s = true -> rstrip (Ascii.eqb "/"%char) s = s.
Proof.
  intros H. apply rstrip_keep. revert H. apply all_chars_impl.
  intros c Hc. apply negb_true_iff. rewrite Ascii.eqb_sym.
  by apply word_not_slash, is_digit_word.
Qed.

Lemma nonempty_all_true (p : ascii -> bool) (s : string) :
  s <> EmptyString -> all_chars p s = true -> nonempty_all p s = true.
Proof.
  intros Hne Hall. unfold nonempty_all. rewrite Hall, andb_true_r.
  apply negb_true_iff. by apply String.eqb_neq.
Qed.

Lemma int_of_digits_short (s : string) :
  (String.length s <= max_str_digits)%nat -> int_of_digits s = Some (digits_value 0 s).
Proof.
  intros H. unfold int_of_digits.
  destruct (max_str_digits <? String.length s)%nat eqn:E; [|done].
  apply Nat.ltb_lt in E. lia.
Qed.

Lemma public_is_path (u m : string) :
  u <> EmptyString -> all_chars is_word u = true ->
  m <> EmptyString -> all_chars is_digit m = true ->
  is_path (u +:+ String "/" m).
Proof.
  intros Hu Hw Hm Hd. split; [|split].
  - rewrite all_chars_app, all_chars_cons, (word_is_path u Hw), (digits_are_path m Hd). done.
  - destruct u as [|c u]; [done|]. exists c, (u +:+ String "/" m).
    rewrite all_chars_cons in Hw. apply andb_true_iff in Hw as [Hc _]. done.
  - apply rstrip_app; [done|]. cbn [rstrip]. rewrite (rstrip_slash_digits m Hd).
    by destruct m.
Qed.

Lemma private_is_path (n m : string) :
  all_chars is_digit n = true ->
  m <> EmptyString -> all_chars is_digit m = true ->
  is_path (String "c" (String "/" (n +:+ String "/" m))).
Proof.
  intros Hn Hm Hd. split; [|split].
  - rewrite !all_chars_cons, all_chars_app, all_chars_cons,
      (digits_are_path n Hn), (digits_are_path m Hd). done.
  - by eexists _, _.
  - apply (rstrip_app _ (String "c" (String "/" n)) (String "/" m)); [done|].
    cbn [rstrip]. rewrite (rstrip_slash_digits m Hd). by destruct m.
Qed.

Lemma public_not_private (u m : string) :
  all_chars is_word u = true -> all_chars is_digit m = true ->
  match_private (u +:+ String "/" m) = None.
Proof.
  intros Hw Hd. unfold match_private.
  destruct u as [|c1 [|c2 u]].
  - done.
  - change (String c1 EmptyString +:+ String "/" m) with (String c1 (String "/" m)).
    cbn [String.prefix drop_chars]. destruct (ascii_dec "c" c1); [|done].
    destruct (ascii_dec "/" "/"); [|done].
    rewrite (after_none "/"%char m (digits_lack_slash m Hd)).
    by destruct (String.prefix _ _).
  - change (String c1 (String c2 u) +:+ String "/" m)
      with (String c1 (String c2 (u +:+ String "/" m))).
    cbn [String.prefix]. destruct (ascii_dec "c" c1); [|done].
    destruct (ascii_dec "/" c2) as [<-|]; [|done].
    rewrite !all_chars_cons in Hw. apply andb_true_iff in Hw as [_ Hw].
    apply andb_true_iff in Hw as [Hw _]. discriminate Hw.
Qed.

Lemma match_public_app (u m : string) :
  u <> EmptyString -> all_chars is_word u = true ->
  m <> EmptyString -> all_chars is_digit m = true ->
  match_public (u +:+ String "/" m) = Some (u, m).
Proof.
  intros Hu Hw Hm Hd. unfold match_public.
  rewrite (after_app "/"%char u m (words_lack_slash u Hw)). cbv zeta.
  rewrite (before_app "/"%char u m (words_lack_slash u Hw)).
  by rewrite !nonempty_all_true.
Qed.

Lemma match_private_app (n m : string) :
  n <> EmptyString -> all_chars is_digit n = true ->
  m <> EmptyString -> all_chars is_digit m = true ->
  match_private (String "c" (String "/" (n +:+ String "/" m))) = Some (n, m).
Proof.
  intros Hu Hw Hm Hd. unfold match_private.
  cbn [String.prefix drop_chars]. destruct (ascii_dec "c" "c"); [|done].
  destruct (ascii_dec "/" "/"); [|done].
  replace (String.prefix EmptyString (n +:+ String "/" m)) with true
    by (by destruct (n +:+ String "/" m)).
  rewrite (after_app "/"%char n m (digits_lack_slash n Hw)). cbv zeta.
  rewrite (before_app "/"%char n m (digits_lack_slash n Hw)).
  by rewrite !nonempty_all_true.
Qed.

(** X29: the documented link forms are read as documented. With or
    without [t.me/] and the scheme in front, [username/number] gives
    the username and the number, and [c/id/number] gives the number and
    the peer [-100 * id]: the product, not the id written after the
    digits 100. *)
Theorem parse_post_link_reads_documented_forms (pfx u n m : string) :
  In pfx link_prefixes ->
  u <> EmptyString -> all_chars is_word u = true ->
  n <> EmptyString -> all_chars is_digit n = true ->
  m <> EmptyString -> all_chars is_digit m = true ->
  (String.length n <= max_str_digits)%nat -> (String.length m <= max_str_digits)%nat ->
  parse_post_link (pfx +:+ u +:+ "/" +:+ m) = Link (PeerName u) (digits_value 0 m)
  /\ parse_post_link (pfx +:+ "c/" +:+ n +:+ "/" +:+ m)
     = Link (PeerId (-100 * digits_value 0 n)) (digits_value 0 m).
Proof.
  intros Hp Hu Hw Hn Hdn Hm Hdm Hln Hlm. split.
  - change (u +:+ "/" +:+ m) with (u +:+ String "/" m).
    pose proof (clean_up pfx _ Hp (public_is_path u m Hu Hw Hm Hdm)) as Hc.
    cbv zeta in Hc. unfold parse_post_link. cbv zeta. rewrite Hc.
    rewrite public_not_private, match_public_app, int_of_digits_short by done. done.
  - change ("c/" +:+ n +:+ "/" +:+ m) with (String "c" (String "/" (n +:+ String "/" m))).
    pose proof (clean_up pfx _ Hp (private_is_path n m Hdn Hm Hdm)) as Hc.
    cbv zeta in Hc. unfold parse_post_link. cbv zeta. rewrite Hc.
    rewrite match_private_app, !int_of_digits_short by done. done.
Qed.

End PostLinks.

(** ** Masked phone numbers *)

Section Masking.
Import Text Links.

Lemma length_app (s1 s2 : string) :
  String.length (s1 +:+ s2) = (String.length s1 + String.length s2)%nat.
Proof.
  induction s1 as [|c s1 IH]; [done|].
  change (String c s1 +:+ s2) with (String c (s1 +:+ s2)). cbn [String.length]. by rewrite IH.
Qed.

Lemma length_take_prefix (n : nat) (s : string) :
  (n <= String.length s)%nat -> String.length (Str.take_prefix n s) = n.
Proof.
  unfold Str.take_prefix. revert s. induction n as [|n IH]; intros s Hn.
  - by destruct s.
  - destruct s as [|c s]; cbn [String.length] in *; [lia|].
    cbn [String.substring String.length]. rewrite IH; lia.
Qed.

Lemma length_repeat_char (c : ascii) (n : nat) : String.length (repeat_char c n) = n.
Proof. induction n as [|n IH]; [done|]. cbn [repeat_char String.length]. by rewrite IH. Qed.

Lemma get_repeat_char (c : ascii) (n i : nat) :
  (i < n)%nat -> String.get i (repeat_char c n) = Some c.
Proof.
  revert i. induction n as [|n IH]; intros i Hi; [lia|].
  destruct i as [|i]; [done|]. cbn [repeat_char String.get]. apply IH. lia.
Qed.

Lemma length_drop_chars (n : nat) (s : string) :
  String.length (drop_chars n s) = (String.length s - n)%nat.
Proof.
  revert s. induction n as [|n IH]; intros s.
  - cbn [drop_chars]. lia.
  - destruct s as [|c s]; [done|]. cbn [drop_chars String.length]. apply IH.
Qed.

Lemma get_drop_chars (n i : nat) (s : string) :
  (n <= String.length s)%nat -> String.get i (drop_chars n s) = String.get (i + n) s.
Proof.
  revert s. induction n as [|n IH]; intros s Hn.
  - cbn [drop_chars]. by rewrite Nat.add_0_r.
  - destruct s as [|c s]; cbn [String.length] in Hn; [lia|].
    cbn [drop_chars]. rewrite IH by lia.
    replace (i + S n)%nat with (S (i + n)) by lia. done.
Qed.

(** X30: a masked phone number is as long as the number and shows its
    first three and last three characters, with a star at every
    position between; a number of six characters or fewer is shown in
    full. *)
Theorem mask_phone_number_shape (phone : string) (i : nat) :
  phone <> EmptyString ->
  String.length (mask_phone_number phone) = String.length phone
  /\ ((i < 3 \/ String.length phone - 3 <= i \/ String.length phone <= 6)%nat ->
      String.get i (mask_phone_number phone) = String.get i phone)
  /\ ((3 <= i < String.length phone - 3)%nat ->
      String.get i (mask_phone_number phone) = Some "*"%char).
Proof.
  intros Hne. unfold mask_phone_number.
  replace (String.eqb phone EmptyString) with false
    by (symmetry; by apply String.eqb_neq).
  destruct (6 <? String.length phone)%nat eqn:Hlen.
  2:{ apply Nat.ltb_ge in Hlen. split; [done|]. split; [done|]. intros Hi. lia. }
  apply Nat.ltb_lt in Hlen.
  set (n := String.length phone) in *.
  set (A := Str.take_prefix 3 phone).
  set (B := repeat_char "*"%char (n - 6)).
  set (C := last_chars 3 phone).
  assert (String.length A = 3%nat) as HA by (apply length_take_prefix; fold n; lia).
  assert (String.length B = (n - 6)%nat) as HB by apply length_repeat_char.
  assert (String.length C = 3%nat) as HC
    by (unfold C, last_chars; rewrite length_drop_chars; fold n; lia).
  assert (forall j, (n - 6 <= j)%nat -> String.get j (B +:+ C) = String.get (j + 3) phone)
    as Htail.
  { intros j Hj.
    replace j with ((j - (n - 6)) + String.length B)%nat at 1 by lia.
    rewrite <- append_correct2. unfold C, last_chars. fold n.
    rewrite get_drop_chars by (fold n; lia). f_equal. lia. }
  split; [|split].
  - rewrite !length_app, HA, HB, HC. lia.
  - intros [Hi|[Hi|Hi]]; [| |lia].
    + rewrite <- append_correct1 by lia. unfold A, Str.take_prefix.
      rewrite substring_correct1 by lia. f_equal. lia.
    + replace i with ((i - 3) + String.length A)%nat at 1 by lia.
      rewrite <- append_correct2, Htail by lia. f_equal. lia.
  - intros Hi.
    replace i with ((i - 3) + String.length A)%nat by lia.
    rewrite <- append_correct2, <- append_correct1 by lia.
    apply get_repeat_char. lia.
Qed.

End Masking.

(** ** The properties above at concrete inputs *)

Section Instances.
Import Engine Analysis Control Scenario Cases Observe.

Lemma run_loop_leaves_other_users_witness :
  bob <> uid cfg_alice
  /\ find (coll (db (turn_state (run_loop 2 (world_refusing exn_denied) cfg_alice None
                                   st_two_users))) "analytics")
          [("user_id", VInt bob)]
     = find (coll (db st_two_users) "analytics") [("user_id", VInt bob)].
Proof.
  split; [discriminate|].
  apply (run_loop_leaves_other_users 2 (world_refusing exn_denied) cfg_alice None
           st_two_users bob "analytics" []).
  discriminate.
Defined.

Lemma stop_button_cancels_and_resets_witness :
  is_running (app_db app_running) alice = true
  /\ (stop_broadcast_callback app_running alice 0).2 = BroadcastStopped
  /\ user_tasks (stop_broadcast_callback app_running alice 0).1 !! alice = None
  /\ get_current_ad_cycle (app_db (stop_broadcast_callback app_running alice 0).1) alice
     = VInt 0
  /\ is_running (app_db (stop_broadcast_callback app_running alice 0).1) alice = false.
Proof.
  split; [reflexivity|].
  apply (stop_button_cancels_and_resets app_running alice 0). reflexivity.
Defined.


Lemma second_start_is_refused_witness :
  (start_broadcast_callback app_logger_not_started alice None 0).2 = BroadcastStarted
  /\ (go_command app_logger_not_started alice 0).2 = BroadcastStarted
  /\ (start_broadcast_callback
        (start_broadcast_callback app_logger_not_started alice None 0).1 alice None 5).2
     = BroadcastAlreadyRunning
  /\ (go_command (go_command app_logger_not_started alice 0).1 alice 5).2
     = BroadcastAlreadyRunning.
Proof.
  destruct (second_start_is_refused app_logger_not_started alice None None 0 5)
    as [Hstart Hgo].
  assert ((start_broadcast_callback app_logger_not_started alice None 0).2
          = BroadcastStarted) as H1 by (vm_compute; reflexivity).
  assert ((go_command app_logger_not_started alice 0).2 = BroadcastStarted) as H2
    by (vm_compute; reflexivity).
  split; [exact H1|]. split; [exact H2|]. split.
  - rewrite (Hstart H1). reflexivity.
  - rewrite (Hgo (or_introl H2)). reflexivity.
Defined.

Lemma delete_user_fully_leaves_other_users_witness :
  bob <> alice
  /\ find (coll (delete_user_fully db_two_users alice).1 "users") [("user_id", VInt bob)]
     = find (coll db_two_users "users") [("user_id", VInt bob)].
Proof.
  split; [discriminate|].
  apply (delete_user_fully_leaves_other_users db_two_users alice bob "users" []).
  discriminate.
Defined.

Lemma analysed_ids_respect_lists_witness :
  -1001 ∈ analyze_account_groups_fast (Some dialogs_three) [-1001; -1006] [-1005]
  /\ (-1001 ∉ [-1005])
  /\ ([-1001; -1006] = [] \/ -1001 ∈ [-1001; -1006]).
Proof.
  assert (-1001 ∈ analyze_account_groups_fast (Some dialogs_three) [-1001; -1006] [-1005])
    as Hin by (vm_compute; left).
  split; [exact Hin|].
  destruct (analysed_ids_respect_lists (Some dialogs_three) [-1001; -1006] [-1005] (-1001)
              Hin) as (Hskip & Htg & _).
  split; [exact Hskip|exact Htg].
Defined.

Lemma removed_group_stays_removed_witness :
  (group_denied ∉ working_groups (st_start [group_open]) 1)
  /\ (group_denied ∉ working_groups
        (turn_state (run_loop 2 (world_refusing exn_denied) cfg_alice None
                       (st_start [group_open]))) 1).
Proof.
  assert (group_denied ∉ working_groups (st_start [group_open]) 1) as Hnot.
  { vm_compute. intros H. apply list_elem_of_In in H. simpl in H.
    destruct H as [H|[]]. discriminate H. }
  split; [exact Hnot|].
  apply (removed_group_stays_removed 2 (world_refusing exn_denied) cfg_alice None
           (st_start [group_open]) 1 group_denied Hnot).
Defined.

Lemma rotation_pointer_after_completed_cycles_witness :
  get_current_ad_cycle (db st_rotating) (uid cfg_alice) = VInt 0
  /\ run_loop 2 (world_refusing exn_denied) cfg_alice None st_rotating
     = Again (turn_state (run_loop 2 (world_refusing exn_denied) cfg_alice None st_rotating))
  /\ get_current_ad_cycle
       (db (turn_state (run_loop 2 (world_refusing exn_denied) cfg_alice None st_rotating)))
       (uid cfg_alice)
     = VInt 2.
Proof.
  assert (run_loop 2 (world_refusing exn_denied) cfg_alice None st_rotating
          = Again (turn_state (run_loop 2 (world_refusing exn_denied) cfg_alice None
                                 st_rotating))) as Hrun by (vm_compute; reflexivity).
  split; [reflexivity|]. split; [exact Hrun|].
  destruct (rotation_pointer_after_completed_cycles 2 (world_refusing exn_denied) cfg_alice
              None st_rotating _ eq_refl Hrun) as [_ Hptr].
  rewrite Hptr. vm_compute. reflexivity.
Defined.

End Instances.

(** ** The adapter and helper properties at concrete inputs *)

Section AdapterInstances.
Import Schedule Engine Control Scenario Cases Driver Users Delays Text Accounts Targets Temp
  Remaining Links.

Lemma settings_leave_other_users_witness :
  bob <> alice
  /\ get_user_ad_delay (set_user_ad_delay db_two_users alice (VInt 120) 0) bob
     = get_user_ad_delay db_two_users bob
  /\ get_current_ad_cycle (set_user_saved_messages_count db_two_users alice (VInt 120) 0) bob
     = VInt 2.
Proof.
  split; [discriminate|].
  destruct (settings_leave_other_users db_two_users alice bob (VInt 120) 0)
    as (Hdelay & _ & _ & _ & Hcycle & _); [discriminate|].
  split; [exact Hdelay|]. rewrite Hcycle. reflexivity.
Defined.

Lemma select_then_unselect_restores_witness :
  get_target_group db_two_users alice (-1001) = None
  /\ coll (remove_target_group
             (add_target_group db_two_users alice (-1001) (VStr "Market") 0) alice (-1001))
          "target_groups"
     = coll db_two_users "target_groups".
Proof.
  split; [reflexivity|].
  apply (select_then_unselect_restores db_two_users alice (-1001) (VStr "Market") 0).
  reflexivity.
Defined.

Lemma new_user_links_one_account_witness :
  get_user db_two_users carol = None
  /\ get_user_accounts_count db_two_users carol = 0
  /\ get_user_accounts_count
       (add_user_account
          (add_user_account (create_user db_two_users carol (VStr "carol") VNone 0) carol
             (VStr "+10000000001") (VStr "s1") (VStr EmptyString) (VStr EmptyString) 0).1
          carol (VStr "+10000000002") (VStr "s2") (VStr EmptyString) (VStr EmptyString) 0).1
       carol
     = 1.
Proof.
  split; [reflexivity|]. split; [reflexivity|].
  apply (new_user_links_one_account db_two_users carol (VStr "carol") VNone
           (VStr "+10000000001") (VStr "s1") (VStr "+10000000002") (VStr "s2") 0);
    reflexivity.
Defined.

Lemma temp_data_round_trip_witness :
  "api_id" <> EmptyString /\ "api_hash" <> EmptyString /\ "api_id" <> "api_hash"
  /\ get_temp_data (set_temp_data db_two_users alice "api_id" (VInt 12345) 0) alice
       (Some "api_id")
     = VInt 12345
  /\ get_temp_data
       (delete_temp_data (set_temp_data db_two_users alice "api_id" (VInt 12345) 0) alice
          (Some "api_id")).1 alice (Some "api_id")
     = VNone.
Proof.
  split; [discriminate|]. split; [discriminate|]. split; [discriminate|].
  destruct (temp_data_round_trip db_two_users alice "api_id" "api_hash" (VInt 12345) 0)
    as (Hget & _ & Hdel); [discriminate..|].
  split; [exact Hget|exact Hdel].
Defined.


Lemma parse_post_link_reads_documented_forms_witness :
  In "https://t.me/" link_prefixes
  /\ parse_post_link "https://t.me/durov/789" = Link (PeerName "durov") 789
  /\ parse_post_link "https://t.me/c/123456/789" = Link (PeerId (-12345600)) 789.
Proof.
  assert (In "https://t.me/" link_prefixes) as Hin by (right; right; left; reflexivity).
  split; [exact Hin|].
  apply (parse_post_link_reads_documented_forms "https://t.me/" "durov" "123456" "789" Hin);
    first [discriminate | reflexivity | (vm_compute; lia)].
Defined.

Lemma mask_phone_number_shape_witness :
  "+919332618150" <> EmptyString
  /\ String.length (mask_phone_number "+919332618150") = 13%nat
  /\ String.get 2 (mask_phone_number "+919332618150") = Some "1"%char
  /\ String.get 3 (mask_phone_number "+919332618150") = Some "*"%char.
Proof.
  split; [discriminate|].
  destruct (mask_phone_number_shape "+919332618150" 2) as (Hlen & Hends & _);
    [discriminate|].
  destruct (mask_phone_number_shape "+919332618150" 3) as (_ & _ & Hstar);
    [discriminate|].
  split; [exact Hlen|]. split.
  - rewrite Hends by (left; lia). reflexivity.
  - apply Hstar. cbn [String.length]. lia.
Defined.

End AdapterInstances.
